(** * Calendly-Integration: slot generation and booking

    A shallow embedding of [backend/api/calendly_integration.py] and of the
    parts of Python's [datetime] / [_strptime] modules it calls, followed by
    the properties of slot generation, conflict detection and booking. *)

From Stdlib Require Import ZArith Lia String Ascii List Bool.
From stdpp Require Import base option list gmap strings.

Local Open Scope Z_scope.

(** ** Exceptions and outcomes

    Python exceptions that the module can raise.  [HTTPException] is FastAPI's;
    the others escape the endpoint uncaught (FastAPI answers 500 for them).
    [FuelExhausted] is not a Python exception: it marks a [while] loop cut off
    by the iteration bound of the embedding, see [slots_loop]. *)

Inductive exn : Type :=
  | HTTPException (status_code : Z) (detail : string)
  | ValueError
  | KeyError
  | OverflowError
  | FuelExhausted.

Inductive outcome (A : Type) : Type :=
  | Return (a : A)
  | Raise (e : exn).
Arguments Return {A} a.
Arguments Raise {A} e.

Definition obind {A B} (o : outcome A) (f : A → outcome B) : outcome B :=
  match o with
  | Return a => f a
  | Raise e => Raise e
  end.

Declare Scope outcome_scope.
Delimit Scope outcome_scope with outcome.
Notation "x <- o ; k" := (obind o (λ x, k))
  (at level 20, o at level 100, k at level 200, only parsing) : outcome_scope.

(** ** Python's [datetime] and [strptime], as far as the module uses them *)

Module PyDatetime.

(** *** Character classes of the [re] module

    A text is a [string] whose characters stand for the code points below
    256; on such texts the classes below are those of [re] for [str]
    patterns.  (Beyond that range Python knows more decimal digits and more
    white space.) *)

Definition code (c : ascii) : Z := Z.of_N (N_of_ascii c).

(** [\d] *)
Definition digit_of (c : ascii) : option Z :=
  if (48 <=? code c) && (code c <=? 57) then Some (code c - 48) else None.

(** [[lo-hi]] for digits [lo], [hi] *)
Definition digit_in (lo hi : Z) (c : ascii) : option Z :=
  match digit_of c with
  | Some d => if (lo <=? d) && (d <=? hi) then Some d else None
  | None => None
  end.

(** [\s]: tab, line feed, vertical tab, form feed, carriage return, the four
    separators 0x1c-0x1f, space, next line (0x85) and no-break space (0xa0). *)
Definition is_space (c : ascii) : bool :=
  ((9 <=? code c) && (code c <=? 13)) || ((28 <=? code c) && (code c <=? 31))
  || (code c =? 32) || (code c =? 133) || (code c =? 160).

Definition lit (c : ascii) (c' : ascii) : option unit :=
  if Ascii.eqb c c' then Some tt else None.

(** *** Backtracking matchers

    [re.match] explores alternatives left to right and quantifiers greedily,
    and returns the first way of matching the whole pattern at the start of
    the text.  A matcher lists all ways of matching, in that order, each with
    the captured value and the text left over. *)

Definition matcher (A : Type) : Type := string → list (A * string).

Definition m_ret {A} (a : A) : matcher A := λ s, [(a, s)].

Definition m_bind {A B} (p : matcher A) (f : A → matcher B) : matcher B :=
  λ s, flat_map (λ ar, f (fst ar) (snd ar)) (p s).

Definition m_alt {A} (p q : matcher A) : matcher A := λ s, p s ++ q s.

Definition m_char {A} (f : ascii → option A) : matcher A :=
  λ s, match s with
       | String c r => match f c with Some a => [(a, r)] | None => [] end
       | EmptyString => []
       end.

Declare Scope matcher_scope.
Delimit Scope matcher_scope with matcher.
Notation "x <~ p ; k" := (m_bind p (λ x, k))
  (at level 20, p at level 100, k at level 200, only parsing) : matcher_scope.
Infix "<|>" := m_alt (at level 50, left associativity) : matcher_scope.

Local Open Scope matcher_scope.

(** [\s*], greedy: the longest run first. *)
Fixpoint ws_star (s : string) : list (unit * string) :=
  match s with
  | String c r => if is_space c then ws_star r ++ [(tt, s)] else [(tt, s)]
  | EmptyString => [(tt, s)]
  end.

(** [\s+], which [_strptime] substitutes for white space in a format. *)
Definition re_ws : matcher unit :=
  λ s, match s with
       | String c r => if is_space c then ws_star r else []
       | EmptyString => []
       end.

(** The directives' patterns, from [_strptime.TimeRE]:
    [%Y] is [\d\d\d\d], [%m] is [1[0-2]|0[1-9]|[1-9]],
    [%d] is [3[0-1]|[1-2]\d|0[1-9]|[1-9]| [1-9]],
    [%H] is [2[0-3]|[0-1]\d|\d] and [%M] is [[0-5]\d|\d]. *)

Definition re_Y : matcher Z :=
  a <~ m_char digit_of; b <~ m_char digit_of;
  c <~ m_char digit_of; d <~ m_char digit_of;
  m_ret (1000 * a + 100 * b + 10 * c + d).

Definition re_m : matcher Z :=
  (_ <~ m_char (lit "1"); d <~ m_char (digit_in 0 2); m_ret (10 + d))
  <|> (_ <~ m_char (lit "0"); d <~ m_char (digit_in 1 9); m_ret d)
  <|> m_char (digit_in 1 9).

(** The first four alternatives of [%d]. *)
Definition re_d_digits : matcher Z :=
  (_ <~ m_char (lit "3"); d <~ m_char (digit_in 0 1); m_ret (30 + d))
  <|> (t <~ m_char (digit_in 1 2); d <~ m_char digit_of; m_ret (10 * t + d))
  <|> (_ <~ m_char (lit "0"); d <~ m_char (digit_in 1 9); m_ret d)
  <|> m_char (digit_in 1 9).

(** The last alternative of [%d]: a space and one digit. *)
Definition re_d_space : matcher Z :=
  _ <~ m_char (lit " "); m_char (digit_in 1 9).

Definition re_d : matcher Z := re_d_digits <|> re_d_space.

Definition re_H : matcher Z :=
  (_ <~ m_char (lit "2"); d <~ m_char (digit_in 0 3); m_ret (20 + d))
  <|> (t <~ m_char (digit_in 0 1); d <~ m_char digit_of; m_ret (10 * t + d))
  <|> m_char digit_of.

Definition re_M : matcher Z :=
  (t <~ m_char (digit_in 0 5); d <~ m_char digit_of; m_ret (10 * t + d))
  <|> m_char digit_of.

(** The part of ["%Y-%m-%d"] before [%d]. *)
Definition re_Ym : matcher (Z * Z) :=
  y <~ re_Y; _ <~ m_char (lit "-"); m <~ re_m; _ <~ m_char (lit "-");
  m_ret (y, m).

(** ["%Y-%m-%d"] *)
Definition re_Ymd : matcher (Z * Z * Z) :=
  ym <~ re_Ym; d <~ re_d; m_ret (ym, d).

(** [" %H:%M"], the rest of ["%Y-%m-%d %H:%M"] *)
Definition re_HM : matcher (Z * Z) :=
  _ <~ re_ws; h <~ re_H; _ <~ m_char (lit ":"); m <~ re_M; m_ret (h, m).

(** ["%Y-%m-%d %H:%M"] *)
Definition re_YmdHM : matcher (Z * Z * Z * (Z * Z)) :=
  ym <~ re_Ym; d <~ re_d; hm <~ re_HM; m_ret (ym, d, hm).

(** *** The proleptic Gregorian calendar of [datetime] *)

Definition is_leap (y : Z) : bool :=
  (y mod 4 =? 0) && (negb (y mod 100 =? 0) || (y mod 400 =? 0)).

Definition days_in_month (y m : Z) : Z :=
  match m with
  | 1 | 3 | 5 | 7 | 8 | 10 | 12 => 31
  | 4 | 6 | 9 | 11 => 30
  | 2 => if is_leap y then 29 else 28
  | _ => 0
  end.

Definition days_before_year (y : Z) : Z :=
  (y - 1) * 365 + (y - 1) / 4 - (y - 1) / 100 + (y - 1) / 400.

(** [_DAYS_BEFORE_MONTH[m] + (m > 2 and _is_leap(y))] *)
Definition days_before_month (y m : Z) : Z :=
  match m with
  | 1 => 0 | 2 => 31 | 3 => 59 | 4 => 90 | 5 => 120 | 6 => 151
  | 7 => 181 | 8 => 212 | 9 => 243 | 10 => 273 | 11 => 304 | 12 => 334
  | _ => 0
  end + (if (2 <? m) && is_leap y then 1 else 0).

(** [date(y, m, d).toordinal()]; 0001-01-01 is day 1. *)
Definition ymd2ord (y m d : Z) : Z :=
  days_before_year y + days_before_month y m + d.

(** [date(y, m, d)] raises [ValueError] outside these ranges. *)
Definition valid_date (y m d : Z) : bool :=
  (1 <=? y) && (y <=? 9999) && (1 <=? m) && (m <=? 12)
  && (1 <=? d) && (d <=? days_in_month y m).

(** A [datetime] with whole minutes is represented by the number of minutes
    since the start of ordinal day 0: day [o], [h]:[m] is
    [o * 1440 + h * 60 + m].  Comparison of datetimes is comparison of these
    numbers, and adding [timedelta(minutes=n)] is adding [n]. *)
Definition datetime : Type := Z.

Definition mk_datetime (ord h m : Z) : datetime := ord * 1440 + h * 60 + m.

(** [datetime.min] and the last whole minute before [datetime.max] *)
Definition dt_min : datetime := 1 * 1440.
Definition dt_max : datetime := 3652059 * 1440 + 1439.

(** [dt + timedelta(minutes=n)]: [OverflowError] when the result leaves
    years 1..9999. *)
Definition dt_add (t : datetime) (n : Z) : outcome datetime :=
  if (dt_min <=? t + n) && (t + n <=? dt_max) then Return (t + n)
  else Raise OverflowError.

(** [datetime.strptime(s, "%Y-%m-%d")], reduced to the ordinal of the day:
    the first match of the pattern must use up the text, and the fields must
    make a date. *)
Definition strptime_Ymd (s : string) : outcome Z :=
  match re_Ymd s with
  | (y, m, d, EmptyString) :: _ =>
      if valid_date y m d then Return (ymd2ord y m d) else Raise ValueError
  | _ => Raise ValueError
  end.

(** [datetime.strptime(s, "%Y-%m-%d %H:%M")] *)
Definition strptime_YmdHM (s : string) : outcome datetime :=
  match re_YmdHM s with
  | (y, m, d, (hh, mm), EmptyString) :: _ =>
      if valid_date y m d then Return (mk_datetime (ymd2ord y m d) hh mm)
      else Raise ValueError
  | _ => Raise ValueError
  end.

(** [dt.weekday()], Monday is 0 *)
Definition weekday_of_ord (ord : Z) : Z := (ord + 6) mod 7.

(** [dt.strftime("%H:%M")]: two digits each, zero padded *)
Definition digit_char (d : Z) : ascii := ascii_of_N (Z.to_N (48 + d)).

Definition pad2 (n : Z) : string :=
  String (digit_char (n / 10)) (String (digit_char (n mod 10)) EmptyString).

Definition strftime_HM (t : datetime) : string :=
  pad2 (t mod 1440 / 60) +:+ ":" +:+ pad2 (t mod 60).

(** *** Devices for reasoning about the matchers *)

(** Text [x] put behind what a match left over. *)
Definition ext (x : string) {A} (ar : A * string) : A * string :=
  (fst ar, snd ar +:+ x).

(** A matcher that never looks at a space matches [s] followed by a space
    and more text exactly as it matches [s]. *)
Definition ext_ok {A} (p : matcher A) : Prop :=
  ∀ s x, p (s +:+ String " " x) = map (ext (String " " x)) (p s).

(** The zero-padded text of [h]:[m] parses as [h] and [m]. *)
Definition pad2_parses (h m : Z) : bool :=
  match re_HM (String " " (pad2 h +:+ ":" +:+ pad2 m)) with
  | (h', m', EmptyString) :: _ => (h' =? h) && (m' =? m)
  | _ => false
  end.

End PyDatetime.

Import PyDatetime.

(** ** Data model ([backend/models/schemas.py] and the schedule file) *)

Record Slot : Type := {
  start_time : string;
  end_time : string;
  available : bool
}.

Record Patient : Type := {
  name : string;
  email : string;
  phone : string
}.

Record BookingRequest : Type := {
  req_appointment_type : string;
  req_date : string;
  req_start_time : string;
  req_patient : Patient;
  req_reason : option string
}.

Record BookingDetails : Type := {
  det_appointment_type : string;
  det_date : string;
  det_start_time : string;
  det_end_time : string;
  det_patient : Patient;
  det_reason : option string
}.

Record BookingResponse : Type := {
  booking_id : string;
  status : string;
  confirmation_code : string;
  details : BookingDetails
}.

(** One entry of ["working_hours"], with the texts of [hours["start"]] and
    [hours["end"]].  A weekday whose value is missing, [null] or empty, for
    which [not hours] holds, is a key without entry.  A non-empty value that
    lacks ["start"] or ["end"], for which lines 85-86 raise [KeyError], is
    not represented: the properties below are about files in which these
    keys are present. *)
Record WorkingHours : Type := {
  wh_start : string;
  wh_end : string
}.

(** One entry of ["existing_bookings"]: the code reads ["date"] with [.get],
    so it may be missing, and the texts of ["start_time"] and ["end_time"]
    with [[]].  An entry of the queried date that lacks one of these two
    keys, for which lines 63-64 raise [KeyError], is not represented. *)
Record ExistingBooking : Type := {
  eb_date : option string;
  eb_start_time : string;
  eb_end_time : string
}.

(** The content of [data/doctor_schedule.json]: the value of
    ["working_hours"], by weekday name, and the list of ["existing_bookings"],
    empty when the key is missing.  A file without ["working_hours"], for
    which line 79 raises [KeyError], is not represented.  A [Schedule] is
    thus a file of the expected shape, and every property that speaks of
    all errors says so. *)
Record Schedule : Type := {
  working_hours : gmap string WorkingHours;
  existing_bookings : list ExistingBooking
}.

(** What [datetime.now()] and the two [uuid.uuid4()] calls of one booking
    give: the day as ["%Y%m%d"] and the two UUIDs as text. *)
Record Entropy : Type := {
  now_Ymd : string;
  uuid_booking : string;
  uuid_confirmation : string
}.

(** [RUNTIME_BOOKINGS: Dict[str, List[Tuple[str, str]]]], the only mutable
    state of the module. *)
Abbreviation Store := (gmap string (list (string * string))).

(** ** Computations over [RUNTIME_BOOKINGS]

    A computation takes the store and gives an outcome and the store after
    it.  An exception keeps the writes made before it was raised, as in
    Python. *)

Definition M (A : Type) : Type := Store → outcome A * Store.

Definition ret {A} (a : A) : M A := λ st, (Return a, st).

Definition raise {A} (e : exn) : M A := λ st, (Raise e, st).

Definition bind {A B} (c : M A) (f : A → M B) : M B :=
  λ st, match c st with
        | (Return a, st') => f a st'
        | (Raise e, st') => (Raise e, st')
        end.

Definition lift {A} (o : outcome A) : M A := λ st, (o, st).

(** [try: c  except ValueError: h] *)
Definition try_except_ValueError {A} (c : M A) (h : M A) : M A :=
  λ st, match c st with
        | (Raise ValueError, st') => h st'
        | r => r
        end.

(** [RUNTIME_BOOKINGS.get(k, [])] *)
Definition runtime_get (k : string) : M (list (string * string)) :=
  λ st, (Return (default [] (st !! k)), st).

(** [RUNTIME_BOOKINGS.setdefault(k, []).append(v)] *)
Definition runtime_setdefault_append (k : string) (v : string * string) : M unit :=
  λ st, (Return tt, <[k := default [] (st !! k) ++ [v]]> st).

Declare Scope M_scope.
Delimit Scope M_scope with M.
Notation "x <- c ; k" := (bind c (λ x, k))
  (at level 20, c at level 100, k at level 200, only parsing) : M_scope.

(** ** [backend/api/calendly_integration.py] *)

Definition APPOINTMENT_DURATIONS_MIN : gmap string Z :=
  <["consultation" := 30]> (<["followup" := 15]> (<["physical" := 45]>
  (<["special" := 60]> ∅))).

(** [d[k]] on a dict: [KeyError] when the key is missing. *)
Definition getitem {V} (d : gmap string V) (k : string) : outcome V :=
  match d !! k with
  | Some v => Return v
  | None => Raise KeyError
  end.

Definition _parse_time (date_str time_str : string) : outcome datetime :=
  strptime_YmdHM (date_str +:+ " " +:+ time_str).

Definition _format_time (dt : datetime) : string := strftime_HM dt.

Definition _overlaps (a_start a_end b_start b_end : datetime) : bool :=
  (a_start <? b_end) && (b_start <? a_end).

Definition weekday_names : list string :=
  ["monday"; "tuesday"; "wednesday"; "thursday"; "friday"; "saturday"; "sunday"].

Definition _get_weekday (date_str : string) : outcome string :=
  (ord <- strptime_Ymd date_str;
   Return (nth (Z.to_nat (weekday_of_ord ord)) weekday_names ""))%outcome.

(** The first loop of [_collect_existing_bookings]: the entries of the file
    whose date is [date_str], appended to [file_bookings]. *)
Fixpoint file_entries_loop (entries : list ExistingBooking) (date_str : string)
    (file_bookings : list (datetime * datetime))
    : outcome (list (datetime * datetime)) :=
  match entries with
  | [] => Return file_bookings
  | entry :: entries' =>
      if decide (eb_date entry = Some date_str) then
        (start <- _parse_time date_str (eb_start_time entry);
         end_ <- _parse_time date_str (eb_end_time entry);
         file_entries_loop entries' date_str (file_bookings ++ [(start, end_)])
        )%outcome
      else file_entries_loop entries' date_str file_bookings
  end.

(** Its second loop: the runtime entries, appended to the same list. *)
Fixpoint runtime_entries_loop (runtime_entries : list (string * string))
    (date_str : string) (file_bookings : list (datetime * datetime))
    : outcome (list (datetime * datetime)) :=
  match runtime_entries with
  | [] => Return file_bookings
  | (start_str, end_str) :: entries' =>
      (start <- _parse_time date_str start_str;
       end_ <- _parse_time date_str end_str;
       runtime_entries_loop entries' date_str (file_bookings ++ [(start, end_)])
      )%outcome
  end.

Definition _collect_existing_bookings (schedule_data : Schedule)
    (date_str : string) : M (list (datetime * datetime)) :=
  (file_bookings <- lift (file_entries_loop (existing_bookings schedule_data)
                            date_str []);
   runtime_entries <- runtime_get date_str;
   lift (runtime_entries_loop runtime_entries date_str file_bookings))%M.

(** The [while] loop of [_generate_slots], from the value of [cursor] on; the
    result is what the loop appends to [slots].  Each round evaluates
    [cursor + timedelta(minutes=duration_min)] three times.  [fuel] bounds
    the number of rounds. *)
Fixpoint slots_loop (fuel : nat) (existing : list (datetime * datetime))
    (duration_min : Z) (day_end cursor : datetime) : outcome (list Slot) :=
  match fuel with
  | O => Raise FuelExhausted
  | S fuel' =>
      (bound <- dt_add cursor duration_min;
       if bound <=? day_end then
         let candidate_start := cursor in
         candidate_end <- dt_add cursor duration_min;
         let has_conflict :=
           existsb (λ b, _overlaps candidate_start candidate_end (fst b) (snd b))
                   existing in
         let slot := {| start_time := _format_time candidate_start;
                        end_time := _format_time candidate_end;
                        available := negb has_conflict |} in
         cursor' <- dt_add cursor duration_min;
         slots <- slots_loop fuel' existing duration_min day_end cursor';
         Return (slot :: slots)
       else Return [])%outcome
  end.

(** Rounds that the loop can need: it advances by at least one minute. *)
Definition slots_fuel (day_start day_end : datetime) : nat :=
  S (Z.to_nat (day_end - day_start)).

Section Module_.

(** The schedule file as it is on disk, the same for all calls of a run:
    [None] when [data/doctor_schedule.json] does not exist.  A file that
    exists is taken to open and to load as JSON of the expected shape; the
    errors of [open] and [json.load] (lines 37-38) are not represented. *)
Variable data_file : option Schedule.

Definition _load_schedule : outcome Schedule :=
  match data_file with
  | Some schedule_data => Return schedule_data
  | None => Raise (HTTPException 500 "Schedule data not found")
  end.

Definition _generate_slots (date_str appointment_type : string) : M (list Slot) :=
  (schedule_data <- lift _load_schedule;
   weekday <- lift (_get_weekday date_str);
   match working_hours schedule_data !! weekday with
   | None => ret []
   | Some hours =>
       duration_min <- lift (getitem APPOINTMENT_DURATIONS_MIN appointment_type);
       day_start <- lift (_parse_time date_str (wh_start hours));
       day_end <- lift (_parse_time date_str (wh_end hours));
       existing <- _collect_existing_bookings schedule_data date_str;
       lift (slots_loop (slots_fuel day_start day_end) existing duration_min
                        day_end day_start)
   end)%M.

(** [str.upper] on ASCII text (a UUID is hexadecimal digits and hyphens)
    and [s[:n]] *)
Definition upper_char (c : ascii) : ascii :=
  if (97 <=? code c) && (code c <=? 122) then ascii_of_N (Z.to_N (code c - 32))
  else c.

Fixpoint upper (s : string) : string :=
  match s with
  | EmptyString => EmptyString
  | String c r => String (upper_char c) (upper r)
  end.

Definition prefix (n : nat) (s : string) : string := String.substring 0 n s.

(** The dict comprehension [{(s.start_time, s.end_time): s for s in slots}]:
    a later slot replaces an earlier one with the same key. *)
Definition slot_map_of (slots : list Slot) : gmap (string * string) Slot :=
  foldl (λ m s, <[(start_time s, end_time s) := s]> m) ∅ slots.

Definition book_appointment (request : BookingRequest) (rnd : Entropy)
    : M BookingResponse :=
  (if decide (APPOINTMENT_DURATIONS_MIN !! req_appointment_type request = None)
   then raise (HTTPException 400 "Invalid appointment_type")
   else
     start_dt <- try_except_ValueError
                   (lift (_parse_time (req_date request) (req_start_time request)))
                   (raise (HTTPException 400 "Invalid date/time format"));
     duration_min <- lift (getitem APPOINTMENT_DURATIONS_MIN
                             (req_appointment_type request));
     end_dt <- lift (dt_add start_dt duration_min);
     available_slots <- _generate_slots (req_date request)
                          (req_appointment_type request);
     let slot_map := slot_map_of available_slots in
     let key := (req_start_time request, strftime_HM end_dt) in
     match slot_map !! key with
     | None =>
         raise (HTTPException 400 "Requested time is outside working hours")
     | Some slot =>
         if negb (available slot) then
           raise (HTTPException 409 "Requested time is no longer available")
         else
           _ <- runtime_setdefault_append (req_date request) (fst key, snd key);
           let booking_id := "APPT-" +:+ now_Ymd rnd +:+ "-"
                             +:+ upper (prefix 8 (uuid_booking rnd)) in
           let confirmation_code := upper (prefix 6 (uuid_confirmation rnd)) in
           let details :=
             {| det_appointment_type := req_appointment_type request;
                det_date := req_date request;
                det_start_time := req_start_time request;
                det_end_time := snd key;
                det_patient := req_patient request;
                det_reason := req_reason request |} in
           ret {| booking_id := booking_id;
                  status := "confirmed";
                  confirmation_code := confirmation_code;
                  details := details |}
     end)%M.

(** [get_availability] without the response wrapper: the query pattern
    [^\d{4}-\d{2}-\d{2}$] is checked by FastAPI before the function runs. *)
Definition get_availability (date appointment_type : string) : M (list Slot) :=
  (if decide (APPOINTMENT_DURATIONS_MIN !! appointment_type = None)
   then raise (HTTPException 400 "Invalid appointment_type")
   else
     _ <- try_except_ValueError
            (lift (_ <- strptime_Ymd date; Return tt)%outcome)
            (raise (HTTPException 400 "Invalid date format; expected YYYY-MM-DD"));
     _generate_slots date appointment_type)%M.

End Module_.

(** ** Notions used to state the properties *)

(** [any(_overlaps(cs, ce, b_start, b_end) for b_start, b_end in existing)] *)
Definition has_conflict (existing : list (datetime * datetime))
    (cs ce : datetime) : bool :=
  existsb (λ b, _overlaps cs ce (fst b) (snd b)) existing.

(** The slot that the loop appends for the candidate starting at [cs] *)
Definition grid_slot (existing : list (datetime * datetime)) (dur : Z)
    (cs : datetime) : Slot :=
  {| start_time := _format_time cs;
     end_time := _format_time (cs + dur);
     available := negb (has_conflict existing cs (cs + dur)) |}.

(** [n] such slots, one every [dur] minutes from [c] on *)
Definition grid (existing : list (datetime * datetime)) (dur : Z)
    (c : datetime) (n : nat) : list Slot :=
  (λ i, grid_slot existing dur (c + Z.of_nat i * dur)) <$> seq 0 n.

(** The key of a slot in [slot_map] *)
Definition slot_key (s : Slot) : string * string := (start_time s, end_time s).

(** [t] is a minute of ordinal day [ord]. *)
Definition on_day (ord : Z) (t : datetime) : Prop :=
  ord * 1440 <= t < ord * 1440 + 1440.

(** The slot [s] with its flag cleared *)
Definition taken (s : Slot) : Slot :=
  {| start_time := start_time s; end_time := end_time s; available := false |}.

#[global] Instance Slot_eq_dec : EqDecision Slot.
Proof. solve_decision. Defined.

(** The store after [RUNTIME_BOOKINGS.setdefault(d, []).append(k)] *)
Definition commit (st : Store) (d : string) (k : string * string) : Store :=
  <[d := default [] (st !! d) ++ [k]]> st.

(** The response that [book_appointment] builds for a request and the end
    time of its slot *)
Definition confirmation (request : BookingRequest) (rnd : Entropy)
    (end_str : string) : BookingResponse :=
  {| booking_id := "APPT-" +:+ now_Ymd rnd +:+ "-"
                   +:+ upper (prefix 8 (uuid_booking rnd));
     status := "confirmed";
     confirmation_code := upper (prefix 6 (uuid_confirmation rnd));
     details := {| det_appointment_type := req_appointment_type request;
                   det_date := req_date request;
                   det_start_time := req_start_time request;
                   det_end_time := end_str;
                   det_patient := req_patient request;
                   det_reason := req_reason request |} |}.

(** The intervals that the module reads for the date [d]: the result of
    [_collect_existing_bookings]. *)
Definition committed (schedule_data : Schedule) (d : string) (st : Store)
    : outcome (list (datetime * datetime)) :=
  fst (_collect_existing_bookings schedule_data d st).

(** No two intervals at different places of the list overlap. *)
Definition no_overlap (l : list (datetime * datetime)) : Prop :=
  ∀ i j a b, i ≠ j → l !! i = Some a → l !! j = Some b →
             _overlaps (fst a) (snd a) (fst b) (snd b) = false.

(** What the module reads for [d] is a list of intervals that do not overlap. *)
Definition consistent (schedule_data : Schedule) (d : string) (st : Store) : Prop :=
  ∃ l, committed schedule_data d st = Return l ∧ no_overlap l.

(** The three errors that [book_appointment] raises itself *)
Definition outside_working_hours : exn :=
  HTTPException 400 "Requested time is outside working hours".
Definition slot_conflict : exn :=
  HTTPException 409 "Requested time is no longer available".

Section Runs.
Variable data_file : option Schedule.

(** Booking calls made one after the other, with their outcomes *)
Fixpoint book_all (calls : list (BookingRequest * Entropy)) (st : Store)
    : list (outcome BookingResponse) * Store :=
  match calls with
  | [] => ([], st)
  | call :: calls' =>
      let r := book_appointment data_file (fst call) (snd call) st in
      let rs := book_all calls' (snd r) in
      (fst r :: fst rs, snd rs)
  end.

(** *** Interleaved calls

    FastAPI runs a plain [def] endpoint in a thread pool, so calls of
    [book_appointment] can interleave.  The module takes no lock.  The
    interleavings considered here switch threads at one place only: between
    the availability check (up to line 146) and the append (line 148).
    Finer interleavings exist; these are enough to show a race. *)

(** [book_appointment] up to the availability check; gives [key]. *)
Definition book_check (request : BookingRequest) : M (string * string) :=
  (if decide (APPOINTMENT_DURATIONS_MIN !! req_appointment_type request = None)
   then raise (HTTPException 400 "Invalid appointment_type")
   else
     start_dt <- try_except_ValueError
                   (lift (_parse_time (req_date request) (req_start_time request)))
                   (raise (HTTPException 400 "Invalid date/time format"));
     duration_min <- lift (getitem APPOINTMENT_DURATIONS_MIN
                             (req_appointment_type request));
     end_dt <- lift (dt_add start_dt duration_min);
     available_slots <- _generate_slots data_file (req_date request)
                          (req_appointment_type request);
     let slot_map := slot_map_of available_slots in
     let key := (req_start_time request, strftime_HM end_dt) in
     match slot_map !! key with
     | None => raise outside_working_hours
     | Some slot =>
         if negb (available slot) then raise slot_conflict else ret key
     end)%M.

(** [book_appointment] from the append on. *)
Definition book_commit (request : BookingRequest) (rnd : Entropy)
    (key : string * string) : M BookingResponse :=
  (_ <- runtime_setdefault_append (req_date request) (fst key, snd key);
   ret (confirmation request rnd (snd key)))%M.

Inductive thread : Type :=
  | Entered (request : BookingRequest) (rnd : Entropy)
  | Verified (request : BookingRequest) (rnd : Entropy) (key : string * string)
  | Finished (result : outcome BookingResponse).

(** One thread runs until its next switching point. *)
Definition thread_step (t : thread) (st : Store) : thread * Store :=
  match t with
  | Entered request rnd =>
      match book_check request st with
      | (Return key, st') => (Verified request rnd key, st')
      | (Raise e, st') => (Finished (Raise e), st')
      end
  | Verified request rnd key =>
      let r := book_commit request rnd key st in (Finished (fst r), snd r)
  | Finished result => (t, st)
  end.

(** The threads run in the order that [schedule] lists them. *)
Fixpoint run_schedule (schedule : list nat) (threads : list thread) (st : Store)
    : list thread * Store :=
  match schedule with
  | [] => (threads, st)
  | i :: schedule' =>
      match threads !! i with
      | Some t =>
          let r := thread_step t st in
          run_schedule schedule' (<[i := fst r]> threads) (snd r)
      | None => run_schedule schedule' threads st
      end
  end.

End Runs.

(** *** Notions for the further properties *)

(** An entry of the file and the interval it stands for on the date [d] *)
Definition entry_interval (d : string) (e : ExistingBooking)
    (iv : datetime * datetime) : Prop :=
  _parse_time d (eb_start_time e) = Return (fst iv)
  ∧ _parse_time d (eb_end_time e) = Return (snd iv).

(** A runtime entry and the interval it stands for on the date [d] *)
Definition pair_interval (d : string) (p : string * string)
    (iv : datetime * datetime) : Prop :=
  _parse_time d (fst p) = Return (fst iv) ∧ _parse_time d (snd p) = Return (snd iv).

(** The intervals recorded for the date text [d], read off the data and not
    through the module: one for each entry of the schedule file whose date is
    [d], in the order of the file, followed by one for each pair that
    [RUNTIME_BOOKINGS] holds under the key [d], in the order of the list. *)
Definition recorded (schedule_data : Schedule) (d : string) (st : Store)
    (l : list (datetime * datetime)) : Prop :=
  ∃ fl rl,
    l = fl ++ rl
    ∧ Forall2 (entry_interval d)
        (filter (λ e, eb_date e = Some d) (existing_bookings schedule_data)) fl
    ∧ Forall2 (pair_interval d) (default [] (st !! d)) rl.

(** Every record of the date [d] is an interval, and no two of them overlap. *)
Definition free_of_overlap (schedule_data : Schedule) (d : string) (st : Store)
    : Prop :=
  ∃ l, recorded schedule_data d st l ∧ no_overlap l.

(** The slot [s] of the date [d] once the interval from [cs] to [ce] is
    booked as well: its flag is cleared when its own interval overlaps. *)
Definition block (d : string) (cs ce : datetime) (s : Slot) : Slot :=
  {| start_time := start_time s;
     end_time := end_time s;
     available :=
       available s
       && negb match _parse_time d (start_time s), _parse_time d (end_time s) with
               | Return a, Return b => _overlaps a b cs ce
               | _, _ => false
               end |}.

(** How many of the calls were confirmed for the date [d] *)
Fixpoint confirmed_on (d : string) (calls : list (BookingRequest * Entropy))
    (outcomes : list (outcome BookingResponse)) : nat :=
  match calls, outcomes with
  | call :: calls', o :: outcomes' =>
      (if decide (req_date (fst call) = d)
       then match o with Return _ => 1 | Raise _ => 0 end
       else 0)%nat
      + confirmed_on d calls' outcomes'
  | _, _ => 0%nat
  end.

(** A runtime entry of the date [d] as the module writes it: the texts that
    [_format_time] gives for two instants of that day, the first before the
    second. *)
Definition entry_ok (d : string) (p : string * string) : Prop :=
  ∃ ord cs ce,
    strptime_Ymd d = Return ord
    ∧ ord * 1440 <= cs ∧ cs < ce ∧ ce < ord * 1440 + 1440
    ∧ fst p = _format_time cs ∧ snd p = _format_time ce
    ∧ _parse_time d (fst p) = Return cs ∧ _parse_time d (snd p) = Return ce.

(** [0-9a-f] and [0-9A-F] *)
Definition is_hex_lower (c : ascii) : bool :=
  (48 <=? code c) && (code c <=? 57) || (97 <=? code c) && (code c <=? 102).

Definition is_hex_upper (c : ascii) : bool :=
  (48 <=? code c) && (code c <=? 57) || (65 <=? code c) && (code c <=? 70).

(** A text made of lower-case hexadecimal digits with hyphens at the places
    that [pat] marks, and as long as [pat] *)
Fixpoint matches_pattern (pat : list bool) (s : string) : bool :=
  match pat, s with
  | [], EmptyString => true
  | hyphen :: pat', String c r =>
      (if hyphen then bool_decide (c = "-"%char) else is_hex_lower c)
      && matches_pattern pat' r
  | _, _ => false
  end.

(** What [str(uuid.uuid4())] gives: 32 hexadecimal digits in lower case, in
    groups of 8, 4, 4, 4 and 12 with hyphens between them. *)
Definition uuid_text (s : string) : bool :=
  matches_pattern
    (replicate 8 false ++ [true] ++ replicate 4 false ++ [true]
     ++ replicate 4 false ++ [true] ++ replicate 4 false ++ [true]
     ++ replicate 12 false) s.

(** All characters of [s] are upper-case hexadecimal digits. *)
Fixpoint all_hex_upper (s : string) : bool :=
  match s with
  | EmptyString => true
  | String c r => is_hex_upper c && all_hex_upper r
  end.

(** *** Examples *)

(** Monday 09:00-10:00 and nothing booked, as in the example of the
    specification *)
Definition monday_schedule : Schedule :=
  {| working_hours := {[ "monday" := {| wh_start := "09:00"; wh_end := "10:00" |} ]};
     existing_bookings := [] |}.

(** A schedule file with two entries that overlap each other *)
Definition overlapping_schedule : Schedule :=
  {| working_hours := {[ "monday" := {| wh_start := "09:00"; wh_end := "10:00" |} ]};
     existing_bookings :=
       [ {| eb_date := Some "2024-01-15"; eb_start_time := "09:00";
            eb_end_time := "10:00" |};
         {| eb_date := Some "2024-01-15"; eb_start_time := "09:30";
            eb_end_time := "10:30" |} ] |}.

(** Monday 09:00-17:00 with one entry in the file *)
Definition busy_schedule : Schedule :=
  {| working_hours := {[ "monday" := {| wh_start := "09:00"; wh_end := "17:00" |} ]};
     existing_bookings :=
       [ {| eb_date := Some "2024-01-15"; eb_start_time := "10:00";
            eb_end_time := "10:30" |} ] |}.

Definition john : Patient :=
  {| name := "John Doe"; email := "john@example.com"; phone := "+1-555-0100" |}.

(** A consultation on Monday 2024-01-15 at [start] *)
Definition consultation_at (start : string) : BookingRequest :=
  {| req_appointment_type := "consultation";
     req_date := "2024-01-15";
     req_start_time := start;
     req_patient := john;
     req_reason := Some "Annual checkup" |}.

Definition rnd1 : Entropy :=
  {| now_Ymd := "20240110";
     uuid_booking := "3f2b8c1e-9d4a-4f6b-8a7e-1c2d3e4f5a6b";
     uuid_confirmation := "a1b2c3d4-e5f6-4a7b-8c9d-0e1f2a3b4c5d" |}.

Definition rnd2 : Entropy :=
  {| now_Ymd := "20240110";
     uuid_booking := "7c9e6679-7425-40de-944b-e07fc1f90ae7";
     uuid_confirmation := "0f8fad5b-d9cb-469f-a165-70867728950e" |}.

(** ** Facts about the [strptime] matchers *)

Module PyDatetimeFacts.
Import PyDatetime.
Local Open Scope matcher_scope.

Lemma ext_ok_ret {A} (a : A) : ext_ok (m_ret a).
Proof. intros s x. reflexivity. Qed.

Lemma ext_ok_bind {A B} (p : matcher A) (f : A → matcher B) :
  ext_ok p → (∀ a, ext_ok (f a)) → ext_ok (m_bind p f).
Proof.
  intros Hp Hf s x. unfold m_bind. rewrite Hp.
  induction (p s) as [|[a r] l IH]; simpl; [done|].
  rewrite map_app, <- IH. f_equal. apply Hf.
Qed.

Lemma ext_ok_alt {A} (p q : matcher A) : ext_ok p → ext_ok q → ext_ok (p <|> q).
Proof. intros Hp Hq s x. unfold m_alt. by rewrite Hp, Hq, map_app. Qed.

Lemma ext_ok_char {A} (f : ascii → option A) :
  f " "%char = None → ext_ok (m_char f).
Proof. intros Hf [|c r] x; simpl; [by rewrite Hf|]. by destruct (f c). Qed.

Ltac ext_ok_tac :=
  repeat first [ apply ext_ok_bind; [|intros ?] | apply ext_ok_alt
               | apply ext_ok_ret | apply ext_ok_char; reflexivity ].

Lemma ext_ok_Ym : ext_ok re_Ym.
Proof. unfold re_Ym, re_Y, re_m. ext_ok_tac. Qed.

Lemma ext_ok_d_digits : ext_ok re_d_digits.
Proof. unfold re_d_digits. ext_ok_tac. Qed.

(** Characters *)

Lemma lit_Some a c u : lit a c = Some u → c = a.
Proof. unfold lit. destruct (Ascii.eqb_spec a c); [done|discriminate]. Qed.

Lemma digit_in_digit lo hi c v : digit_in lo hi c = Some v → digit_of c = Some v.
Proof.
  unfold digit_in. destruct (digit_of c); [|done].
  by case_match; intros; simplify_eq.
Qed.

Lemma digit_in_range lo hi c v : digit_in lo hi c = Some v → lo <= v <= hi.
Proof.
  unfold digit_in. destruct (digit_of c); [|done].
  case_match; intros; simplify_eq. lia.
Qed.

Lemma digit_of_range c v : digit_of c = Some v → 0 <= v <= 9.
Proof. unfold digit_of. case_match; intros; simplify_eq. lia. Qed.

Lemma digit_not_space c v : digit_of c = Some v → is_space c = false.
Proof. unfold digit_of, is_space. case_match; [|done]. intros _. lia. Qed.

Ltac chars :=
  repeat match goal with
  | H : lit _ ?c = Some _ |- _ => apply lit_Some in H; subst c
  end;
  try match goal with
  | H : digit_in _ _ _ = Some _ |- _ => by vm_compute in H
  end;
  repeat match goal with
  | H : digit_in _ _ _ = Some _ |- _ => apply digit_in_digit in H
  end;
  try match goal with
  | H : digit_of _ = Some _ |- _ => by vm_compute in H
  | H : lit _ _ = None |- _ => by vm_compute in H
  | H : lit _ _ = Some _ |- _ => by vm_compute in H
  end.

(** There is at most one way to match ["%Y-%m-"]. *)
Lemma re_Ym_unique s : (length (re_Ym s) <= 1)%nat.
Proof.
  unfold re_Ym, re_Y, re_m, m_bind, m_alt, m_char, m_ret.
  destruct s as [|c1 [|c2 [|c3 [|c4 [|c5 s]]]]]; simpl; try lia;
  destruct (digit_of c1); simpl; try lia;
  destruct (digit_of c2); simpl; try lia;
  destruct (digit_of c3); simpl; try lia.
  destruct (digit_of c4); simpl; try lia.
  destruct (lit "-" c5); simpl; try lia.
  rewrite !app_nil_r.
  destruct s as [|c6 [|c7 [|c8 s]]]; simpl.
  all: repeat (case_match; simpl; try lia).
  all: chars.
Qed.

(** When the first way to match [%d] uses up the text, every other way
    leaves one character that is not white space. *)
Lemma re_d_full r day alts :
  re_d r = (day, EmptyString) :: alts →
  r ≠ EmptyString ∧
  Forall (λ p, ∃ c, snd p = String c EmptyString ∧ is_space c = false) alts.
Proof.
  unfold re_d, re_d_digits, re_d_space, m_bind, m_alt, m_char, m_ret.
  destruct r as [|c1 [|c2 [|c3 r]]]; simpl; [done| | |].
  all: repeat (case_match; simpl); intros; simplify_eq; (split; [done|]).
  all: repeat constructor; simpl.
  all: try (eexists; split; [reflexivity|]).
  all: chars.
  all: try (eapply digit_not_space; eassumption).
Qed.

Lemma re_d_space_ext r x :
  r ≠ EmptyString →
  re_d_space (r +:+ String " " x) = map (ext (String " " x)) (re_d_space r).
Proof.
  unfold re_d_space, m_bind, m_char. destruct r as [|c1 [|c2 r]]; simpl; [done| |].
  - intros _. destruct (lit " " c1); simpl; [|done]. reflexivity.
  - intros _. destruct (lit " " c1); simpl; [|done].
    destruct (digit_in 1 9 c2); reflexivity.
Qed.

Lemma re_d_ext r x :
  r ≠ EmptyString →
  re_d (r +:+ String " " x) = map (ext (String " " x)) (re_d r).
Proof.
  intros Hr. unfold re_d, m_alt.
  by rewrite ext_ok_d_digits, re_d_space_ext, map_app.
Qed.

Lemma re_HM_nonspace c r : is_space c = false → re_HM (String c r) = [].
Proof. intros Hc. unfold re_HM, m_bind, re_ws. by rewrite Hc. Qed.

Lemma alts_dead {B} (k : Z * string → Z * Z → matcher B) x alts :
  Forall (λ p : Z * string, ∃ c, snd p = String c EmptyString ∧ is_space c = false) alts →
  flat_map (λ ar, m_bind re_HM (k ar) (snd ar)) (map (ext (String " " x)) alts) = [].
Proof.
  induction 1 as [|[dd r] alts [c [Hc1 Hc2]] _ IH]; [done|].
  cbn [map flat_map ext fst snd]. rewrite IH, app_nil_r.
  cbn [snd] in Hc1. subst r. unfold m_bind at 1.
  change (String c "" +:+ String " " x) with (String c (String " " x)). by rewrite (re_HM_nonspace _ _ Hc2).
Qed.

Lemma re_YmdHM_after_date d v l x :
  re_Ymd d = (v, EmptyString) :: l →
  re_YmdHM (d +:+ String " " x)
  = map (λ p, ((v, fst p), snd p)) (re_HM (String " " x)).
Proof.
  unfold re_Ymd, re_YmdHM. unfold m_bind at 1 3. rewrite ext_ok_Ym.
  pose proof (re_Ym_unique d) as Hu.
  destruct (re_Ym d) as [|[ym r] [|? ?]]; cbn [length] in Hu; [done| |lia].
  cbn [map flat_map ext fst snd]. rewrite !app_nil_r.
  unfold m_bind at 1. intros Hd.
  destruct (re_d r) as [|[day r'] alts] eqn:Er; [done|].
  cbn [flat_map fst snd m_ret app] in Hd. injection Hd as <- -> _.
  destruct (re_d_full _ _ _ Er) as [Hr Halts].
  unfold m_bind at 1.
  rewrite (re_d_ext _ _ Hr), Er. cbn [map flat_map ext fst snd String.append].
  rewrite (alts_dead (λ ar hm, m_ret (ym, ar.1, hm)) x alts Halts), app_nil_r.
  change ("" +:+ String " " x) with (String " " x).
  unfold m_bind, m_ret.
  induction (re_HM (String " " x)) as [|[hm s] l' IH]; [done|].
  cbn [flat_map map fst snd app]. by rewrite IH.
Qed.

Lemma parse_time_after_date d ord s :
  strptime_Ymd d = Return ord →
  _parse_time d s
  = match re_HM (String " " s) with
    | (h, m, EmptyString) :: _ => Return (mk_datetime ord h m)
    | _ => Raise ValueError
    end.
Proof.
  unfold strptime_Ymd, _parse_time, strptime_YmdHM.
  destruct (re_Ymd d) as [|[[[y m] dd] [|? ?]] l] eqn:E; try done.
  change (" " +:+ s) with (String " " s). rewrite (re_YmdHM_after_date _ _ _ _ E).
  destruct (valid_date y m dd) eqn:Hv; [|done]. intros [= <-].
  destruct (re_HM (String " " s)) as [|[[h mi] [|? ?]] ?]; cbn [map fst snd];
    rewrite ?Hv; done.
Qed.

(** Ranges of the fields *)
Ltac ranges :=
  repeat match goal with
  | H : digit_in _ _ _ = Some _ |- _ => apply digit_in_range in H
  | H : digit_of _ = Some _ |- _ => apply digit_of_range in H
  end.

Lemma re_H_range s h r : In (h, r) (re_H s) → 0 <= h <= 23.
Proof.
  unfold re_H, m_bind, m_alt, m_ret, m_char.
  destruct s as [|c1 [|c2 s]]; cbn; intros H;
    repeat (case_match; cbn in H); rewrite ?in_app_iff in H; cbn in H;
    intuition; simplify_eq; ranges; lia.
Qed.

Lemma re_M_range s m r : In (m, r) (re_M s) → 0 <= m <= 59.
Proof.
  unfold re_M, m_bind, m_alt, m_ret, m_char.
  destruct s as [|c1 [|c2 s]]; cbn; intros H;
    repeat (case_match; cbn in H); rewrite ?in_app_iff in H; cbn in H;
    intuition; simplify_eq; ranges; lia.
Qed.

Lemma re_HM_range x h m r : In (h, m, r) (re_HM x) → 0 <= h <= 23 ∧ 0 <= m <= 59.
Proof.
  unfold re_HM. unfold m_bind at 1 2 3 4. unfold m_ret.
  rewrite !in_flat_map.
  intros ([[] r1] & _ & H). cbn [fst snd] in H.
  apply in_flat_map in H as ([h' r2] & Hh & H). cbn [fst snd] in H.
  apply in_flat_map in H as ([[] r3] & _ & H). cbn [fst snd] in H.
  apply in_flat_map in H as ([m' r4] & Hm & H). cbn [fst snd] in H.
  destruct H as [[= -> -> ->]|[]].
  eauto using re_H_range, re_M_range.
Qed.

Lemma pad2_parses_all :
  forallb (λ h, forallb (pad2_parses h) (seqZ 0 60)) (seqZ 0 24) = true.
Proof. vm_compute. reflexivity. Qed.

Lemma re_HM_pad2 h m :
  0 <= h < 24 → 0 <= m < 60 →
  ∃ l, re_HM (String " " (pad2 h +:+ ":" +:+ pad2 m)) = (h, m, EmptyString) :: l.
Proof.
  intros Hh Hm. pose proof pad2_parses_all as H.
  rewrite forallb_forall in H. specialize (H h).
  rewrite forallb_forall in H. specialize (fun P => H P m).
  unfold pad2_parses in H.
  destruct (re_HM _) as [|[[h' m'] [|? ?]] l].
  1,3: exfalso; enough (false = true) by done; apply H; apply list_elem_of_In, elem_of_seqZ; lia.
  exists l. assert ((h' =? h) && (m' =? m) = true) as E.
  { apply H; apply list_elem_of_In, elem_of_seqZ; lia. }
  apply andb_true_iff in E as [?%Z.eqb_eq ?%Z.eqb_eq]. by subst.
Qed.

(** *** What the module needs from [strptime] and [strftime] *)

(** Parsing any time of day with a date that parses alone lands on that
    day. *)
Lemma parse_time_on_day d ord s t :
  strptime_Ymd d = Return ord → _parse_time d s = Return t →
  ord * 1440 <= t < ord * 1440 + 1440.
Proof.
  intros Hd. rewrite (parse_time_after_date _ _ _ Hd).
  destruct (re_HM (String " " s)) as [|[[h m] [|? ?]] l] eqn:E; try done.
  intros [= <-].
  destruct (re_HM_range (String " " s) h m EmptyString) as [? ?].
  { rewrite E. by left. }
  unfold mk_datetime. lia.
Qed.

(** Formatting a time of that day and parsing it again gives it back. *)
Lemma parse_format_time d ord t :
  strptime_Ymd d = Return ord → ord * 1440 <= t < ord * 1440 + 1440 →
  _parse_time d (_format_time t) = Return t.
Proof.
  intros Hd Ht. rewrite (parse_time_after_date _ _ _ Hd).
  unfold _format_time, strftime_HM.
  destruct (re_HM_pad2 (t mod 1440 / 60) (t mod 60)) as [l ->];
    [Z.to_euclidean_division_equations; lia..|].
  f_equal. unfold mk_datetime. Z.to_euclidean_division_equations; lia.
Qed.

End PyDatetimeFacts.

(** ** Facts about the module *)

Module ModuleFacts.
Import PyDatetime PyDatetimeFacts.

Lemma dt_add_Return t n t' : dt_add t n = Return t' → t' = t + n ∧ dt_min <= t + n <= dt_max.
Proof. unfold dt_add. case_match; [|done]. intros [= <-]. lia. Qed.

Lemma grid_S ex dur c n :
  grid ex dur c (S n) = grid_slot ex dur c :: grid ex dur (c + dur) n.
Proof.
  unfold grid. cbn [seq fmap list_fmap]. f_equal.
  - f_equal. lia.
  - rewrite <- fmap_S_seq, <- list_fmap_compose. apply list_fmap_ext.
    intros _ i _. simpl. f_equal. lia.
Qed.

Lemma slots_loop_spec fuel ex dur de c slots :
  slots_loop fuel ex dur de c = Return slots →
  ∃ n, (∀ ex', slots_loop fuel ex' dur de c = Return (grid ex' dur c n))
       ∧ (∀ i, (i < n)%nat → c + (Z.of_nat i + 1) * dur <= de)
       ∧ (∀ i, (i < n)%nat →
               dt_add (c + Z.of_nat i * dur) dur = Return (c + Z.of_nat i * dur + dur))
       ∧ de < c + (Z.of_nat n + 1) * dur.
Proof.
  revert c slots. induction fuel as [|fuel IH]; intros c slots; [done|].
  cbn [slots_loop]. destruct (dt_add c dur) as [b|e] eqn:Eb; [|done].
  destruct (dt_add_Return _ _ _ Eb) as [-> Hb].
  cbn [obind]. destruct (c + dur <=? de) eqn:Ele.
  - destruct (slots_loop fuel ex dur de (c + dur)) as [slots'|e] eqn:Es; [|done].
    intros _. destruct (IH _ _ Es) as (n & Hex & Hin & Hadd & Hout).
    exists (S n). split; [|split; [|split]].
    + intros ex'. rewrite Hex. cbn [obind].
      by rewrite grid_S.
    + intros [|i] Hi; [lia|]. specialize (Hin i). lia.
    + intros [|i] Hi.
      * by replace (c + Z.of_nat 0 * dur) with c by lia.
      * replace (c + Z.of_nat (S i) * dur) with (c + dur + Z.of_nat i * dur) by lia.
        apply Hadd. lia.
    + lia.
  - intros _. exists 0%nat. split; [|split; [|split]].
    + done.
    + lia.
    + lia.
    + lia.
Qed.

Lemma slots_loop_fuel fuel ex dur de c :
  0 < dur → (Z.to_nat (de - c) < fuel)%nat →
  slots_loop fuel ex dur de c ≠ Raise FuelExhausted.
Proof.
  intros Hdur. revert c. induction fuel as [|fuel IH]; intros c Hf; [lia|].
  cbn [slots_loop]. destruct (dt_add c dur) as [b|e] eqn:Eb.
  - destruct (dt_add_Return _ _ _ Eb) as [-> Hb].
    cbn [obind]. destruct (c + dur <=? de) eqn:Ele; [|done].
    specialize (IH (c + dur)).
    destruct (slots_loop fuel ex dur de (c + dur)); [done|].
    cbn [obind]. intros [= ->]. apply IH; [lia|done].
  - unfold dt_add in Eb. case_match; [done|]. by injection Eb as <-.
Qed.

(** The loops of [_collect_existing_bookings] *)
Lemma file_entries_loop_acc es d acc :
  file_entries_loop es d acc
  = (l <- file_entries_loop es d []; Return (acc ++ l))%outcome.
Proof.
  revert acc. induction es as [|e es IH]; intros acc; cbn [file_entries_loop].
  - cbn. by rewrite app_nil_r.
  - case_decide; [|apply IH].
    destruct (_parse_time d (eb_start_time e)); [|done].
    destruct (_parse_time d (eb_end_time e)); [|done]. cbn [obind].
    rewrite IH, (IH ([] ++ _)).
    destruct (file_entries_loop es d []); cbn [obind]; [|done].
    by rewrite <- !app_assoc.
Qed.

Lemma runtime_entries_loop_acc es d acc :
  runtime_entries_loop es d acc
  = (l <- runtime_entries_loop es d []; Return (acc ++ l))%outcome.
Proof.
  revert acc. induction es as [|[s e] es IH]; intros acc; cbn [runtime_entries_loop].
  - cbn. by rewrite app_nil_r.
  - destruct (_parse_time d s); [|done].
    destruct (_parse_time d e); [|done]. cbn [obind].
    rewrite IH, (IH ([] ++ _)).
    destruct (runtime_entries_loop es d []); cbn [obind]; [|done].
    by rewrite <- !app_assoc.
Qed.

Lemma runtime_entries_loop_snoc es d s e cs ce l :
  runtime_entries_loop es d [] = Return l →
  _parse_time d s = Return cs → _parse_time d e = Return ce →
  runtime_entries_loop (es ++ [(s, e)]) d [] = Return (l ++ [(cs, ce)]).
Proof.
  revert l. induction es as [|[s' e'] es IH]; intros l; cbn [runtime_entries_loop app].
  - intros [= <-] -> ->. done.
  - destruct (_parse_time d s'); [|done].
    destruct (_parse_time d e'); [|done]. cbn [obind].
    rewrite runtime_entries_loop_acc, (runtime_entries_loop_acc (es ++ _)).
    destruct (runtime_entries_loop es d []) as [l'|] eqn:E; [|done].
    cbn [obind]. intros [= <-] Hs He. rewrite (IH _ eq_refl Hs He). cbn [obind].
    by rewrite app_assoc.
Qed.

(** [_collect_existing_bookings] in terms of the two loops *)
Lemma collect_existing_bookings_eq sched d st :
  _collect_existing_bookings sched d st
  = ((fl <- file_entries_loop (existing_bookings sched) d [];
      rl <- runtime_entries_loop (default [] (st !! d)) d [];
      Return (fl ++ rl))%outcome, st).
Proof.
  unfold _collect_existing_bookings, bind, lift, runtime_get.
  destruct (file_entries_loop _ d []) as [fl|]; [|done]. cbn [obind].
  by rewrite runtime_entries_loop_acc.
Qed.

Lemma parse_time_Raise d s e : _parse_time d s = Raise e → e = ValueError.
Proof.
  unfold _parse_time, strptime_YmdHM. repeat case_match; congruence.
Qed.

Lemma strptime_Ymd_Raise d e : strptime_Ymd d = Raise e → e = ValueError.
Proof. unfold strptime_Ymd. repeat case_match; congruence. Qed.

Lemma file_entries_loop_Raise es d acc e :
  file_entries_loop es d acc = Raise e → e = ValueError.
Proof.
  revert acc. induction es as [|x es IH]; intros acc; cbn [file_entries_loop]; [done|].
  case_decide; [|apply IH].
  destruct (_parse_time d (eb_start_time x)) eqn:E1;
    [|intros [= <-]; by eapply parse_time_Raise].
  destruct (_parse_time d (eb_end_time x)) eqn:E2;
    [|intros [= <-]; by eapply parse_time_Raise].
  apply IH.
Qed.

Lemma runtime_entries_loop_Raise es d acc e :
  runtime_entries_loop es d acc = Raise e → e = ValueError.
Proof.
  revert acc. induction es as [|[s1 s2] es IH]; intros acc;
    cbn [runtime_entries_loop]; [done|].
  destruct (_parse_time d s1) eqn:E1;
    [|intros [= <-]; by eapply parse_time_Raise].
  destruct (_parse_time d s2) eqn:E2;
    [|intros [= <-]; by eapply parse_time_Raise].
  apply IH.
Qed.

Lemma collect_existing_bookings_Raise sched d st e :
  fst (_collect_existing_bookings sched d st) = Raise e → e = ValueError.
Proof.
  rewrite collect_existing_bookings_eq. cbn [fst].
  destruct (file_entries_loop _ d []) eqn:E1;
    [|intros [= <-]; by eapply file_entries_loop_Raise].
  cbn [obind].
  destruct (runtime_entries_loop _ d []) eqn:E2;
    [|intros [= <-]; by eapply runtime_entries_loop_Raise].
  done.
Qed.

Section Generate.
Variable data_file : option Schedule.

Lemma generate_slots_store d ty st : snd (_generate_slots data_file d ty st) = st.
Proof.
  unfold _generate_slots, bind, lift, ret.
  destruct _load_schedule; [|done]. destruct (_get_weekday d); [|done].
  destruct (_ !! _); [|done]. destruct (getitem _ _); [|done].
  destruct (_parse_time _ _); [|done]. destruct (_parse_time _ _); [|done].
  rewrite collect_existing_bookings_eq. by case_match.
Qed.

Lemma generate_slots_open sched d ty st ord hours dur ds de :
  data_file = Some sched → strptime_Ymd d = Return ord →
  working_hours sched
    !! nth (Z.to_nat (weekday_of_ord ord)) weekday_names EmptyString = Some hours →
  APPOINTMENT_DURATIONS_MIN !! ty = Some dur →
  _parse_time d (wh_start hours) = Return ds →
  _parse_time d (wh_end hours) = Return de →
  _generate_slots data_file d ty st
  = ((ex <- fst (_collect_existing_bookings sched d st);
      slots_loop (slots_fuel ds de) ex dur de ds)%outcome, st).
Proof.
  intros Hf Hd Hh Hdur Hs He.
  unfold _generate_slots, bind, lift, ret, _load_schedule, _get_weekday, getitem.
  rewrite Hf, Hd. cbn [obind]. rewrite Hh, Hdur, Hs, He.
  rewrite collect_existing_bookings_eq. cbn [fst]. by case_match.
Qed.

Lemma generate_slots_Return d ty st slots st' :
  _generate_slots data_file d ty st = (Return slots, st') →
  st' = st ∧ ∃ sched ord, data_file = Some sched ∧ strptime_Ymd d = Return ord ∧
  match working_hours sched
          !! nth (Z.to_nat (weekday_of_ord ord)) weekday_names EmptyString with
  | None => slots = []
  | Some hours =>
      ∃ dur ds de ex n,
        APPOINTMENT_DURATIONS_MIN !! ty = Some dur
        ∧ _parse_time d (wh_start hours) = Return ds
        ∧ _parse_time d (wh_end hours) = Return de
        ∧ fst (_collect_existing_bookings sched d st) = Return ex
        ∧ slots = grid ex dur ds n
        ∧ (∀ ex', slots_loop (slots_fuel ds de) ex' dur de ds
                  = Return (grid ex' dur ds n))
        ∧ (∀ i, (i < n)%nat → ds + (Z.of_nat i + 1) * dur <= de)
        ∧ (∀ i, (i < n)%nat →
                dt_add (ds + Z.of_nat i * dur) dur
                = Return (ds + Z.of_nat i * dur + dur))
        ∧ de < ds + (Z.of_nat n + 1) * dur
  end.
Proof.
  intros H. pose proof (generate_slots_store d ty st) as Hst.
  rewrite H in Hst. cbn [snd] in Hst. split; [done|]. subst st'.
  revert H. unfold _generate_slots at 1. unfold bind, lift, ret, _load_schedule.
  destruct data_file as [sched|] eqn:Hf; [|done].
  unfold _get_weekday. destruct (strptime_Ymd d) as [ord|] eqn:Hd; [|done].
  cbn [obind]. intros H. exists sched, ord. split; [done|]. split; [done|].
  destruct (working_hours sched !! _) as [hours|] eqn:Hh; [|by injection H as <-].
  unfold getitem in H.
  destruct (APPOINTMENT_DURATIONS_MIN !! ty) as [dur|] eqn:Hdur; [|done].
  destruct (_parse_time d (wh_start hours)) as [ds|] eqn:Hs; [|done].
  destruct (_parse_time d (wh_end hours)) as [de|] eqn:He; [|done].
  rewrite collect_existing_bookings_eq in *. cbn [fst].
  destruct (obind _ _) as [ex|] eqn:Hex; [|done].
  apply (f_equal fst) in H. cbn [fst] in H.
  destruct (slots_loop_spec _ _ _ _ _ _ H) as (n & Hall & Hin & Hadd & Hout).
  exists dur, ds, de, ex, n. rewrite Hall in H. injection H as <-. done.
Qed.

Lemma durations_range ty dur :
  APPOINTMENT_DURATIONS_MIN !! ty = Some dur → 0 < dur <= 60.
Proof.
  unfold APPOINTMENT_DURATIONS_MIN.
  rewrite !lookup_insert_Some, lookup_empty.
  intros [[_ <-]|[_ [[_ <-]|[_ [[_ <-]|[_ [[_ <-]|[_ ?]]]]]]]]; done.
Qed.

(** The iteration bound is never reached. *)
Lemma generate_slots_fuel d ty st :
  fst (_generate_slots data_file d ty st) ≠ Raise FuelExhausted.
Proof.
  unfold _generate_slots, bind, lift, ret, _load_schedule.
  destruct data_file as [sched|]; [|done]. unfold _get_weekday.
  destruct (strptime_Ymd d) eqn:Ed;
    [|by apply strptime_Ymd_Raise in Ed as ->].
  cbn [obind].
  destruct (_ !! _); [|done]. unfold getitem.
  destruct (APPOINTMENT_DURATIONS_MIN !! ty) as [dur|] eqn:Hdur; [|done].
  destruct (_parse_time d _) as [ds|] eqn:Es;
    [|by apply parse_time_Raise in Es as ->].
  destruct (_parse_time d (wh_end _)) as [de|] eqn:Ee;
    [|by apply parse_time_Raise in Ee as ->].
  pose proof (collect_existing_bookings_Raise sched d st) as Hc.
  destruct (_collect_existing_bookings sched d st) as [[ex|e] st1].
  - cbn [fst]. apply slots_loop_fuel; [by eapply durations_range|].
    unfold slots_fuel. lia.
  - cbn [fst] in *. by rewrite (Hc e eq_refl).
Qed.
End Generate.

Lemma slot_map_foldl_notin (slots : list Slot) (m : gmap (string * string) Slot) k :
  k ∉ slot_key <$> slots →
  foldl (λ m s, <[(start_time s, end_time s) := s]> m) m slots !! k = m !! k.
Proof.
  revert m. induction slots as [|a slots IH]; intros m Hk; [done|].
  cbn [foldl]. rewrite fmap_cons, not_elem_of_cons in Hk. destruct Hk as [Hka Hk].
  rewrite IH by done. by rewrite lookup_insert_ne.
Qed.

Lemma slot_map_foldl_Some (slots : list Slot) (m : gmap (string * string) Slot) k s :
  foldl (λ m s, <[(start_time s, end_time s) := s]> m) m slots !! k = Some s →
  (s ∈ slots ∧ slot_key s = k) ∨ m !! k = Some s.
Proof.
  revert m. induction slots as [|a slots IH]; intros m; [by right|].
  cbn [foldl]. intros H. destruct (IH _ H) as [[Hin Hk]|Hm].
  - left. split; [by right|done].
  - destruct (decide (slot_key a = k)) as [<-|Hne].
    + rewrite lookup_insert_eq in Hm. injection Hm as <-. left. split; [by left|done].
    + rewrite lookup_insert_ne in Hm by done. by right.
Qed.

Lemma slot_map_of_Some slots k s :
  slot_map_of slots !! k = Some s → s ∈ slots ∧ slot_key s = k.
Proof.
  intros H. destruct (slot_map_foldl_Some _ _ _ _ H) as [?|Hm]; [done|].
  by rewrite lookup_empty in Hm.
Qed.

Lemma slot_map_foldl_is_Some (slots : list Slot) (m : gmap (string * string) Slot) k :
  is_Some (foldl (λ m s, <[(start_time s, end_time s) := s]> m) m slots !! k)
  ↔ k ∈ slot_key <$> slots ∨ is_Some (m !! k).
Proof.
  revert m. induction slots as [|a slots IH]; intros m; cbn [foldl].
  - rewrite fmap_nil, elem_of_nil. tauto.
  - rewrite IH, fmap_cons, elem_of_cons, lookup_insert_is_Some.
    change (start_time a, end_time a) with (slot_key a).
    destruct (decide (slot_key a = k)); intuition congruence.
Qed.

Lemma slot_map_of_None slots k :
  slot_map_of slots !! k = None ↔ k ∉ slot_key <$> slots.
Proof.
  rewrite eq_None_not_Some. unfold slot_map_of.
  rewrite slot_map_foldl_is_Some, lookup_empty, is_Some_alt. tauto.
Qed.

Lemma slot_map_of_NoDup slots s :
  NoDup (slot_key <$> slots) → s ∈ slots →
  slot_map_of slots !! slot_key s = Some s.
Proof.
  unfold slot_map_of. generalize (∅ : gmap (string * string) Slot).
  induction slots as [|a slots IH]; intros m Hnd Hs; [by apply elem_of_nil in Hs|].
  rewrite fmap_cons in Hnd. apply NoDup_cons in Hnd as [Ha Hnd].
  cbn [foldl]. apply elem_of_cons in Hs as [->|Hs].
  - rewrite slot_map_foldl_notin by done. apply lookup_insert_eq.
  - by apply IH.
Qed.

(** The grid *)

Lemma grid_lookup ex dur c n i :
  (i < n)%nat → grid ex dur c n !! i = Some (grid_slot ex dur (c + Z.of_nat i * dur)).
Proof.
  intros Hi. unfold grid. rewrite list_lookup_fmap, lookup_seq_lt by done. done.
Qed.

Lemma grid_length ex dur c n : length (grid ex dur c n) = n.
Proof. unfold grid. by rewrite length_fmap, length_seq. Qed.

Lemma elem_of_grid ex dur c n s :
  s ∈ grid ex dur c n ↔ ∃ i, (i < n)%nat ∧ s = grid_slot ex dur (c + Z.of_nat i * dur).
Proof.
  unfold grid. rewrite list_elem_of_fmap. setoid_rewrite elem_of_seq.
  split; intros (i & H1 & H2); exists i; split; try done; lia.
Qed.

Lemma format_time_inj d ord t t' :
  strptime_Ymd d = Return ord → on_day ord t → on_day ord t' →
  _format_time t = _format_time t' → t = t'.
Proof.
  intros Hd Ht Ht' E.
  pose proof (parse_format_time d ord t Hd Ht) as H.
  rewrite E, (parse_format_time d ord t' Hd Ht') in H. congruence.
Qed.

(** A grid that lies between two times of one day *)
Section Grid_on_day.
Context (d : string) (ord : Z) (dur ds de : Z) (n : nat).
Hypothesis Hd : strptime_Ymd d = Return ord.
Hypothesis Hdur : 0 < dur.
Hypothesis Hds : on_day ord ds.
Hypothesis Hde : on_day ord de.
Hypothesis Hin : ∀ i, (i < n)%nat → ds + (Z.of_nat i + 1) * dur <= de.

Lemma grid_start_on_day i : (i < n)%nat → on_day ord (ds + Z.of_nat i * dur).
Proof. intros Hi. specialize (Hin i Hi). unfold on_day in *. nia. Qed.

Lemma grid_end_on_day i : (i < n)%nat → on_day ord (ds + Z.of_nat i * dur + dur).
Proof. intros Hi. specialize (Hin i Hi). unfold on_day in *. nia. Qed.

Lemma grid_parse_start ex i :
  (i < n)%nat →
  _parse_time d (start_time (grid_slot ex dur (ds + Z.of_nat i * dur)))
  = Return (ds + Z.of_nat i * dur).
Proof.
  intros Hi. cbn [start_time grid_slot].
  apply (parse_format_time d ord); [done|by apply grid_start_on_day].
Qed.

Lemma grid_parse_end ex i :
  (i < n)%nat →
  _parse_time d (end_time (grid_slot ex dur (ds + Z.of_nat i * dur)))
  = Return (ds + Z.of_nat i * dur + dur).
Proof.
  intros Hi. cbn [end_time grid_slot].
  apply (parse_format_time d ord); [done|by apply grid_end_on_day].
Qed.

Lemma grid_keys_NoDup ex : NoDup (slot_key <$> grid ex dur ds n).
Proof.
  unfold grid. rewrite <- list_fmap_compose. apply NoDup_fmap_2_strong; [|apply NoDup_seq].
  intros i j Hi Hj. rewrite !elem_of_seq in Hi, Hj.
  unfold compose, slot_key. cbn [start_time end_time grid_slot].
  intros E. apply (f_equal fst) in E. cbn [fst] in E.
  apply (format_time_inj d ord) in E; [nia|done|apply grid_start_on_day; lia..].
Qed.
End Grid_on_day.

Section Book.
Variable data_file : option Schedule.

Lemma book_appointment_open req rnd st dur start_dt end_dt slots :
  APPOINTMENT_DURATIONS_MIN !! req_appointment_type req = Some dur →
  _parse_time (req_date req) (req_start_time req) = Return start_dt →
  dt_add start_dt dur = Return end_dt →
  fst (_generate_slots data_file (req_date req) (req_appointment_type req) st)
    = Return slots →
  book_appointment data_file req rnd st
  = match slot_map_of slots !! (req_start_time req, strftime_HM end_dt) with
    | None =>
        (Raise outside_working_hours, st)
    | Some slot =>
        if available slot then
          (Return (confirmation req rnd (strftime_HM end_dt)),
           commit st (req_date req) (req_start_time req, strftime_HM end_dt))
        else
          (Raise slot_conflict, st)
    end.
Proof.
  intros Hdur Hp Ha Hg.
  pose proof (generate_slots_store data_file (req_date req)
                (req_appointment_type req) st) as Hst.
  unfold book_appointment. rewrite Hdur. cbn [decide_rel].
  case_decide; [done|].
  unfold bind at 1. unfold try_except_ValueError, lift at 1. rewrite Hp.
  unfold bind at 1. unfold lift at 1, getitem. rewrite Hdur.
  unfold bind at 1. unfold lift at 1. rewrite Ha.
  unfold bind at 1.
  destruct (_generate_slots _ _ _ st) as [o st1]. cbn [fst snd] in *. subst o st1.
  destruct (slot_map_of slots !! _) as [slot|]; [|done].
  destruct (available slot); cbn [negb]; done.
Qed.

(** Whatever [book_appointment] raises, it has written nothing. *)
Lemma book_appointment_Raise req rnd st e st' :
  book_appointment data_file req rnd st = (Raise e, st') → st' = st.
Proof.
  pose proof (generate_slots_store data_file (req_date req)
                (req_appointment_type req) st) as Hst.
  unfold book_appointment. case_decide; [by intros [= _ <-]|].
  unfold bind at 1. unfold try_except_ValueError, lift at 1.
  destruct (_parse_time _ _) as [start_dt|e1]; [|by destruct e1; intros [= _ <-]].
  unfold bind at 1. unfold lift at 1.
  destruct (getitem _ _) as [dur|]; [|by intros [= _ <-]].
  unfold bind at 1. unfold lift at 1.
  destruct (dt_add _ _) as [end_dt|]; [|by intros [= _ <-]].
  unfold bind at 1.
  destruct (_generate_slots _ _ _ st) as [[slots|] st1]; cbn [snd] in Hst; subst st1;
    [|by intros [= _ <-]].
  destruct (slot_map_of slots !! _) as [slot|]; [|by intros [= _ <-]].
  destruct (available slot); cbn [negb]; [done|by intros [= _ <-]].
Qed.

Lemma book_appointment_Return req rnd st resp st' :
  book_appointment data_file req rnd st = (Return resp, st') →
  ∃ dur start_dt end_dt slots slot,
    APPOINTMENT_DURATIONS_MIN !! req_appointment_type req = Some dur
    ∧ _parse_time (req_date req) (req_start_time req) = Return start_dt
    ∧ dt_add start_dt dur = Return end_dt
    ∧ fst (_generate_slots data_file (req_date req) (req_appointment_type req) st)
      = Return slots
    ∧ slot_map_of slots !! (req_start_time req, strftime_HM end_dt) = Some slot
    ∧ available slot = true
    ∧ resp = confirmation req rnd (strftime_HM end_dt)
    ∧ st' = commit st (req_date req) (req_start_time req, strftime_HM end_dt).
Proof.
  intros H.
  destruct (APPOINTMENT_DURATIONS_MIN !! req_appointment_type req) as [dur|] eqn:Hdur;
    [|by unfold book_appointment in H; rewrite Hdur in H].
  destruct (_parse_time (req_date req) (req_start_time req)) as [start_dt|e1] eqn:Hp;
    [|unfold book_appointment, bind, try_except_ValueError, lift in H;
      rewrite Hdur, Hp in H; case_decide; [done|]; by destruct e1].
  destruct (dt_add start_dt dur) as [end_dt|] eqn:Ha;
    [|unfold book_appointment, bind, try_except_ValueError, lift, getitem in H;
      rewrite Hdur, Hp, Ha in H; by case_decide].
  destruct (fst (_generate_slots data_file (req_date req)
                   (req_appointment_type req) st)) as [slots|] eqn:Hg.
  - rewrite (book_appointment_open _ _ _ _ _ _ _ Hdur Hp Ha Hg) in H.
    destruct (slot_map_of slots !! _) as [slot|] eqn:Hs; [|done].
    destruct (available slot) eqn:Hav; [|done].
    injection H as <- <-. by exists dur, start_dt, end_dt, slots, slot.
  - pose proof (generate_slots_store data_file (req_date req)
                (req_appointment_type req) st) as Hst.
    destruct (_generate_slots data_file (req_date req)
                (req_appointment_type req) st) as [o st1] eqn:Eg.
    cbn [fst] in Hg. subst o.
    unfold book_appointment, bind, try_except_ValueError, lift, getitem in H.
    rewrite Hdur, Hp, Ha in H. case_decide; [done|].
    cbv beta iota in H. by rewrite Eg in H.
Qed.
End Book.

Lemma overlaps_spec a_start a_end b_start b_end :
  _overlaps a_start a_end b_start b_end = true ↔ a_start < b_end ∧ b_start < a_end.
Proof. unfold _overlaps. rewrite andb_true_iff, !Z.ltb_lt. done. Qed.

Lemma has_conflict_spec ex cs ce :
  has_conflict ex cs ce = true ↔ ∃ b, b ∈ ex ∧ cs < snd b ∧ fst b < ce.
Proof.
  unfold has_conflict. rewrite existsb_exists.
  setoid_rewrite overlaps_spec. setoid_rewrite list_elem_of_In. done.
Qed.

Lemma get_weekday_Return d wd :
  _get_weekday d = Return wd →
  ∃ ord, strptime_Ymd d = Return ord
         ∧ wd = nth (Z.to_nat (weekday_of_ord ord)) weekday_names EmptyString.
Proof.
  unfold _get_weekday. destruct (strptime_Ymd d) as [ord|]; [|done].
  intros [= <-]. by exists ord.
Qed.


Lemma commit_lookup_same st d k :
  default [] (commit st d k !! d) = default [] (st !! d) ++ [k].
Proof. unfold commit. by rewrite lookup_insert_eq. Qed.

Lemma commit_lookup_other st d d' k : d ≠ d' → commit st d' k !! d = st !! d.
Proof. intros H. unfold commit. by rewrite lookup_insert_ne. Qed.

Lemma committed_commit_same sched d st k cs ce l :
  committed sched d st = Return l →
  _parse_time d (fst k) = Return cs → _parse_time d (snd k) = Return ce →
  committed sched d (commit st d k) = Return (l ++ [(cs, ce)]).
Proof.
  unfold committed. rewrite !collect_existing_bookings_eq. cbn [fst].
  destruct (file_entries_loop _ d []) as [fl|]; [|done]. cbn [obind].
  destruct (runtime_entries_loop (default [] (st !! d)) d []) as [rl|] eqn:E; [|done].
  cbn [obind]. intros [= <-] Hs He. rewrite commit_lookup_same.
  destruct k as [s e]. cbn [fst snd] in Hs, He.
  rewrite (runtime_entries_loop_snoc _ _ _ _ _ _ _ E Hs He).
  cbn [obind]. by rewrite app_assoc.
Qed.

Lemma committed_commit_other sched d d' st k :
  d ≠ d' → committed sched d (commit st d' k) = committed sched d st.
Proof.
  intros H. unfold committed. rewrite !collect_existing_bookings_eq. cbn [fst].
  by rewrite commit_lookup_other.
Qed.


Section On_grid.
Variable data_file : option Schedule.

(** A request for the start time of a generated slot is decided by the
    slot's flag. *)
Lemma book_on_grid req rnd st slots slot :
  fst (_generate_slots data_file (req_date req) (req_appointment_type req) st)
    = Return slots →
  slot ∈ slots → req_start_time req = start_time slot →
  book_appointment data_file req rnd st
  = if available slot
    then (Return (confirmation req rnd (end_time slot)),
          commit st (req_date req) (slot_key slot))
    else (Raise slot_conflict, st).
Proof.
  intros Hg Hin Hst.
  destruct (_generate_slots data_file _ _ st) as [o st'] eqn:E.
  cbn [fst] in Hg. subst o.
  apply generate_slots_Return in E as (-> & sched & ord & -> & Hd & H).
  destruct (working_hours sched !! _) as [hours|] eqn:Hh;
    [|subst slots; by apply elem_of_nil in Hin].
  destruct H as (dur & ds & de & ex & n & Hdur & Hs & He & Hex & -> & Hall & Hle & Hadd & _).
  pose proof Hin as Hin'.
  apply elem_of_grid in Hin as (i & Hi & Eslot).
  destruct (durations_range _ _ Hdur) as [Hpos _].
  pose proof (parse_time_on_day _ _ _ _ Hd Hs) as Hds.
  pose proof (parse_time_on_day _ _ _ _ Hd He) as Hde.
  assert (_parse_time (req_date req) (req_start_time req)
          = Return (ds + Z.of_nat i * dur)) as Hp.
  { rewrite Hst, Eslot. by apply (grid_parse_start _ ord dur ds de n). }
  assert (fst (_generate_slots (Some sched) (req_date req)
                 (req_appointment_type req) st) = Return (grid ex dur ds n)) as Hg.
  { rewrite (generate_slots_open (Some sched) sched _ _ st ord hours dur ds de
               eq_refl Hd Hh Hdur Hs He).
    cbn [fst]. rewrite Hex. cbn [obind]. apply Hall. }
  rewrite (book_appointment_open _ _ _ _ _ _ _ _ Hdur Hp (Hadd i Hi) Hg).
  assert ((req_start_time req, strftime_HM (ds + Z.of_nat i * dur + dur))
          = slot_key slot) as ->.
  { by rewrite Hst, Eslot. }
  rewrite (slot_map_of_NoDup _ slot);
    [|by apply (grid_keys_NoDup (req_date req) ord dur ds de n)|done].
  rewrite Eslot. done.
Qed.

(** After the commit of an available slot, a new query gives the same
    slots, with that one slot taken. *)
Lemma generate_after_commit d ty st slots slot :
  fst (_generate_slots data_file d ty st) = Return slots →
  slot ∈ slots → available slot = true →
  fst (_generate_slots data_file d ty (commit st d (slot_key slot)))
  = Return ((λ s, if decide (s = slot) then taken s else s) <$> slots).
Proof.
  intros Hg Hin Hav.
  destruct (_generate_slots data_file _ _ st) as [o st'] eqn:E.
  cbn [fst] in Hg. subst o.
  apply generate_slots_Return in E as (-> & sched & ord & -> & Hd & H).
  destruct (working_hours sched !! _) as [hours|] eqn:Hh;
    [|subst slots; by apply elem_of_nil in Hin].
  destruct H as (dur & ds & de & ex & n & Hdur & Hs & He & Hex & -> & Hall & Hle & Hadd & _).
  apply elem_of_grid in Hin as (i & Hi & Eslot).
  destruct (durations_range _ _ Hdur) as [Hpos _].
  pose proof (parse_time_on_day _ _ _ _ Hd Hs) as Hds.
  pose proof (parse_time_on_day _ _ _ _ Hd He) as Hde.
  rewrite (generate_slots_open (Some sched) sched _ _ _ ord hours dur ds de
             eq_refl Hd Hh Hdur Hs He).
  cbn [fst]. fold (committed sched d (commit st d (slot_key slot))).
  rewrite (committed_commit_same sched d st (slot_key slot)
             (ds + Z.of_nat i * dur) (ds + Z.of_nat i * dur + dur) ex Hex).
  2: { subst slot. by apply (grid_parse_start d ord dur ds de n). }
  2: { subst slot. by apply (grid_parse_end d ord dur ds de n). }
  cbn [obind]. rewrite Hall. f_equal. unfold grid.
  rewrite <- list_fmap_compose. apply list_fmap_ext.
  intros j ? [-> Hj]%lookup_seq. cbn [Nat.add compose].
  assert (∀ k, has_conflict (ex ++ [(ds + Z.of_nat i * dur, ds + Z.of_nat i * dur + dur)])
                 (ds + Z.of_nat k * dur) (ds + Z.of_nat k * dur + dur)
               = has_conflict ex (ds + Z.of_nat k * dur) (ds + Z.of_nat k * dur + dur)
                 || bool_decide (k = i)) as Hc.
  { intros k. unfold has_conflict. rewrite existsb_app. cbn [existsb fst snd].
    rewrite orb_false_r. f_equal. unfold _overlaps.
    case_bool_decide as Hk.
    - subst k. apply andb_true_iff. rewrite !Z.ltb_lt. lia.
    - apply andb_false_iff. rewrite !Z.ltb_ge. nia. }
  case_decide as Hsl.
  - assert (j = i) as ->.
    { subst slot. apply (f_equal start_time) in Hsl. cbn [start_time grid_slot] in Hsl.
      apply (format_time_inj d ord) in Hsl;
        [nia|done|by apply (grid_start_on_day ord dur ds de n)..]. }
    unfold grid_slot, taken. cbn [start_time end_time available]. f_equal.
    rewrite Hc, bool_decide_eq_true_2 by done. by rewrite orb_true_r.
  - assert (j ≠ i) as Hji by (intros ->; by subst slot).
    unfold grid_slot. f_equal.
    rewrite Hc, bool_decide_eq_false_2 by done. by rewrite orb_false_r.
Qed.
End On_grid.

Lemma no_overlap_snoc l x :
  no_overlap l →
  (∀ b, b ∈ l → _overlaps (fst x) (snd x) (fst b) (snd b) = false) →
  no_overlap (l ++ [x]).
Proof.
  intros Hl Hx i j a b Hij Ha Hb.
  assert (∀ p q r s, _overlaps p q r s = _overlaps r s p q) as Hsym.
  { intros. unfold _overlaps. apply andb_comm. }
  apply lookup_app_Some in Ha as [Ha|[Hi Ha]];
  apply lookup_app_Some in Hb as [Hb|[Hj Hb]].
  - by apply (Hl i j).
  - apply list_lookup_singleton_Some in Hb as [_ <-].
    rewrite Hsym. apply Hx. by eapply list_elem_of_lookup_2.
  - apply list_lookup_singleton_Some in Ha as [_ <-].
    apply Hx. by eapply list_elem_of_lookup_2.
  - apply list_lookup_singleton_Some in Ha as [Hi' _].
    apply list_lookup_singleton_Some in Hb as [Hj' _]. lia.
Qed.

Lemma book_preserves_consistent sched d st req rnd :
  consistent sched d st →
  consistent sched d (snd (book_appointment (Some sched) req rnd st)).
Proof.
  intros (l & Hl & Hno).
  destruct (book_appointment (Some sched) req rnd st) as [[resp|e] st'] eqn:E; cbn [snd].
  2: { apply book_appointment_Raise in E as ->. by exists l. }
  apply book_appointment_Return in E
    as (dur & start_dt & end_dt & slots & slot & Hdur & Hp & Ha & Hg & Hm & Hav & _ & ->).
  destruct (decide (d = req_date req)) as [->|Hne].
  2: { exists l. by rewrite committed_commit_other. }
  apply slot_map_of_Some in Hm as [Hin Hkey].
  destruct (_generate_slots (Some sched) _ _ st) as [o st'] eqn:E.
  cbn [fst] in Hg. subst o.
  apply generate_slots_Return in E as (-> & sched' & ord & [= <-] & Hd & H).
  destruct (working_hours sched !! _) as [hours|] eqn:Hh;
    [|subst slots; by apply elem_of_nil in Hin].
  destruct H as (dur' & ds & de & ex & n & Hdur' & Hs & He & Hex & -> & Hall & Hle & Hadd & _).
  fold (committed sched (req_date req) st) in Hex. rewrite Hl in Hex. injection Hex as <-.
  apply elem_of_grid in Hin as (i & Hi & ->).
  destruct (durations_range _ _ Hdur') as [Hpos _].
  pose proof (parse_time_on_day _ _ _ _ Hd Hs) as Hds.
  pose proof (parse_time_on_day _ _ _ _ Hd He) as Hde.
  exists (l ++ [(ds + Z.of_nat i * dur', ds + Z.of_nat i * dur' + dur')]). split.
  - rewrite <- Hkey. apply committed_commit_same; [done|..].
    + by apply (grid_parse_start (req_date req) ord dur' ds de n).
    + by apply (grid_parse_end (req_date req) ord dur' ds de n).
  - apply no_overlap_snoc; [done|]. intros b Hb. cbn [fst snd].
    cbn [available grid_slot] in Hav. apply negb_true_iff in Hav.
    unfold has_conflict in Hav.
    apply not_true_is_false. intros Ho.
    assert (existsb (λ b, _overlaps (ds + Z.of_nat i * dur') (ds + Z.of_nat i * dur' + dur')
                            (fst b) (snd b)) l = true); [|congruence].
    apply existsb_exists. exists b. split; [by apply list_elem_of_In|done].
Qed.


Section Strings.
Variable data_file : option Schedule.

(** [book_appointment] accepts a start time only in the form that
    [_format_time] gives it. *)
Lemma book_noncanonical_start_rejected req rnd st dur start_dt end_dt slots :
  APPOINTMENT_DURATIONS_MIN !! req_appointment_type req = Some dur →
  _parse_time (req_date req) (req_start_time req) = Return start_dt →
  dt_add start_dt dur = Return end_dt →
  fst (_generate_slots data_file (req_date req) (req_appointment_type req) st)
    = Return slots →
  req_start_time req ≠ _format_time start_dt →
  book_appointment data_file req rnd st = (Raise outside_working_hours, st).
Proof.
  intros Hdur Hp Ha Hg Hne.
  rewrite (book_appointment_open _ _ _ _ _ _ _ _ Hdur Hp Ha Hg).
  assert (slot_map_of slots !! (req_start_time req, strftime_HM end_dt) = None) as ->; [|done].
  apply slot_map_of_None. intros (slot & E & Hin)%list_elem_of_fmap.
  destruct (_generate_slots data_file _ _ st) as [o st'] eqn:Eg.
  cbn [fst] in Hg. subst o.
  apply generate_slots_Return in Eg as (-> & sched & ord & -> & Hd & H).
  destruct (working_hours sched !! _) as [hours|] eqn:Hh;
    [|subst slots; by apply elem_of_nil in Hin].
  destruct H as (dur' & ds & de & ex & n & Hdur' & Hs & He & Hex & -> & Hall & Hle & Hadd & _).
  apply elem_of_grid in Hin as (i & Hi & ->).
  destruct (durations_range _ _ Hdur') as [Hpos _].
  pose proof (parse_time_on_day _ _ _ _ Hd Hs) as Hds.
  pose proof (parse_time_on_day _ _ _ _ Hd He) as Hde.
  apply (f_equal fst) in E. cbn [fst slot_key] in E.
  pose proof (grid_parse_start (req_date req) ord dur' ds de n Hd Hpos Hds Hde Hle ex i Hi) as Hq.
  rewrite <- E, Hp in Hq. injection Hq as ->.
  apply Hne. by rewrite E.
Qed.
End Strings.

Section Phases.
Variable data_file : option Schedule.

(** The two phases together are [book_appointment]. *)
Lemma book_appointment_phases req rnd st :
  book_appointment data_file req rnd st
  = bind (book_check data_file req) (book_commit req rnd) st.
Proof.
  unfold book_appointment, book_check, bind. case_decide; [done|].
  destruct (try_except_ValueError _ _ st) as [[start_dt|] st1]; [|done].
  destruct (lift _ st1) as [[dur|] st2]; [|done].
  destruct (lift _ st2) as [[end_dt|] st3]; [|done].
  destruct (_generate_slots _ _ _ st3) as [[slots|] st4]; [|done].
  destruct (slot_map_of slots !! _) as [slot|]; [|done].
  destruct (available slot); done.
Qed.

(** A thread that is not interrupted runs [book_appointment]. *)
Lemma thread_runs_book req rnd st :
  let r := thread_step data_file (Entered req rnd) st in
  thread_step data_file (fst r) (snd r)
  = (Finished (fst (book_appointment data_file req rnd st)),
     snd (book_appointment data_file req rnd st)).
Proof.
  rewrite book_appointment_phases. unfold bind. cbn [thread_step].
  destruct (book_check data_file req st) as [[key|e] st']; done.
Qed.
End Phases.

Lemma runtime_entries_loop_elem es d rl s e :
  runtime_entries_loop es d [] = Return rl → (s, e) ∈ es →
  ∃ a b, _parse_time d s = Return a ∧ _parse_time d e = Return b ∧ (a, b) ∈ rl.
Proof.
  revert rl. induction es as [|[s' e'] es IH]; intros rl Hrl Hin;
    [by apply elem_of_nil in Hin|].
  cbn [runtime_entries_loop] in Hrl.
  destruct (_parse_time d s') as [a|] eqn:Ea; [|done].
  destruct (_parse_time d e') as [b|] eqn:Eb; [|done].
  cbn [obind] in Hrl. rewrite runtime_entries_loop_acc in Hrl.
  destruct (runtime_entries_loop es d []) as [rl'|] eqn:E; [|done].
  cbn [obind] in Hrl. injection Hrl as <-.
  apply elem_of_cons in Hin as [[= -> ->]|Hin].
  - exists a, b. split; [done|]. split; [done|]. cbn. by left.
  - destruct (IH _ eq_refl Hin) as (a' & b' & ? & ? & ?).
    exists a', b'. split; [done|]. split; [done|]. cbn. by right.
Qed.

Section Serial.
Variable data_file : option Schedule.

(** The key of an available slot is not among the runtime entries. *)
Lemma available_not_committed d ty st slots slot :
  fst (_generate_slots data_file d ty st) = Return slots →
  slot ∈ slots → available slot = true →
  slot_key slot ∉ default [] (st !! d).
Proof.
  intros Hg Hin Hav Hk.
  destruct (_generate_slots data_file _ _ st) as [o st'] eqn:E.
  cbn [fst] in Hg. subst o.
  apply generate_slots_Return in E as (-> & sched & ord & -> & Hd & H).
  destruct (working_hours sched !! _) as [hours|] eqn:Hh;
    [|subst slots; by apply elem_of_nil in Hin].
  destruct H as (dur & ds & de & ex & n & Hdur & Hs & He & Hex & -> & Hall & Hle & Hadd & _).
  apply elem_of_grid in Hin as (i & Hi & ->).
  destruct (durations_range _ _ Hdur) as [Hpos _].
  pose proof (parse_time_on_day _ _ _ _ Hd Hs) as Hds.
  pose proof (parse_time_on_day _ _ _ _ Hd He) as Hde.
  rewrite collect_existing_bookings_eq in Hex. cbn [fst] in Hex.
  destruct (file_entries_loop _ d []) as [fl|]; [|done]. cbn [obind] in Hex.
  destruct (runtime_entries_loop _ d []) as [rl|] eqn:Erl; [|done].
  cbn [obind] in Hex. injection Hex as <-.
  destruct (runtime_entries_loop_elem _ _ _ _ _ Erl Hk) as (a & b & Ha & Hb & Hab).
  rewrite (grid_parse_start d ord dur ds de n) in Ha by done.
  rewrite (grid_parse_end d ord dur ds de n) in Hb by done.
  injection Ha as <-. injection Hb as <-.
  cbn [available grid_slot] in Hav. apply negb_true_iff in Hav.
  assert (has_conflict (fl ++ rl) (ds + Z.of_nat i * dur)
            (ds + Z.of_nat i * dur + dur) = true); [|congruence].
  apply has_conflict_spec. eexists. split; [apply elem_of_app; right; exact Hab|].
  cbn [fst snd]. lia.
Qed.

(** Requests for a slot that is taken all fail with the conflict error and
    write nothing. *)
Lemma book_all_taken calls st slots slot :
  slot ∈ slots → available slot = false →
  Forall (λ c, fst (_generate_slots data_file (req_date (fst c))
                      (req_appointment_type (fst c)) st) = Return slots
               ∧ req_start_time (fst c) = start_time slot) calls →
  book_all data_file calls st
  = (replicate (length calls) (Raise slot_conflict), st).
Proof.
  intros Hin Hav. induction 1 as [|[req rnd] calls [Hg Hst] _ IH]; [done|].
  cbn [book_all fst snd length replicate] in *.
  rewrite (book_on_grid _ _ _ _ _ _ Hg Hin Hst), Hav. cbn [fst snd].
  by rewrite IH.
Qed.
End Serial.

Lemma valid_date_ord y m d :
  valid_date y m d = true → 1 <= ymd2ord y m d <= 3652059.
Proof.
  unfold valid_date. rewrite !andb_true_iff, !Z.leb_le.
  intros [[[[[Hy1 Hy2] Hm1] Hm2] Hd1] Hd2].
  assert (0 <= days_before_month y m
          ∧ days_before_month y m + d <= (if is_leap y then 366 else 365)) as Hdoy.
  { revert Hd2. unfold days_before_month, days_in_month.
    assert (m = 1 ∨ m = 2 ∨ m = 3 ∨ m = 4 ∨ m = 5 ∨ m = 6 ∨ m = 7 ∨ m = 8
            ∨ m = 9 ∨ m = 10 ∨ m = 11 ∨ m = 12) as Hcases by lia.
    repeat destruct Hcases as [->|Hcases]; try subst m;
      cbn [Z.ltb Z.compare Pos.compare Pos.compare_cont andb];
      destruct (is_leap y); lia. }
  unfold ymd2ord, days_before_year.
  destruct (decide (y = 9999)) as [->|Hy].
  - change (is_leap 9999) with false in Hdoy.
    change ((9999 - 1) * 365 + (9999 - 1) / 4 - (9999 - 1) / 100 + (9999 - 1) / 400)
      with 3651694.
    lia.
  - assert ((if is_leap y then 366 else 365) <= 366) by (destruct (is_leap y); lia).
    Z.to_euclidean_division_equations. lia.
Qed.

Lemma strptime_Ymd_range d ord : strptime_Ymd d = Return ord → 1 <= ord <= 3652059.
Proof.
  unfold strptime_Ymd. repeat case_match; try done.
  intros [= <-]. by apply valid_date_ord.
Qed.

Lemma slots_loop_returns fuel ex dur de c :
  0 < dur → dt_min <= c → c + dur <= dt_max → de + dur <= dt_max →
  (Z.to_nat (de - c) < fuel)%nat →
  ∃ slots, slots_loop fuel ex dur de c = Return slots.
Proof.
  intros Hdur. revert c. induction fuel as [|fuel IH]; intros c Hc1 Hc2 Hde Hf; [lia|].
  cbn [slots_loop]. unfold dt_add.
  rewrite (proj2 (andb_true_iff _ _)) by (rewrite !Z.leb_le; lia).
  cbn [obind]. destruct (c + dur <=? de) eqn:Ele; [|by eexists].
  apply Z.leb_le in Ele.
  destruct (IH (c + dur)) as [slots ->]; [lia..|]. by eexists.
Qed.

(** Unless the date is the last day of year 9999, where the loop's
    [cursor + timedelta] can overflow, slot generation returns as soon as
    the window and the bookings of the date can be read. *)
Lemma generate_slots_returns sched d ty st wd hours dur ds de ex :
  _get_weekday d = Return wd →
  working_hours sched !! wd = Some hours →
  APPOINTMENT_DURATIONS_MIN !! ty = Some dur →
  _parse_time d (wh_start hours) = Return ds →
  _parse_time d (wh_end hours) = Return de →
  committed sched d st = Return ex →
  ds + dur <= dt_max → de + dur <= dt_max →
  ∃ slots, _generate_slots (Some sched) d ty st = (Return slots, st).
Proof.
  intros (ord & Hd & ->)%get_weekday_Return Hh Hdur Hs He Hex Hov1 Hov2.
  rewrite (generate_slots_open (Some sched) sched d ty st ord hours dur ds de
             eq_refl Hd Hh Hdur Hs He).
  unfold committed in Hex. rewrite Hex. cbn [obind].
  destruct (durations_range _ _ Hdur) as [Hpos _].
  pose proof (parse_time_on_day _ _ _ _ Hd Hs) as Hds.
  pose proof (strptime_Ymd_range _ _ Hd) as Hord.
  destruct (slots_loop_returns (slots_fuel ds de) ex dur de ds) as [slots ->];
    [done|unfold dt_min; lia|done|done|unfold slots_fuel; lia|].
  by exists slots.
Qed.

(** The slots that [_generate_slots] returns on an open day are the grid
    from the opening time on. *)
Lemma generated_slots_grid (sched : Schedule) (d ty : string) (st : Store)
    (wd : string) (hours : WorkingHours) (dur : Z) (day_start day_end : datetime)
    (slots : list Slot) :
  _get_weekday d = Return wd →
  working_hours sched !! wd = Some hours →
  APPOINTMENT_DURATIONS_MIN !! ty = Some dur →
  _parse_time d (wh_start hours) = Return day_start →
  _parse_time d (wh_end hours) = Return day_end →
  fst (_generate_slots (Some sched) d ty st) = Return slots →
  Z.of_nat (length slots) = Z.max 0 ((day_end - day_start) / dur)
  ∧ (∀ i slot, slots !! i = Some slot →
       ∃ cs ce,
         _parse_time d (start_time slot) = Return cs
         ∧ _parse_time d (end_time slot) = Return ce
         ∧ cs = day_start + Z.of_nat i * dur
         ∧ ce = cs + dur
         ∧ ce <= day_end)
  ∧ (∀ i a b, slots !! i = Some a → slots !! S i = Some b →
       start_time b = end_time a)
  ∧ (∀ i j a b a_start a_end b_start b_end,
       i ≠ j → slots !! i = Some a → slots !! j = Some b →
       _parse_time d (start_time a) = Return a_start →
       _parse_time d (end_time a) = Return a_end →
       _parse_time d (start_time b) = Return b_start →
       _parse_time d (end_time b) = Return b_end →
       _overlaps a_start a_end b_start b_end = false).
Proof.
  intros Hwd Hh Hdur Hs He Hg.
  destruct (_generate_slots (Some sched) d ty st) as [o st'] eqn:E.
  cbn [fst] in Hg. subst o.
  apply generate_slots_Return in E as (-> & sched' & ord & [= <-] & Hd & H).
  apply get_weekday_Return in Hwd as (ord' & Hd' & ->).
  rewrite Hd in Hd'. injection Hd' as <-. rewrite Hh in H.
  destruct H as (dur' & ds & de & ex & n & Hdur' & Hs' & He' & _ & -> & _ & Hle & _ & Hout).
  rewrite Hdur in Hdur'. injection Hdur' as <-.
  rewrite Hs in Hs'. injection Hs' as <-.
  rewrite He in He'. injection He' as <-.
  apply durations_range in Hdur as [Hdur _].
  pose proof (parse_time_on_day _ _ _ _ Hd Hs) as Hds.
  pose proof (parse_time_on_day _ _ _ _ Hd He) as Hde.
  assert (∀ i slot, grid ex dur day_start n !! i = Some slot →
            (i < n)%nat ∧ slot = grid_slot ex dur (day_start + Z.of_nat i * dur)) as Hlk.
  { intros i slot Hi. assert (i < n)%nat as Hlt.
    { apply lookup_lt_Some in Hi. by rewrite grid_length in Hi. }
    rewrite grid_lookup in Hi by done. by injection Hi as <-. }
  assert (∀ i slot, grid ex dur day_start n !! i = Some slot →
            _parse_time d (start_time slot) = Return (day_start + Z.of_nat i * dur)
            ∧ _parse_time d (end_time slot) = Return (day_start + Z.of_nat i * dur + dur)
            ∧ day_start + Z.of_nat i * dur + dur <= day_end) as Hpar.
  { intros i slot (Hi & ->)%Hlk.
    split; [by apply (grid_parse_start d ord dur day_start day_end n)|].
    split; [by apply (grid_parse_end d ord dur day_start day_end n)|].
    specialize (Hle i Hi). lia. }
  split; [|split; [|split]].
  - rewrite grid_length. destruct n as [|n].
    + assert ((day_end - day_start) / dur <= 0); [|lia].
      destruct (Z_lt_le_dec (day_end - day_start) 0) as [Hneg|Hpos].
      * pose proof (Z.div_lt_upper_bound (day_end - day_start) dur 0). lia.
      * rewrite Z.div_small; lia.
    + specialize (Hle n ltac:(lia)).
      rewrite Z.max_r by (apply Z.div_pos; lia).
      apply Z.div_unique with (r := day_end - day_start - Z.of_nat (S n) * dur); lia.
  - intros i slot (Hs1 & Hs2 & Hs3)%Hpar. eauto 10.
  - intros i a b (Hi & ->)%Hlk (Hj & ->)%Hlk. cbn [start_time end_time grid_slot].
    f_equal. lia.
  - intros i j a b a_start a_end b_start b_end Hij
      (Ha1 & Ha2 & Ha3)%Hpar (Hb1 & Hb2 & Hb3)%Hpar.
    rewrite Ha1, Ha2, Hb1, Hb2. intros [= <-] [= <-] [= <-] [= <-].
    unfold _overlaps. apply andb_false_iff. rewrite !Z.ltb_ge. nia.
Qed.

Lemma dt_add_Raise t n e : dt_add t n = Raise e → e = OverflowError.
Proof. unfold dt_add. case_match; congruence. Qed.

(** No call of [book_appointment] is cut off by the iteration bound. *)
Lemma book_appointment_fuel data_file req rnd st :
  fst (book_appointment data_file req rnd st) ≠ Raise FuelExhausted.
Proof.
  pose proof (generate_slots_fuel data_file (req_date req)
                (req_appointment_type req) st) as Hfuel.
  unfold book_appointment, bind, try_except_ValueError, lift, getitem, raise.
  case_decide; [done|].
  destruct (_parse_time _ _) as [start_dt|e] eqn:Ep;
    [|by apply parse_time_Raise in Ep as ->].
  destruct (APPOINTMENT_DURATIONS_MIN !! _) as [dur|]; [|done].
  destruct (dt_add start_dt dur) as [end_dt|e] eqn:Ea;
    [|by apply dt_add_Raise in Ea as ->].
  destruct (_generate_slots _ _ _ st) as [[slots|e] st']; cbn [fst] in Hfuel;
    [|cbn [fst]; intros [= ->]; by apply Hfuel].
  destruct (slot_map_of slots !! _) as [slot|]; [|done].
  by destruct (available slot).
Qed.

Section By_value.
Variable data_file : option Schedule.

(** A request whose start is the start of no generated slot, as an instant,
    is outside working hours: for example a start that is not a whole number
    of durations after the opening time. *)
Lemma book_start_off_grid_rejected req rnd st dur start_dt end_dt slots :
  APPOINTMENT_DURATIONS_MIN !! req_appointment_type req = Some dur →
  _parse_time (req_date req) (req_start_time req) = Return start_dt →
  dt_add start_dt dur = Return end_dt →
  fst (_generate_slots data_file (req_date req) (req_appointment_type req) st)
    = Return slots →
  (∀ slot, slot ∈ slots →
           _parse_time (req_date req) (start_time slot) ≠ Return start_dt) →
  book_appointment data_file req rnd st = (Raise outside_working_hours, st).
Proof.
  intros Hdur Hp Ha Hg Hno.
  rewrite (book_appointment_open _ _ _ _ _ _ _ _ Hdur Hp Ha Hg).
  assert (slot_map_of slots !! (req_start_time req, strftime_HM end_dt) = None) as ->;
    [|done].
  apply slot_map_of_None. intros (slot & E & Hin)%list_elem_of_fmap.
  apply (Hno slot Hin). apply (f_equal fst) in E. cbn [fst slot_key] in E.
  by rewrite <- E.
Qed.
End By_value.

(** *** Further facts: weekdays, the bookings of a date, errors, later calls *)

Lemma weekday_name_inj a b :
  0 <= a < 7 → 0 <= b < 7 →
  nth (Z.to_nat a) weekday_names EmptyString = nth (Z.to_nat b) weekday_names EmptyString →
  a = b.
Proof.
  intros Ha Hb.
  assert (a = 0 ∨ a = 1 ∨ a = 2 ∨ a = 3 ∨ a = 4 ∨ a = 5 ∨ a = 6) as Ca by lia.
  assert (b = 0 ∨ b = 1 ∨ b = 2 ∨ b = 3 ∨ b = 4 ∨ b = 5 ∨ b = 6) as Cb by lia.
  repeat destruct Ca as [->|Ca]; try subst a;
    repeat destruct Cb as [->|Cb]; try subst b; vm_compute; congruence.
Qed.

Lemma weekday_name_elem a :
  0 <= a < 7 → nth (Z.to_nat a) weekday_names EmptyString ∈ weekday_names.
Proof.
  intros Ha.
  assert (a = 0 ∨ a = 1 ∨ a = 2 ∨ a = 3 ∨ a = 4 ∨ a = 5 ∨ a = 6) as Ca by lia.
  repeat destruct Ca as [->|Ca]; try subst a;
    apply list_elem_of_In; vm_compute; tauto.
Qed.

Lemma file_entries_loop_filter es d acc :
  file_entries_loop es d acc
  = file_entries_loop (filter (λ e, eb_date e = Some d) es) d acc.
Proof.
  revert acc. induction es as [|e es IH]; intros acc; [done|].
  rewrite filter_cons. cbn [file_entries_loop]. case_decide as He.
  - cbn [file_entries_loop]. rewrite decide_True by done.
    destruct (_parse_time d (eb_start_time e)); [|done].
    destruct (_parse_time d (eb_end_time e)); [|done]. cbn [obind]. apply IH.
  - apply IH.
Qed.

Lemma file_entries_loop_Forall2 es d l :
  file_entries_loop es d [] = Return l
  ↔ Forall2 (entry_interval d) (filter (λ e, eb_date e = Some d) es) l.
Proof.
  revert l. induction es as [|e es IH]; intros l.
  - cbn. split; [intros [= <-]; constructor|by intros ->%Forall2_nil_inv_l].
  - rewrite filter_cons. cbn [file_entries_loop]. case_decide as He; [|apply IH].
    destruct (_parse_time d (eb_start_time e)) as [a|] eqn:Ea; cbn [obind].
    2: { split; [done|].
         intros (iv & l' & [Ha Hb] & _)%Forall2_cons_inv_l. congruence. }
    destruct (_parse_time d (eb_end_time e)) as [b|] eqn:Eb; cbn [obind].
    2: { split; [done|].
         intros (iv & l' & [Ha Hb] & _)%Forall2_cons_inv_l. congruence. }
    rewrite file_entries_loop_acc. split.
    + destruct (file_entries_loop es d []) as [l'|]; [|done].
      cbn [obind]. intros [= <-]. constructor; [done|]. by apply IH.
    + intros (iv & l' & [Ha Hb] & Hl' & ->)%Forall2_cons_inv_l.
      apply IH in Hl'. rewrite Hl'. cbn [obind].
      destruct iv as [a' b']. cbn [fst snd] in Ha, Hb.
      rewrite Ea in Ha. rewrite Eb in Hb. injection Ha as <-. injection Hb as <-.
      done.
Qed.

Lemma runtime_entries_loop_Forall2 es d l :
  runtime_entries_loop es d [] = Return l ↔ Forall2 (pair_interval d) es l.
Proof.
  revert l. induction es as [|[s e] es IH]; intros l.
  - cbn. split; [intros [= <-]; constructor|by intros ->%Forall2_nil_inv_l].
  - cbn [runtime_entries_loop].
    destruct (_parse_time d s) as [a|] eqn:Ea; cbn [obind].
    2: { split; [done|].
         intros (iv & l' & [Ha Hb] & _)%Forall2_cons_inv_l.
         cbn [fst] in Ha. congruence. }
    destruct (_parse_time d e) as [b|] eqn:Eb; cbn [obind].
    2: { split; [done|].
         intros (iv & l' & [Ha Hb] & _)%Forall2_cons_inv_l.
         cbn [snd] in Hb. congruence. }
    rewrite runtime_entries_loop_acc. split.
    + destruct (runtime_entries_loop es d []) as [l'|]; [|done].
      cbn [obind]. intros [= <-]. constructor; [done|]. by apply IH.
    + intros (iv & l' & [Ha Hb] & Hl' & ->)%Forall2_cons_inv_l.
      apply IH in Hl'. rewrite Hl'. cbn [obind].
      destruct iv as [a' b']. cbn [fst snd] in Ha, Hb.
      rewrite Ea in Ha. rewrite Eb in Hb. injection Ha as <-. injection Hb as <-.
      done.
Qed.

(** What the module reads for a date is what is recorded for it. *)
Lemma committed_recorded sched d st l :
  committed sched d st = Return l ↔ recorded sched d st l.
Proof.
  unfold committed, recorded. rewrite collect_existing_bookings_eq. cbn [fst]. split.
  - intros H.
    destruct (file_entries_loop _ d []) as [fl|] eqn:Ef; [|done]. cbn [obind] in H.
    destruct (runtime_entries_loop _ d []) as [rl|] eqn:Er; [|done].
    cbn [obind] in H. injection H as <-. exists fl, rl.
    split; [done|]. split; [by apply file_entries_loop_Forall2|].
    by apply runtime_entries_loop_Forall2.
  - intros (fl & rl & -> & Hf%file_entries_loop_Forall2
                         & Hr%runtime_entries_loop_Forall2).
    by rewrite Hf, Hr.
Qed.

Lemma consistent_free_of_overlap sched d st :
  consistent sched d st ↔ free_of_overlap sched d st.
Proof.
  unfold consistent, free_of_overlap.
  split; intros (l & Hl & Hno); exists l; split; try done; by apply committed_recorded.
Qed.

Lemma file_entries_loop_malformed es d acc entry :
  entry ∈ es → eb_date entry = Some d →
  (∀ t, _parse_time d (eb_start_time entry) ≠ Return t)
  ∨ (∀ t, _parse_time d (eb_end_time entry) ≠ Return t) →
  file_entries_loop es d acc = Raise ValueError.
Proof.
  intros Hin Hd Hbad. revert acc.
  induction es as [|e es IH]; intros acc; [by apply elem_of_nil in Hin|].
  cbn [file_entries_loop]. apply elem_of_cons in Hin as [<-|Hin].
  - rewrite decide_True by done.
    destruct (_parse_time d (eb_start_time entry)) as [a|e1] eqn:Ea;
      [|by apply parse_time_Raise in Ea as ->].
    destruct (_parse_time d (eb_end_time entry)) as [b|e1] eqn:Eb;
      [|by apply parse_time_Raise in Eb as ->].
    destruct Hbad as [Hbad|Hbad]; by edestruct Hbad.
  - case_decide; [|by apply IH].
    destruct (_parse_time d (eb_start_time e)) as [a|e1] eqn:Ea;
      [|by apply parse_time_Raise in Ea as ->].
    destruct (_parse_time d (eb_end_time e)) as [b|e1] eqn:Eb;
      [|by apply parse_time_Raise in Eb as ->].
    cbn [obind]. by apply IH.
Qed.

Lemma slots_loop_Raise fuel ex dur de c e :
  slots_loop fuel ex dur de c = Raise e → e = OverflowError ∨ e = FuelExhausted.
Proof.
  revert c. induction fuel as [|fuel IH]; intros c; cbn [slots_loop].
  - intros [= <-]. by right.
  - destruct (dt_add c dur) as [b|e1] eqn:Eb; cbn [obind].
    + destruct (b <=? de); [|done].
      destruct (slots_loop fuel ex dur de b) as [s|e1] eqn:Es; [done|].
      cbn [obind]. intros [= <-]. by eapply IH.
    + intros [= <-]. left. by eapply dt_add_Raise.
Qed.

Lemma slots_loop_more_fuel fuel fuel' ex dur de c :
  0 < dur → (Z.to_nat (de - c) < fuel)%nat → (fuel <= fuel')%nat →
  slots_loop fuel' ex dur de c = slots_loop fuel ex dur de c.
Proof.
  intros Hdur. revert fuel' c.
  induction fuel as [|fuel IH]; intros fuel' c Hf Hle; [lia|].
  destruct fuel' as [|fuel']; [lia|]. cbn [slots_loop].
  destruct (dt_add c dur) as [b|e1] eqn:Eb; [|done]. cbn [obind].
  destruct (dt_add_Return _ _ _ Eb) as [-> _].
  destruct (c + dur <=? de) eqn:Ele; [|done]. apply Z.leb_le in Ele.
  rewrite (IH fuel' (c + dur)) by lia. done.
Qed.

Section Errors.
Variable data_file : option Schedule.

Lemma generate_slots_Raise d ty st e :
  fst (_generate_slots data_file d ty st) = Raise e →
  (data_file = None ∧ e = HTTPException 500 "Schedule data not found")
  ∨ ∃ sched, data_file = Some sched ∧
      ((e = ValueError ∧ strptime_Ymd d = Raise ValueError)
       ∨ ∃ wd hours,
           _get_weekday d = Return wd ∧ working_hours sched !! wd = Some hours ∧
           ((e = KeyError ∧ APPOINTMENT_DURATIONS_MIN !! ty = None)
            ∨ (e = ValueError
               ∧ is_Some (APPOINTMENT_DURATIONS_MIN !! ty)
               ∧ (_parse_time d (wh_start hours) = Raise ValueError
                  ∨ _parse_time d (wh_end hours) = Raise ValueError
                  ∨ fst (_collect_existing_bookings sched d st) = Raise ValueError))
            ∨ (e = OverflowError
               ∧ is_Some (APPOINTMENT_DURATIONS_MIN !! ty)
               ∧ strptime_Ymd d = Return 3652059))).
Proof.
  unfold _generate_slots at 1. unfold bind, lift, ret, _load_schedule.
  destruct data_file as [sched|]; [|intros [= <-]; by left].
  intros H. right. exists sched. split; [done|].
  unfold _get_weekday in *. destruct (strptime_Ymd d) as [ord|e1] eqn:Hd.
  2: { left. apply strptime_Ymd_Raise in Hd as Hd'. subst e1.
       cbn in H. by injection H as <-. }
  cbn [obind] in H |- *. right.
  destruct (working_hours sched !! _) as [hours|] eqn:Hh; [|done].
  eexists _, hours. split; [reflexivity|]. split; [exact Hh|].
  unfold getitem in H.
  destruct (APPOINTMENT_DURATIONS_MIN !! ty) as [dur|] eqn:Hdur;
    [|left; by injection H as <-].
  right.
  destruct (_parse_time d (wh_start hours)) as [ds|e1] eqn:Hs.
  2: { left. apply parse_time_Raise in Hs as Hs'. subst e1.
       cbn in H. injection H as <-. eauto. }
  destruct (_parse_time d (wh_end hours)) as [de|e1] eqn:He.
  2: { left. apply parse_time_Raise in He as He'. subst e1.
       cbn in H. injection H as <-. eauto 6. }
  destruct (_collect_existing_bookings sched d st) as [[ex|e1] st1] eqn:Hc.
  2: { left. pose proof (collect_existing_bookings_Raise sched d st e1) as He1.
       rewrite Hc in He1. specialize (He1 eq_refl). subst e1.
       cbn in H. injection H as <-. cbn [fst]. eauto 6. }
  cbn [fst] in H. right.
  pose proof (slots_loop_fuel (slots_fuel ds de) ex dur de ds) as Hfuel.
  destruct (durations_range _ _ Hdur) as [Hpos Hle].
  apply slots_loop_Raise in H as Hcause.
  destruct Hcause as [-> | ->]; [|exfalso; apply Hfuel; [done|unfold slots_fuel; lia|done]].
  split; [done|]. split; [done|]. f_equal.
  pose proof (strptime_Ymd_range _ _ Hd) as Hord.
  destruct (decide (ord = 3652059)) as [|Hne]; [done|]. exfalso.
  pose proof (parse_time_on_day _ _ _ _ Hd Hs) as Hds.
  pose proof (parse_time_on_day _ _ _ _ Hd He) as Hde.
  destruct (slots_loop_returns (slots_fuel ds de) ex dur de ds) as [slots Hret];
    [done|unfold dt_min; lia|unfold dt_max; lia|unfold dt_max; lia
    |unfold slots_fuel; lia|].
  congruence.
Qed.
End Errors.

Section After.
Variable data_file : option Schedule.

Lemma generate_slots_same_list d ty st st' :
  st !! d = st' !! d →
  fst (_generate_slots data_file d ty st) = fst (_generate_slots data_file d ty st').
Proof.
  intros Hs. unfold _generate_slots, bind, lift, ret.
  destruct (_load_schedule data_file) as [sched|]; [|done].
  destruct (_get_weekday d) as [wd|]; [|done].
  destruct (working_hours sched !! wd) as [hours|]; [|done].
  destruct (getitem _ _); [|done].
  destruct (_parse_time d (wh_start hours)); [|done].
  destruct (_parse_time d (wh_end hours)); [|done].
  rewrite !collect_existing_bookings_eq, Hs. by case_match.
Qed.

Lemma generate_after_commit_parsed d ty st slots k cs ce :
  fst (_generate_slots data_file d ty st) = Return slots →
  _parse_time d (fst k) = Return cs → _parse_time d (snd k) = Return ce →
  fst (_generate_slots data_file d ty (commit st d k))
  = Return (block d cs ce <$> slots).
Proof.
  intros Hg Hks Hke.
  destruct (_generate_slots data_file _ _ st) as [o st'] eqn:E.
  cbn [fst] in Hg. subst o.
  apply generate_slots_Return in E as (-> & sched & ord & -> & Hd & H).
  destruct (working_hours sched !! _) as [hours|] eqn:Hh.
  2: { subst slots. unfold _generate_slots, bind, lift, ret, _load_schedule,
         _get_weekday. rewrite Hd. cbn [obind]. by rewrite Hh. }
  destruct H as (dur & ds & de & ex & n & Hdur & Hs & He & Hex & -> & Hall & Hle & Hadd & _).
  destruct (durations_range _ _ Hdur) as [Hpos _].
  pose proof (parse_time_on_day _ _ _ _ Hd Hs) as Hds.
  pose proof (parse_time_on_day _ _ _ _ Hd He) as Hde.
  rewrite (generate_slots_open (Some sched) sched _ _ _ ord hours dur ds de
             eq_refl Hd Hh Hdur Hs He).
  cbn [fst]. fold (committed sched d (commit st d k)).
  rewrite (committed_commit_same sched d st k cs ce ex Hex Hks Hke).
  cbn [obind]. rewrite Hall. f_equal. unfold grid.
  rewrite <- list_fmap_compose. apply list_fmap_ext.
  intros j ? [-> Hj]%lookup_seq. cbn [Nat.add compose].
  unfold block.
  rewrite (grid_parse_start d ord dur ds de n) by done.
  rewrite (grid_parse_end d ord dur ds de n) by done.
  unfold grid_slot. cbn [start_time end_time available]. f_equal.
  unfold has_conflict. rewrite existsb_app. cbn [existsb fst snd].
  by rewrite orb_false_r, negb_orb.
Qed.
End After.

Section Booked.
Variable data_file : option Schedule.

(** What a successful call has found and done *)
Lemma book_Return_window req rnd st resp st' :
  book_appointment data_file req rnd st = (Return resp, st') →
  ∃ sched ord wd hours dur ds de ex n i,
    data_file = Some sched
    ∧ strptime_Ymd (req_date req) = Return ord
    ∧ _get_weekday (req_date req) = Return wd
    ∧ working_hours sched !! wd = Some hours
    ∧ APPOINTMENT_DURATIONS_MIN !! req_appointment_type req = Some dur
    ∧ _parse_time (req_date req) (wh_start hours) = Return ds
    ∧ _parse_time (req_date req) (wh_end hours) = Return de
    ∧ committed sched (req_date req) st = Return ex
    ∧ (i < n)%nat
    ∧ (∀ j, (j < n)%nat → ds + (Z.of_nat j + 1) * dur <= de)
    ∧ req_start_time req = _format_time (ds + Z.of_nat i * dur)
    ∧ has_conflict ex (ds + Z.of_nat i * dur) (ds + Z.of_nat i * dur + dur) = false
    ∧ resp = confirmation req rnd (_format_time (ds + Z.of_nat i * dur + dur))
    ∧ st' = commit st (req_date req)
              (_format_time (ds + Z.of_nat i * dur),
               _format_time (ds + Z.of_nat i * dur + dur)).
Proof.
  intros E.
  apply book_appointment_Return in E
    as (dur & start_dt & end_dt & slots & slot & Hdur & Hp & Ha & Hg & Hm & Hav & -> & ->).
  apply slot_map_of_Some in Hm as [Hin Hkey].
  destruct (_generate_slots data_file _ _ st) as [o st'] eqn:E.
  cbn [fst] in Hg. subst o.
  apply generate_slots_Return in E as (-> & sched & ord & -> & Hd & H).
  destruct (working_hours sched !! _) as [hours|] eqn:Hh;
    [|subst slots; by apply elem_of_nil in Hin].
  destruct H as (dur' & ds & de & ex & n & Hdur' & Hs & He & Hex & -> & Hall & Hle & Hadd & _).
  rewrite Hdur in Hdur'. injection Hdur' as <-.
  apply elem_of_grid in Hin as (i & Hi & ->).
  unfold slot_key in Hkey. cbn [start_time end_time grid_slot] in Hkey.
  pose proof (f_equal fst Hkey) as Hk1. pose proof (f_equal snd Hkey) as Hk2.
  cbn [fst snd] in Hk1, Hk2. clear Hkey.
  exists sched, ord, (nth (Z.to_nat (weekday_of_ord ord)) weekday_names EmptyString),
    hours, dur, ds, de, ex, n, i.
  split; [done|]. split; [done|].
  split; [by unfold _get_weekday; rewrite Hd|].
  split; [done|]. split; [done|]. split; [done|]. split; [done|].
  split; [done|]. split; [done|]. split; [done|]. split; [done|].
  split.
  { cbn [available grid_slot] in Hav. by apply negb_true_iff in Hav. }
  rewrite <- Hk1, <- Hk2. done.
Qed.
End Booked.

Section After_book.
Variable data_file : option Schedule.

(** A call leaves the lists of the other dates alone. *)
Lemma book_other_date req rnd st d :
  req_date req ≠ d →
  snd (book_appointment data_file req rnd st) !! d = st !! d.
Proof.
  intros Hne.
  destruct (book_appointment data_file req rnd st) as [[resp|e] st'] eqn:E; cbn [snd].
  - apply book_appointment_Return in E as (? & ? & ? & ? & ? & _ & _ & _ & _ & _ & _ & _ & ->).
    by apply commit_lookup_other.
  - by apply book_appointment_Raise in E as ->.
Qed.

(** The slots of a date after one more call, for any appointment type *)
Lemma generate_after_book req rnd st d ty slots :
  fst (_generate_slots data_file d ty st) = Return slots →
  ∃ slots',
    fst (_generate_slots data_file d ty (snd (book_appointment data_file req rnd st)))
    = Return slots'
    ∧ Forall2 (λ s s', slot_key s' = slot_key s
                       ∧ (available s' = true → available s = true)) slots slots'.
Proof.
  intros Hg.
  assert (Forall2 (λ s s' : Slot, slot_key s' = slot_key s
                     ∧ (available s' = true → available s = true)) slots slots) as Hrefl.
  { apply Forall2_same_length_lookup. split; [done|].
    intros i s s' H1 H2. rewrite H1 in H2. by injection H2 as <-. }
  destruct (decide (req_date req = d)) as [<-|Hne].
  2: { exists slots. split; [|done]. rewrite <- Hg.
       apply generate_slots_same_list. by apply book_other_date. }
  destruct (book_appointment data_file req rnd st) as [[resp|e] st'] eqn:E; cbn [snd].
  2: { apply book_appointment_Raise in E as ->. by exists slots. }
  apply book_Return_window in E
    as (sched & ord & wd & hours & dur & ds & de & ex & n & i & Hf & Hd & Hwd
        & Hh & Hdur & Hs & He & Hex & Hi & Hle & Hst & Hfree & -> & ->).
  destruct (durations_range _ _ Hdur) as [Hpos _].
  pose proof (parse_time_on_day _ _ _ _ Hd Hs) as Hds.
  pose proof (parse_time_on_day _ _ _ _ Hd He) as Hde.
  eexists. split.
  - apply (generate_after_commit_parsed data_file _ _ _ _ _
             (ds + Z.of_nat i * dur) (ds + Z.of_nat i * dur + dur) Hg).
    + by apply (grid_parse_start (req_date req) ord dur ds de n Hd Hpos Hds Hde Hle ex).
    + by apply (grid_parse_end (req_date req) ord dur ds de n Hd Hpos Hds Hde Hle ex).
  - apply Forall2_fmap_r, Forall2_same_length_lookup. split; [done|].
    intros j s s' H1 H2. rewrite H1 in H2. injection H2 as <-.
    split; [done|]. cbn [available block]. by intros [? _]%andb_true_iff.
Qed.
End After_book.

Section Queries.
Variable data_file : option Schedule.

Lemma get_availability_same_list d ty st st' :
  st !! d = st' !! d →
  fst (get_availability data_file d ty st) = fst (get_availability data_file d ty st').
Proof.
  intros Hs. unfold get_availability. case_decide; [done|].
  unfold bind, try_except_ValueError, lift.
  destruct (strptime_Ymd d) as [ord|[]]; cbn [obind]; try done.
  by apply generate_slots_same_list.
Qed.

Lemma get_availability_Return d ty st slots :
  fst (get_availability data_file d ty st) = Return slots →
  fst (_generate_slots data_file d ty st) = Return slots.
Proof.
  unfold get_availability. case_decide; [done|].
  unfold bind, try_except_ValueError, lift.
  destruct (strptime_Ymd d) as [ord|[]]; cbn [obind]; done.
Qed.
End Queries.

Section Over_runs.
Variable data_file : option Schedule.

Lemma book_entry_ok req rnd st :
  (∀ d p, p ∈ default [] (st !! d) → entry_ok d p) →
  ∀ d p, p ∈ default [] (snd (book_appointment data_file req rnd st) !! d) →
         entry_ok d p.
Proof.
  intros Hst d p.
  destruct (book_appointment data_file req rnd st) as [[resp|e] st'] eqn:E; cbn [snd].
  2: { apply book_appointment_Raise in E as ->. apply Hst. }
  apply book_Return_window in E
    as (sched & ord & wd & hours & dur & ds & de & ex & n & i & Hf & Hd & Hwd
        & Hh & Hdur & Hs & He & Hex & Hi & Hle & Hreq & Hfree & -> & ->).
  destruct (decide (d = req_date req)) as [->|Hne].
  2: { rewrite commit_lookup_other by done. apply Hst. }
  rewrite commit_lookup_same. intros [Hp|Hp%list_elem_of_singleton]%elem_of_app;
    [by apply Hst|]. subst p.
  destruct (durations_range _ _ Hdur) as [Hpos _].
  pose proof (parse_time_on_day _ _ _ _ Hd Hs) as Hds.
  pose proof (parse_time_on_day _ _ _ _ Hd He) as Hde.
  pose proof (grid_parse_start (req_date req) ord dur ds de n Hd Hpos Hds Hde Hle ex i Hi)
    as Hps.
  pose proof (grid_parse_end (req_date req) ord dur ds de n Hd Hpos Hds Hde Hle ex i Hi)
    as Hpe.
  cbn [start_time end_time grid_slot] in Hps, Hpe.
  exists ord, (ds + Z.of_nat i * dur), (ds + Z.of_nat i * dur + dur).
  cbn [fst snd]. specialize (Hle i Hi).
  repeat split; try done; lia.
Qed.

Lemma book_all_entry_ok calls st :
  (∀ d p, p ∈ default [] (st !! d) → entry_ok d p) →
  ∀ d p, p ∈ default [] (snd (book_all data_file calls st) !! d) → entry_ok d p.
Proof.
  revert st. induction calls as [|[req rnd] calls IH]; intros st Hst; [done|].
  cbn [book_all fst snd]. apply IH. by apply book_entry_ok.
Qed.

Lemma book_all_never_released calls st d ty slots :
  fst (_generate_slots data_file d ty st) = Return slots →
  ∃ slots',
    fst (_generate_slots data_file d ty (snd (book_all data_file calls st)))
    = Return slots'
    ∧ Forall2 (λ s s', slot_key s' = slot_key s
                       ∧ (available s' = true → available s = true)) slots slots'.
Proof.
  revert st slots. induction calls as [|[req rnd] calls IH]; intros st slots Hg.
  { exists slots. split; [done|].
    apply Forall2_same_length_lookup. split; [done|].
    intros i s s' H1 H2. rewrite H1 in H2. by injection H2 as <-. }
  cbn [book_all fst snd].
  destruct (generate_after_book data_file req rnd st d ty slots Hg) as (s1 & Hg1 & H1).
  destruct (IH _ _ Hg1) as (s2 & Hg2 & H2).
  exists s2. split; [done|].
  eapply Forall2_trans; [|exact H1|exact H2].
  intros x y z [Hk1 Ha1] [Hk2 Ha2]. split; [congruence|tauto].
Qed.
End Over_runs.

Section Never.
Variable data_file : option Schedule.

Lemma book_appointment_not_KeyError req rnd st :
  fst (book_appointment data_file req rnd st) ≠ Raise KeyError.
Proof.
  pose proof (generate_slots_Raise data_file (req_date req)
                (req_appointment_type req) st KeyError) as Hgen.
  unfold book_appointment, bind, try_except_ValueError, lift, getitem, raise.
  case_decide as Hty; [done|].
  destruct (_parse_time _ _) as [start_dt|e] eqn:Ep;
    [|by apply parse_time_Raise in Ep as ->].
  destruct (APPOINTMENT_DURATIONS_MIN !! _) as [dur|] eqn:Hdur; [|done].
  destruct (dt_add start_dt dur) as [end_dt|e] eqn:Ea;
    [|by apply dt_add_Raise in Ea as ->].
  destruct (_generate_slots _ _ _ st) as [[slots|e] st'] eqn:Eg; cbn [fst] in Hgen.
  - destruct (slot_map_of slots !! _) as [slot|]; [|done].
    by destruct (available slot).
  - cbn [fst]. intros [= ->].
    destruct (Hgen eq_refl) as [[_ ?]|(sched & _ & [[? _]|(wd & hours & _ & _ & H)])];
      try done.
    destruct H as [[_ H]|[[? _]|[? _]]]; congruence.
Qed.

Lemma get_availability_not_KeyError d ty st :
  fst (get_availability data_file d ty st) ≠ Raise KeyError.
Proof.
  pose proof (generate_slots_Raise data_file d ty st KeyError) as Hgen.
  unfold get_availability. case_decide as Hty; [done|].
  unfold bind, try_except_ValueError, lift.
  destruct (strptime_Ymd d) as [ord|e] eqn:Ed; cbn [obind];
    [|by apply strptime_Ymd_Raise in Ed as ->].
  intros Hk.
  destruct (Hgen Hk) as [[_ ?]|(sched & _ & [[? _]|(wd & hours & _ & _ & H)])];
    try done.
  destruct H as [[_ H]|[[? _]|[? _]]]; congruence.
Qed.
End Never.

Lemma re_YmdHM_range s v h m r :
  In (v, (h, m), r) (re_YmdHM s) → 0 <= h <= 23 ∧ 0 <= m <= 59.
Proof.
  unfold re_YmdHM. unfold m_bind at 1 2 3. unfold m_ret. rewrite in_flat_map.
  intros ([ym r1] & _ & H). cbn [fst snd] in H.
  apply in_flat_map in H as ([d r2] & _ & H). cbn [fst snd] in H.
  apply in_flat_map in H as ([[h' m'] r3] & Hhm & H). cbn [fst snd] in H.
  destruct H as [[= _ <- <- _]|[]]. by apply re_HM_range in Hhm.
Qed.

(** Whatever [_parse_time] returns is a [datetime] of the years 1..9999. *)
Lemma parse_time_range d s t : _parse_time d s = Return t → dt_min <= t <= dt_max.
Proof.
  unfold _parse_time, strptime_YmdHM.
  destruct (re_YmdHM _) as [|[[[[y m] dd] [hh mm]] [|? ?]] l] eqn:E; try done.
  destruct (valid_date y m dd) eqn:Hv; [|done]. intros [= <-].
  apply valid_date_ord in Hv.
  destruct (re_YmdHM_range (d +:+ " " +:+ s) (y, m, dd) hh mm EmptyString) as [? ?].
  { rewrite E. by left. }
  unfold mk_datetime, dt_min, dt_max. lia.
Qed.

Section Causes.
Variable data_file : option Schedule.

(** The errors of [_generate_slots] on a date that parses *)
Lemma generate_slots_Raise_valid d ty st e ord :
  strptime_Ymd d = Return ord →
  is_Some (APPOINTMENT_DURATIONS_MIN !! ty) →
  fst (_generate_slots data_file d ty st) = Raise e →
  (e = HTTPException 500 "Schedule data not found" ∧ data_file = None)
  ∨ ∃ sched wd hours,
      data_file = Some sched ∧ _get_weekday d = Return wd
      ∧ working_hours sched !! wd = Some hours
      ∧ ((e = ValueError
          ∧ (_parse_time d (wh_start hours) = Raise ValueError
             ∨ _parse_time d (wh_end hours) = Raise ValueError
             ∨ fst (_collect_existing_bookings sched d st) = Raise ValueError))
         ∨ (e = OverflowError ∧ ord = 3652059)).
Proof.
  intros Hd [dur Hdur] H.
  destruct (generate_slots_Raise data_file d ty st e H)
    as [[-> ->]|(sched & -> & [[_ Hbad]|(wd & hours & Hwd & Hh & Hc)])];
    [by left|congruence|].
  right. exists sched, wd, hours. split; [done|]. split; [done|]. split; [done|].
  destruct Hc as [[_ Hc]|[(-> & _ & Hc)|(-> & _ & Hc)]]; [congruence|by left|].
  right. split; [done|]. congruence.
Qed.

End Causes.

Lemma upper_char_hex c : is_hex_lower c = true → is_hex_upper (upper_char c) = true.
Proof. destruct c as [[] [] [] [] [] [] [] []]; vm_compute; done. Qed.

Lemma upper_prefix_hex (n : nat) (pat : list bool) (s : string) :
  matches_pattern (replicate n false ++ pat) s = true →
  String.length (upper (prefix n s)) = n
  ∧ all_hex_upper (upper (prefix n s)) = true.
Proof.
  unfold prefix. revert s. induction n as [|n IH]; intros s H.
  - by destruct s.
  - destruct s as [|c r]; [done|]. cbn in H.
    apply andb_true_iff in H as [Hc Hr]. destruct (IH r Hr) as [IH1 IH2].
    cbn [substring upper String.length all_hex_upper].
    rewrite IH1, IH2, (upper_char_hex c Hc). done.
Qed.

Section Frame.
Variable data_file : option Schedule.

(** The outcome of a call depends on the store through the list of its own
    date text only. *)
Lemma book_appointment_same_list req rnd st st' :
  st !! req_date req = st' !! req_date req →
  fst (book_appointment data_file req rnd st)
  = fst (book_appointment data_file req rnd st').
Proof.
  intros Hs.
  pose proof (generate_slots_same_list data_file (req_date req)
                (req_appointment_type req) st st' Hs) as Hg.
  unfold book_appointment, bind, try_except_ValueError, lift, getitem, raise.
  case_decide; [done|].
  destruct (_parse_time _ _) as [start_dt|[]]; try done.
  destruct (APPOINTMENT_DURATIONS_MIN !! _) as [dur|]; [|done].
  destruct (dt_add start_dt dur) as [end_dt|]; [|done].
  destruct (_generate_slots _ _ _ st) as [[slots|e] s1],
           (_generate_slots _ _ _ st') as [[slots'|e'] s1'];
    cbn [fst] in Hg; try done; [|cbn [fst]; congruence].
  injection Hg as <-.
  destruct (slot_map_of slots !! _) as [slot|]; [|done].
  by destruct (available slot).
Qed.
End Frame.

End ModuleFacts.

(** ** The properties *)

Import PyDatetime PyDatetimeFacts ModuleFacts.

(** The example of the specification: Monday 09:00-10:00, 30 minutes,
    nothing booked. *)
Example monday_two_slots :
  _generate_slots (Some monday_schedule) "2024-01-15" "consultation" ∅
  = (Return [ {| start_time := "09:00"; end_time := "09:30"; available := true |};
              {| start_time := "09:30"; end_time := "10:00"; available := true |} ],
     ∅).
Proof. vm_compute. reflexivity. Qed.

Example monday_book_then_query :
  let r := book_appointment (Some monday_schedule) (consultation_at "09:00") rnd1 ∅ in
  fst r = Return (confirmation (consultation_at "09:00") rnd1 "09:30")
  ∧ fst (_generate_slots (Some monday_schedule) "2024-01-15" "consultation" (snd r))
    = Return [ {| start_time := "09:00"; end_time := "09:30"; available := false |};
               {| start_time := "09:30"; end_time := "10:00"; available := true |} ]
  ∧ fst (book_appointment (Some monday_schedule) (consultation_at "09:00") rnd2 (snd r))
    = Raise slot_conflict.
Proof. repeat split; vm_compute; reflexivity. Qed.

(** Claim C8.  On a date whose weekday has no entry in the working hours,
    [_generate_slots] returns the empty list, not an error, whatever the
    appointment type and whatever is booked in the file or in the store; the
    store is left as it was. *)
Theorem closed_day_no_slots (sched : Schedule) (d ty : string) (st : Store) (wd : string) :
  _get_weekday d = Return wd →
  working_hours sched !! wd = None →
  _generate_slots (Some sched) d ty st = (Return [], st).
Proof.
  intros Hwd Hh. unfold _generate_slots, bind, lift, ret, _load_schedule.
  rewrite Hwd, Hh. done.
Qed.

Lemma closed_day_no_slots_witness :
  _generate_slots (Some overlapping_schedule) "2024-01-16" "consultation"
     (commit ∅ "2024-01-16" ("09:00", "09:30"))
  = (Return [], commit ∅ "2024-01-16" ("09:00", "09:30")).
Proof.
  apply (closed_day_no_slots _ _ _ _ "tuesday"); vm_compute; reflexivity.
Defined.

(** Claim C7.  Slot generation and the availability query never write to
    the runtime booking store, so a second query with the same inputs, made
    right after the first, gives the same outcome: the same slots in the same
    order with the same flags. *)
Theorem availability_reads_only (data_file : option Schedule) (d ty : string) (st : Store) :
  snd (_generate_slots data_file d ty st) = st
  ∧ snd (get_availability data_file d ty st) = st
  ∧ get_availability data_file d ty (snd (get_availability data_file d ty st))
    = get_availability data_file d ty st.
Proof.
  assert (snd (get_availability data_file d ty st) = st) as H.
  { unfold get_availability. case_decide; [done|].
    unfold bind at 1. unfold try_except_ValueError, lift.
    destruct (strptime_Ymd d) as [ord|[]]; cbn [obind]; try done.
    apply generate_slots_store. }
  split; [apply generate_slots_store|]. split; [done|]. by rewrite H.
Qed.

(** Claim C6.  Whatever [book_appointment] raises (unknown appointment type,
    malformed date or time, outside working hours, conflict, or an uncaught
    exception), the store is the one it started with.  When it returns, the
    store differs by exactly one append: the pair of the requested start time
    and the formatted end time, at the end of the list of the requested date;
    the response carries the same pair. *)
Theorem book_all_or_nothing (data_file : option Schedule) (req : BookingRequest)
    (rnd : Entropy) (st : Store) :
  match book_appointment data_file req rnd st with
  | (Raise e, st') => st' = st
  | (Return resp, st') =>
      ∃ dur start_dt,
        APPOINTMENT_DURATIONS_MIN !! req_appointment_type req = Some dur
        ∧ _parse_time (req_date req) (req_start_time req) = Return start_dt
        ∧ st' = <[req_date req :=
                    default [] (st !! req_date req)
                    ++ [(req_start_time req, _format_time (start_dt + dur))]]> st
        ∧ resp = confirmation req rnd (_format_time (start_dt + dur))
  end.
Proof.
  destruct (book_appointment data_file req rnd st) as [[resp|e] st'] eqn:E.
  - apply book_appointment_Return in E
      as (dur & start_dt & end_dt & slots & slot & Hdur & Hp & Ha & _ & _ & _ & -> & ->).
    exists dur, start_dt. apply dt_add_Return in Ha as [-> _]. done.
  - by eapply book_appointment_Raise.
Qed.

(** Claim C5.  For a request with a known appointment type and a date and
    time that parse, if the pair of its start time and formatted end time is
    the key of no slot generated for its date and type (the start is off the
    grid, or the day is closed and no slot is generated), [book_appointment]
    raises the 400 error "Requested time is outside working hours", which
    differs from the 409 conflict error, and leaves the store as it was. *)
Theorem book_off_grid (data_file : option Schedule) (req : BookingRequest)
    (rnd : Entropy) (st : Store) (dur : Z) (start_dt end_dt : datetime)
    (slots : list Slot) :
  APPOINTMENT_DURATIONS_MIN !! req_appointment_type req = Some dur →
  _parse_time (req_date req) (req_start_time req) = Return start_dt →
  dt_add start_dt dur = Return end_dt →
  fst (_generate_slots data_file (req_date req) (req_appointment_type req) st)
    = Return slots →
  (∀ slot, slot ∈ slots →
           (start_time slot, end_time slot) ≠ (req_start_time req, _format_time end_dt)) →
  book_appointment data_file req rnd st
  = (Raise (HTTPException 400 "Requested time is outside working hours"), st)
  ∧ HTTPException 400 "Requested time is outside working hours"
    ≠ HTTPException 409 "Requested time is no longer available".
Proof.
  intros Hdur Hp Ha Hg Hno. split; [|done].
  rewrite (book_appointment_open _ _ _ _ _ _ _ _ Hdur Hp Ha Hg).
  assert (slot_map_of slots !! (req_start_time req, strftime_HM end_dt) = None) as ->; [|done].
  apply slot_map_of_None. intros (slot & E & Hin)%list_elem_of_fmap.
  by apply (Hno slot Hin).
Qed.

Lemma book_off_grid_witness :
  book_appointment (Some monday_schedule) (consultation_at "09:10") rnd1 ∅
  = (Raise (HTTPException 400 "Requested time is outside working hours"), ∅)
  ∧ HTTPException 400 "Requested time is outside working hours"
    ≠ HTTPException 409 "Requested time is no longer available".
Proof.
  apply (book_off_grid (Some monday_schedule) (consultation_at "09:10") rnd1 ∅
           30 1064016550 1064016580
           [ {| start_time := "09:00"; end_time := "09:30"; available := true |};
             {| start_time := "09:30"; end_time := "10:00"; available := true |} ]).
  - vm_compute; reflexivity.
  - vm_compute; reflexivity.
  - vm_compute; reflexivity.
  - vm_compute; reflexivity.
  - intros slot Hin. apply list_elem_of_In in Hin.
    destruct Hin as [<-|[<-|[]]]; vm_compute; discriminate.
Defined.

(** Claim C2, as amended.  A date is the text [d] under which bookings are
    recorded.  Every slot that [_generate_slots] returns for [d] has start and
    end texts that parse back to the candidate interval; every record of [d],
    in the schedule file and in the runtime store, is an interval; and the
    slot's [available] flag is false exactly when one of these intervals
    overlaps the candidate.  [_overlaps] holds exactly when each interval
    starts before the other ends, so touching intervals do not overlap. *)
Theorem slot_available_iff_free (sched : Schedule) (d ty : string) (st : Store)
    (slots : list Slot) (slot : Slot) :
  fst (_generate_slots (Some sched) d ty st) = Return slots →
  slot ∈ slots →
  ∃ cs ce l,
    _parse_time d (start_time slot) = Return cs
    ∧ _parse_time d (end_time slot) = Return ce
    ∧ recorded sched d st l
    ∧ (available slot = false
       ↔ ∃ b, b ∈ l ∧ _overlaps cs ce (fst b) (snd b) = true)
    ∧ (∀ b, _overlaps cs ce (fst b) (snd b) = true ↔ cs < snd b ∧ fst b < ce).
Proof.
  intros Hg Hin.
  destruct (_generate_slots (Some sched) d ty st) as [o st'] eqn:E.
  cbn [fst] in Hg. subst o.
  apply generate_slots_Return in E as (-> & sched' & ord & [= <-] & Hd & H).
  destruct (working_hours sched !! _) as [hours|];
    [|subst slots; by apply elem_of_nil in Hin].
  destruct H as (dur & ds & de & ex & n & Hdur & Hs & He & Hex & -> & _ & Hle & _ & _).
  apply elem_of_grid in Hin as (i & Hi & ->).
  apply durations_range in Hdur as [Hdur _].
  pose proof (parse_time_on_day _ _ _ _ Hd Hs) as Hds.
  pose proof (parse_time_on_day _ _ _ _ Hd He) as Hde.
  exists (ds + Z.of_nat i * dur), (ds + Z.of_nat i * dur + dur), ex.
  split; [by apply (grid_parse_start d ord dur ds de n)|].
  split; [by apply (grid_parse_end d ord dur ds de n)|].
  split; [by apply committed_recorded|].
  split; [|intros b; apply overlaps_spec].
  cbn [available grid_slot]. rewrite negb_false_iff.
  unfold has_conflict. rewrite existsb_exists.
  by setoid_rewrite list_elem_of_In.
Qed.

Lemma slot_available_iff_free_witness :
  ∃ cs ce l,
    _parse_time "2024-01-15" "10:15" = Return cs
    ∧ _parse_time "2024-01-15" "10:30" = Return ce
    ∧ recorded busy_schedule "2024-01-15"
        (commit ∅ "2024-01-15" ("09:00", "09:30")) l
    ∧ (false = false
       ↔ ∃ b, b ∈ l ∧ _overlaps cs ce (fst b) (snd b) = true)
    ∧ (∀ b, _overlaps cs ce (fst b) (snd b) = true ↔ cs < snd b ∧ fst b < ce).
Proof.
  apply (slot_available_iff_free busy_schedule "2024-01-15" "followup"
           (commit ∅ "2024-01-15" ("09:00", "09:30"))
           (grid [(1064016600, 1064016630); (1064016540, 1064016570)] 15 1064016540 32)
           {| start_time := "10:15"; end_time := "10:30"; available := false |}).
  - vm_compute; reflexivity.
  - apply list_elem_of_In. vm_compute. do 5 right. left. reflexivity.
Defined.

(** Claim C2 as stated, with the date as a day, fails.  A booking made under
    the text 2024-1-15 is a runtime booking of the day 2024-01-15; it overlaps
    the slot at 09:00, which slot generation for the text 2024-01-15 lists as
    available all the same. *)
Lemma other_text_hides_booking :
  let request := {| req_appointment_type := "consultation";
                    req_date := "2024-1-15";
                    req_start_time := "09:00";
                    req_patient := john;
                    req_reason := None |} in
  let r := book_appointment (Some monday_schedule) request rnd1 ∅ in
  fst r = Return (confirmation request rnd1 "09:30")
  ∧ strptime_Ymd "2024-1-15" = Return 738900
  ∧ strptime_Ymd "2024-01-15" = Return 738900
  ∧ ∃ slots slot cs ce b,
      fst (_generate_slots (Some monday_schedule) "2024-01-15" "consultation" (snd r))
        = Return slots
      ∧ slot ∈ slots
      ∧ available slot = true
      ∧ _parse_time "2024-01-15" (start_time slot) = Return cs
      ∧ _parse_time "2024-01-15" (end_time slot) = Return ce
      ∧ recorded monday_schedule "2024-1-15" (snd r) [b]
      ∧ _overlaps cs ce (fst b) (snd b) = true.
Proof.
  cbv zeta. split; [vm_compute; reflexivity|]. split; [vm_compute; reflexivity|].
  split; [vm_compute; reflexivity|].
  exists [ {| start_time := "09:00"; end_time := "09:30"; available := true |};
           {| start_time := "09:30"; end_time := "10:00"; available := true |} ],
         {| start_time := "09:00"; end_time := "09:30"; available := true |},
         1064016540, 1064016570, (1064016540, 1064016570).
  split; [vm_compute; reflexivity|].
  split; [apply list_elem_of_In; simpl; left; reflexivity|].
  split; [reflexivity|].
  split; [vm_compute; reflexivity|]. split; [vm_compute; reflexivity|].
  split; [|vm_compute; reflexivity].
  apply committed_recorded. vm_compute. reflexivity.
Qed.

(** Claim C3.  On a date whose weekday has working hours, for a known
    appointment type, the generated slots are the grid anchored at the
    opening time: the slot at position [i] starts [i] durations after the
    opening time and lasts one duration, so the first starts at the opening
    time, starts ascend, each slot begins where the previous one ends, no
    two overlap and none ends after the closing time; their number is the
    number of whole durations that fit in the window, so a last partial slot
    is left out.  The slots are generated as soon as the bookings of the
    date can be read, unless adding a duration at the end of the window
    leaves year 9999. *)
Theorem slots_form_grid (sched : Schedule) (d ty : string) (st : Store)
    (wd : string) (hours : WorkingHours) (dur : Z) (day_start day_end : datetime) :
  _get_weekday d = Return wd →
  working_hours sched !! wd = Some hours →
  APPOINTMENT_DURATIONS_MIN !! ty = Some dur →
  _parse_time d (wh_start hours) = Return day_start →
  _parse_time d (wh_end hours) = Return day_end →
  (∀ slots,
     fst (_generate_slots (Some sched) d ty st) = Return slots →
     Z.of_nat (length slots) = Z.max 0 ((day_end - day_start) / dur)
     ∧ (∀ i slot, slots !! i = Some slot →
          ∃ cs ce,
            _parse_time d (start_time slot) = Return cs
            ∧ _parse_time d (end_time slot) = Return ce
            ∧ cs = day_start + Z.of_nat i * dur
            ∧ ce = cs + dur
            ∧ ce <= day_end)
     ∧ (∀ i a b, slots !! i = Some a → slots !! S i = Some b →
          start_time b = end_time a)
     ∧ (∀ i j a b a_start a_end b_start b_end,
          i ≠ j → slots !! i = Some a → slots !! j = Some b →
          _parse_time d (start_time a) = Return a_start →
          _parse_time d (end_time a) = Return a_end →
          _parse_time d (start_time b) = Return b_start →
          _parse_time d (end_time b) = Return b_end →
          _overlaps a_start a_end b_start b_end = false))
  ∧ (∀ existing,
       fst (_collect_existing_bookings sched d st) = Return existing →
       day_start + dur <= dt_max → day_end + dur <= dt_max →
       ∃ slots, _generate_slots (Some sched) d ty st = (Return slots, st)).
Proof.
  intros Hwd Hh Hdur Hs He. split.
  - intros slots Hg. by eapply generated_slots_grid.
  - intros existing Hex Hov1 Hov2. by eapply generate_slots_returns.
Qed.

Lemma slots_form_grid_witness :
  (∀ slots,
     fst (_generate_slots (Some monday_schedule) "2024-01-15" "consultation" ∅)
       = Return slots →
     Z.of_nat (length slots) = Z.max 0 ((1064016600 - 1064016540) / 30)
     ∧ (∀ i slot, slots !! i = Some slot →
          ∃ cs ce,
            _parse_time "2024-01-15" (start_time slot) = Return cs
            ∧ _parse_time "2024-01-15" (end_time slot) = Return ce
            ∧ cs = 1064016540 + Z.of_nat i * 30
            ∧ ce = cs + 30
            ∧ ce <= 1064016600)
     ∧ (∀ i a b, slots !! i = Some a → slots !! S i = Some b →
          start_time b = end_time a)
     ∧ (∀ i j a b a_start a_end b_start b_end,
          i ≠ j → slots !! i = Some a → slots !! j = Some b →
          _parse_time "2024-01-15" (start_time a) = Return a_start →
          _parse_time "2024-01-15" (end_time a) = Return a_end →
          _parse_time "2024-01-15" (start_time b) = Return b_start →
          _parse_time "2024-01-15" (end_time b) = Return b_end →
          _overlaps a_start a_end b_start b_end = false))
  ∧ (∀ existing,
       fst (_collect_existing_bookings monday_schedule "2024-01-15" ∅)
         = Return existing →
       1064016540 + 30 <= dt_max → 1064016600 + 30 <= dt_max →
       ∃ slots, _generate_slots (Some monday_schedule) "2024-01-15" "consultation" ∅
                = (Return slots, ∅)).
Proof.
  apply (slots_form_grid monday_schedule "2024-01-15" "consultation" ∅ "monday"
           {| wh_start := "09:00"; wh_end := "10:00" |}); vm_compute; reflexivity.
Defined.

(** Claim C4.  A request for the start time of a generated slot that is
    available succeeds with status "confirmed" and appends the slot's pair
    to the list of the date; the same request made again right after it
    fails with the 409 conflict error, not with the outside-working-hours
    error, and writes nothing. *)
Theorem book_available_then_conflict (data_file : option Schedule)
    (req : BookingRequest) (rnd rnd' : Entropy) (st : Store)
    (slots : list Slot) (slot : Slot) :
  fst (_generate_slots data_file (req_date req) (req_appointment_type req) st)
    = Return slots →
  slot ∈ slots →
  available slot = true →
  req_start_time req = start_time slot →
  ∃ resp st',
    book_appointment data_file req rnd st = (Return resp, st')
    ∧ status resp = "confirmed"
    ∧ st' = <[req_date req := default [] (st !! req_date req)
                              ++ [(start_time slot, end_time slot)]]> st
    ∧ book_appointment data_file req rnd' st'
      = (Raise (HTTPException 409 "Requested time is no longer available"), st').
Proof.
  intros Hg Hin Hav Hst.
  exists (confirmation req rnd (end_time slot)),
         (commit st (req_date req) (slot_key slot)).
  split; [|split; [done|split; [done|]]].
  - rewrite (book_on_grid _ _ _ _ _ _ Hg Hin Hst). by rewrite Hav.
  - pose proof (generate_after_commit _ _ _ _ _ _ Hg Hin Hav) as Hg'.
    rewrite (book_on_grid _ _ _ _ _ (taken slot) Hg'); [done| |done].
    apply list_elem_of_fmap. exists slot. by rewrite decide_True.
Qed.

Lemma book_available_then_conflict_witness :
  ∃ resp st',
    book_appointment (Some monday_schedule) (consultation_at "09:00") rnd1 ∅
      = (Return resp, st')
    ∧ status resp = "confirmed"
    ∧ st' = <["2024-01-15" := default [] ((∅ : Store) !! "2024-01-15")
                              ++ [("09:00", "09:30")]]> ∅
    ∧ book_appointment (Some monday_schedule) (consultation_at "09:00") rnd2 st'
      = (Raise (HTTPException 409 "Requested time is no longer available"), st').
Proof.
  apply (book_available_then_conflict (Some monday_schedule)
           (consultation_at "09:00") rnd1 rnd2 ∅
           [ {| start_time := "09:00"; end_time := "09:30"; available := true |};
             {| start_time := "09:30"; end_time := "10:00"; available := true |} ]
           {| start_time := "09:00"; end_time := "09:30"; available := true |}).
  - vm_compute; reflexivity.
  - apply list_elem_of_In. simpl. left. reflexivity.
  - reflexivity.
  - reflexivity.
Defined.

(** Claim C1, as amended.  A date is the text [d] under which bookings are
    recorded, and its committed intervals are those of the entries of the
    schedule file for [d] together with those of the pairs that the runtime
    store holds under [d].  If the entries of the file for [d] are intervals
    that do not overlap one another, then after any sequence of
    [book_appointment] calls from the empty store, failed or successful,
    every record of [d] is an interval and no two of them overlap, under
    half-open semantics; and each single call preserves this from any
    store. *)
Theorem committed_never_overlap (sched : Schedule) (d : string) :
  free_of_overlap sched d ∅ →
  (∀ calls, free_of_overlap sched d (snd (book_all (Some sched) calls ∅)))
  ∧ (∀ st req rnd,
       free_of_overlap sched d st →
       free_of_overlap sched d (snd (book_appointment (Some sched) req rnd st))).
Proof.
  assert (∀ st req rnd,
            free_of_overlap sched d st →
            free_of_overlap sched d (snd (book_appointment (Some sched) req rnd st)))
    as Hstep.
  { intros st req rnd H%consistent_free_of_overlap.
    by apply consistent_free_of_overlap, book_preserves_consistent. }
  intros H0. split; [|done].
  intros calls. revert H0. generalize (∅ : Store).
  induction calls as [|[req rnd] calls IH]; intros st Hst; [done|].
  cbn [book_all fst snd]. by apply IH, Hstep.
Qed.

Lemma committed_never_overlap_witness :
  (∀ calls, free_of_overlap busy_schedule "2024-01-15"
              (snd (book_all (Some busy_schedule) calls ∅)))
  ∧ (∀ st req rnd,
       free_of_overlap busy_schedule "2024-01-15" st →
       free_of_overlap busy_schedule "2024-01-15"
         (snd (book_appointment (Some busy_schedule) req rnd st))).
Proof.
  apply (committed_never_overlap busy_schedule "2024-01-15").
  exists [(1064016600, 1064016630)]. split.
  - exists [(1064016600, 1064016630)], []. split; [reflexivity|].
    split; [|constructor].
    repeat constructor; vm_compute; reflexivity.
  - intros [|i] [|j] a b Hij Ha Hb; done.
Defined.

(** Claim C1 as stated fails in two ways.  When the schedule file itself has
    overlapping entries, two committed intervals of 2024-01-15 overlap before
    any booking.  And with a file whose entries do not overlap, one call
    under the text 2024-1-15 is confirmed for a time that the file has taken
    under 2024-01-15: the two texts are the same day, and the two intervals
    recorded for that day overlap. *)
Lemma recorded_overlap_counterexample :
  (∃ l a b,
     recorded overlapping_schedule "2024-01-15"
       (snd (book_all (Some overlapping_schedule) [] ∅)) l
     ∧ l !! 0%nat = Some a ∧ l !! 1%nat = Some b
     ∧ _overlaps (fst a) (snd a) (fst b) (snd b) = true)
  ∧ (let request := {| req_appointment_type := "consultation";
                       req_date := "2024-1-15";
                       req_start_time := "10:00";
                       req_patient := john;
                       req_reason := None |} in
     let r := book_all (Some busy_schedule) [(request, rnd1)] ∅ in
     fst r = [Return (confirmation request rnd1 "10:30")]
     ∧ free_of_overlap busy_schedule "2024-01-15" ∅
     ∧ strptime_Ymd "2024-1-15" = Return 738900
     ∧ strptime_Ymd "2024-01-15" = Return 738900
     ∧ ∃ a b,
         recorded busy_schedule "2024-01-15" (snd r) [a]
         ∧ recorded busy_schedule "2024-1-15" (snd r) [b]
         ∧ _overlaps (fst a) (snd a) (fst b) (snd b) = true).
Proof.
  split.
  - exists [(1064016540, 1064016600); (1064016570, 1064016630)],
           (1064016540, 1064016600), (1064016570, 1064016630).
    split; [apply committed_recorded; vm_compute; reflexivity|].
    repeat split; vm_compute; reflexivity.
  - cbv zeta. split; [vm_compute; reflexivity|]. split.
    { apply consistent_free_of_overlap. exists [(1064016600, 1064016630)].
      split; [vm_compute; reflexivity|]. intros [|i] [|j] a b Hij Ha Hb; done. }
    split; [vm_compute; reflexivity|]. split; [vm_compute; reflexivity|].
    exists (1064016600, 1064016630), (1064016600, 1064016630).
    split; [apply committed_recorded; vm_compute; reflexivity|].
    split; [apply committed_recorded; vm_compute; reflexivity|].
    vm_compute; reflexivity.
Qed.

(** Claim C10.  [book_appointment] looks the request up by the text of its
    start time and the formatted end time.  There is a request whose start
    time, "9:00", parses to the same instant as the start "09:00" of an
    available generated slot, and which fails all the same with the 400
    error "Requested time is outside working hours". *)
Theorem unpadded_start_rejected :
  ∃ (sched : Schedule) (req : BookingRequest) (rnd : Entropy) (st : Store)
    (slots : list Slot) (slot : Slot) (t : datetime),
    fst (_generate_slots (Some sched) (req_date req) (req_appointment_type req) st)
      = Return slots
    ∧ slot ∈ slots
    ∧ available slot = true
    ∧ _parse_time (req_date req) (start_time slot) = Return t
    ∧ _parse_time (req_date req) (req_start_time req) = Return t
    ∧ req_start_time req = "9:00"
    ∧ start_time slot = "09:00"
    ∧ book_appointment (Some sched) req rnd st
      = (Raise (HTTPException 400 "Requested time is outside working hours"), st).
Proof.
  exists monday_schedule, (consultation_at "9:00"), rnd1, ∅,
    [ {| start_time := "09:00"; end_time := "09:30"; available := true |};
      {| start_time := "09:30"; end_time := "10:00"; available := true |} ],
    {| start_time := "09:00"; end_time := "09:30"; available := true |},
    1064016540.
  split; [vm_compute; reflexivity|].
  split; [apply list_elem_of_In; simpl; by left|].
  repeat split; vm_compute; reflexivity.
Qed.

(** Claim C9 as stated fails: two interleaved calls for the same available
    slot both pass the check before either appends, both succeed, and the
    store ends with the interval twice. *)
Lemma concurrent_double_booking :
  run_schedule (Some monday_schedule) [0; 1; 0; 1]%nat
    [Entered (consultation_at "09:00") rnd1; Entered (consultation_at "09:00") rnd2] ∅
  = ([Finished (Return (confirmation (consultation_at "09:00") rnd1 "09:30"));
      Finished (Return (confirmation (consultation_at "09:00") rnd2 "09:30"))],
     {[ "2024-01-15" := [("09:00", "09:30"); ("09:00", "09:30")] ]}).
Proof. vm_compute. reflexivity. Qed.

(** Claim C9, as amended.  When calls of [book_appointment] for the same
    date, appointment type and start time of an available slot run one after
    the other, the first succeeds with status "confirmed", every other one
    fails with the 409 conflict error, and the store ends with the slot's
    pair appended once for that date, where it was not before. *)
Theorem serial_bookings_one_winner (data_file : option Schedule)
    (req : BookingRequest) (rnd : Entropy)
    (others : list (BookingRequest * Entropy)) (st : Store)
    (slots : list Slot) (slot : Slot) :
  fst (_generate_slots data_file (req_date req) (req_appointment_type req) st)
    = Return slots →
  slot ∈ slots →
  available slot = true →
  req_start_time req = start_time slot →
  Forall (λ c, req_date (fst c) = req_date req
               ∧ req_appointment_type (fst c) = req_appointment_type req
               ∧ req_start_time (fst c) = req_start_time req) others →
  ∃ resp,
    book_all data_file ((req, rnd) :: others) st
    = (Return resp
         :: replicate (length others)
              (Raise (HTTPException 409 "Requested time is no longer available")),
       <[req_date req := default [] (st !! req_date req)
                         ++ [(start_time slot, end_time slot)]]> st)
    ∧ status resp = "confirmed"
    ∧ (start_time slot, end_time slot) ∉ default [] (st !! req_date req).
Proof.
  intros Hg Hin Hav Hst Hothers.
  exists (confirmation req rnd (end_time slot)).
  split; [|split; [done|]].
  - cbn [book_all fst snd].
    rewrite (book_on_grid _ _ _ _ _ _ Hg Hin Hst), Hav. cbn [fst snd].
    pose proof (generate_after_commit _ _ _ _ _ _ Hg Hin Hav) as Hg'.
    rewrite (book_all_taken data_file others _
               ((λ s, if decide (s = slot) then taken s else s) <$> slots)
               (taken slot)); [done| |done|].
    + apply list_elem_of_fmap. exists slot. by rewrite decide_True.
    + eapply Forall_impl; [exact Hothers|]. intros [r e] (-> & -> & ->). cbn [fst].
      split; [exact Hg'|by rewrite Hst].
  - by apply (available_not_committed data_file _ _ _ _ _ Hg Hin Hav).
Qed.

Lemma serial_bookings_one_winner_witness :
  ∃ resp,
    book_all (Some monday_schedule)
      ((consultation_at "09:00", rnd1)
         :: [(consultation_at "09:00", rnd2); (consultation_at "09:00", rnd1)]) ∅
    = (Return resp
         :: replicate (length [(consultation_at "09:00", rnd2);
                               (consultation_at "09:00", rnd1)])
              (Raise (HTTPException 409 "Requested time is no longer available")),
       <["2024-01-15" := default [] ((∅ : Store) !! "2024-01-15")
                         ++ [("09:00", "09:30")]]> ∅)
    ∧ status resp = "confirmed"
    ∧ ("09:00", "09:30") ∉ default [] ((∅ : Store) !! "2024-01-15").
Proof.
  apply (serial_bookings_one_winner (Some monday_schedule)
           (consultation_at "09:00") rnd1
           [(consultation_at "09:00", rnd2); (consultation_at "09:00", rnd1)] ∅
           [ {| start_time := "09:00"; end_time := "09:30"; available := true |};
             {| start_time := "09:30"; end_time := "10:00"; available := true |} ]
           {| start_time := "09:00"; end_time := "09:30"; available := true |}).
  - vm_compute; reflexivity.
  - apply list_elem_of_In. simpl. left. reflexivity.
  - reflexivity.
  - reflexivity.
  - repeat constructor.
Defined.

(** ** Further properties of the module *)

(** Property X1.  [_overlaps] reads its arguments as half-open intervals: two
    non-empty intervals overlap exactly when some instant lies in both.
    Intervals that only touch, one ending when the other starts, share no
    instant. *)
Theorem overlaps_iff_common_instant (a_start a_end b_start b_end : datetime) :
  a_start < a_end → b_start < b_end →
  (_overlaps a_start a_end b_start b_end = true
   ↔ ∃ t, a_start <= t < a_end ∧ b_start <= t < b_end).
Proof.
  intros Ha Hb. rewrite overlaps_spec. split.
  - intros [H1 H2]. exists (Z.max a_start b_start). lia.
  - intros (t & H1 & H2). lia.
Qed.

Lemma overlaps_iff_common_instant_witness :
  _overlaps 540 570 555 600 = true ↔ ∃ t, 540 <= t < 570 ∧ 555 <= t < 600.
Proof. apply overlaps_iff_common_instant; lia. Defined.

(** Property X2.  For every instant [t] of the day that the date text [d]
    names, parsing the text [_format_time t] on [d] gives [t] back:
    [_format_time] drops the date and nothing else. *)
Theorem format_time_round_trip (d : string) (ord : Z) (t : datetime) :
  strptime_Ymd d = Return ord →
  ord * 1440 <= t < ord * 1440 + 1440 →
  _parse_time d (_format_time t) = Return t.
Proof. apply parse_format_time. Qed.

Lemma format_time_round_trip_witness :
  _parse_time "2024-01-15" (_format_time 1064016545) = Return 1064016545.
Proof.
  apply (format_time_round_trip "2024-01-15" 738900).
  - vm_compute; reflexivity.
  - lia.
Defined.

(** Property X3.  Whatever time text [_parse_time] accepts on a valid date,
    the instant it returns lies on that day, has the weekday of the date, and
    is also what the canonical text [_format_time t] parses to; a text such as
    [9:5] and its canonical form [09:05] name the same instant. *)
Theorem parse_time_same_day (d s : string) (ord : Z) (t : datetime) :
  strptime_Ymd d = Return ord →
  _parse_time d s = Return t →
  ord * 1440 <= t < ord * 1440 + 1440
  ∧ weekday_of_ord (t / 1440) = weekday_of_ord ord
  ∧ _parse_time d (_format_time t) = Return t.
Proof.
  intros Hd Hs. pose proof (parse_time_on_day _ _ _ _ Hd Hs) as Ht.
  split; [done|]. split.
  - f_equal. Z.to_euclidean_division_equations. lia.
  - by apply (parse_format_time d ord).
Qed.

Lemma parse_time_same_day_witness :
  738900 * 1440 <= 1064016545 < 738900 * 1440 + 1440
  ∧ weekday_of_ord (1064016545 / 1440) = weekday_of_ord 738900
  ∧ _parse_time "2024-01-15" (_format_time 1064016545) = Return 1064016545.
Proof.
  apply (parse_time_same_day "2024-01-15" "9:5" 738900 1064016545);
    vm_compute; reflexivity.
Defined.

(** Property X4.  On a valid date [_get_weekday] returns one of the seven
    names of its list, and two valid dates get the same name exactly when they
    lie a whole number of weeks apart. *)
Theorem get_weekday_same_iff_week_apart (d d' : string) (ord ord' : Z) :
  strptime_Ymd d = Return ord →
  strptime_Ymd d' = Return ord' →
  (∃ wd, _get_weekday d = Return wd ∧ wd ∈ weekday_names)
  ∧ (_get_weekday d = _get_weekday d' ↔ (ord - ord') mod 7 = 0).
Proof.
  intros Hd Hd'. unfold _get_weekday. rewrite Hd, Hd'. cbn [obind].
  unfold weekday_of_ord.
  pose proof (Z.mod_pos_bound (ord + 6) 7 ltac:(lia)) as Ha.
  pose proof (Z.mod_pos_bound (ord' + 6) 7 ltac:(lia)) as Hb.
  split.
  - eexists. split; [reflexivity|]. by apply weekday_name_elem.
  - split.
    + intros [= E]. apply weekday_name_inj in E; [|done..].
      Z.to_euclidean_division_equations. lia.
    + intros E. do 2 f_equal. Z.to_euclidean_division_equations. lia.
Qed.

Lemma get_weekday_same_iff_week_apart_witness :
  (∃ wd, _get_weekday "2024-01-15" = Return wd ∧ wd ∈ weekday_names)
  ∧ (_get_weekday "2024-01-15" = _get_weekday "2024-1-22"
     ↔ (738900 - 738907) mod 7 = 0).
Proof.
  apply get_weekday_same_iff_week_apart; vm_compute; reflexivity.
Defined.

(** Property X5.  [_collect_existing_bookings] returns the list [l], leaving
    the store as it was, exactly when [l] is made of the intervals of the
    file's entries whose date equals the date text, in the order of the file,
    followed by the intervals of the runtime entries of that date, in the
    order of booking, every start and end text parsing on that date. *)
Theorem collect_existing_bookings_spec (sched : Schedule) (d : string) (st : Store)
    (l : list (datetime * datetime)) :
  _collect_existing_bookings sched d st = (Return l, st)
  ↔ ∃ fl rl,
      l = fl ++ rl
      ∧ Forall2 (entry_interval d)
          (filter (λ e, eb_date e = Some d) (existing_bookings sched)) fl
      ∧ Forall2 (pair_interval d) (default [] (st !! d)) rl.
Proof.
  rewrite collect_existing_bookings_eq. split.
  - intros [= H].
    destruct (file_entries_loop _ d []) as [fl|] eqn:Ef; [|done]. cbn [obind] in H.
    destruct (runtime_entries_loop _ d []) as [rl|] eqn:Er; [|done].
    cbn [obind] in H. injection H as <-. exists fl, rl.
    split; [done|]. split; [by apply file_entries_loop_Forall2|].
    by apply runtime_entries_loop_Forall2.
  - intros (fl & rl & -> & Hf%file_entries_loop_Forall2
                         & Hr%runtime_entries_loop_Forall2).
    by rewrite Hf, Hr.
Qed.

(** Property X6.  What [_collect_existing_bookings] gives for a date depends
    only on the file's entries of that date and on the runtime list of that
    date: entries of other dates, even malformed ones, the working hours and
    the other lists of the store are not looked at. *)
Theorem collect_reads_only_its_date (sched sched' : Schedule) (d : string)
    (st st' : Store) :
  filter (λ e, eb_date e = Some d) (existing_bookings sched)
  = filter (λ e, eb_date e = Some d) (existing_bookings sched') →
  st !! d = st' !! d →
  fst (_collect_existing_bookings sched d st)
  = fst (_collect_existing_bookings sched' d st').
Proof.
  intros Hf Hs. rewrite !collect_existing_bookings_eq. cbn [fst].
  rewrite (file_entries_loop_filter (existing_bookings sched)),
          (file_entries_loop_filter (existing_bookings sched')), Hf, Hs. done.
Qed.

Lemma collect_reads_only_its_date_witness :
  fst (_collect_existing_bookings busy_schedule "2024-01-15" ∅)
  = fst (_collect_existing_bookings
           {| working_hours := ∅;
              existing_bookings :=
                {| eb_date := Some "2024-01-16"; eb_start_time := "late";
                   eb_end_time := "later" |} :: existing_bookings busy_schedule |}
           "2024-01-15" (commit ∅ "2024-01-16" ("09:00", "09:30"))).
Proof.
  apply collect_reads_only_its_date; vm_compute; reflexivity.
Defined.

(** Property X7.  One entry of the file for the date [d] whose start or end
    text does not parse makes [_collect_existing_bookings] raise [ValueError],
    and on a day with working hours the availability query for [d] then ends
    in that [ValueError] itself, not in an HTTP error: the [try] of
    [get_availability] covers the check of the date only. *)
Theorem malformed_entry_breaks_date (sched : Schedule) (d ty : string) (st : Store)
    (entry : ExistingBooking) (wd : string) (hours : WorkingHours) (dur : Z)
    (day_start day_end : datetime) :
  entry ∈ existing_bookings sched →
  eb_date entry = Some d →
  _parse_time d (eb_start_time entry) = Raise ValueError
  ∨ _parse_time d (eb_end_time entry) = Raise ValueError →
  _get_weekday d = Return wd →
  working_hours sched !! wd = Some hours →
  APPOINTMENT_DURATIONS_MIN !! ty = Some dur →
  _parse_time d (wh_start hours) = Return day_start →
  _parse_time d (wh_end hours) = Return day_end →
  _collect_existing_bookings sched d st = (Raise ValueError, st)
  ∧ get_availability (Some sched) d ty st = (Raise ValueError, st).
Proof.
  intros Hin Hd Hbad Hwd Hh Hdur Hs He.
  assert (_collect_existing_bookings sched d st = (Raise ValueError, st)) as Hc.
  { rewrite collect_existing_bookings_eq.
    rewrite (file_entries_loop_malformed _ _ _ entry Hin Hd); [done|].
    destruct Hbad as [Hbad|Hbad]; [left|right]; intros t; by rewrite Hbad. }
  split; [done|].
  apply get_weekday_Return in Hwd as (ord & Hord & ->).
  unfold get_availability. rewrite Hdur. rewrite decide_False by done.
  unfold bind at 1. unfold try_except_ValueError, lift. rewrite Hord. cbn [obind].
  rewrite (generate_slots_open (Some sched) sched d ty st ord hours dur
             day_start day_end eq_refl Hord Hh Hdur Hs He).
  by rewrite Hc.
Qed.

Lemma malformed_entry_breaks_date_witness :
  let sched := {| working_hours := working_hours monday_schedule;
                  existing_bookings :=
                    [ {| eb_date := Some "2024-01-15"; eb_start_time := "9am";
                         eb_end_time := "10:00" |} ] |} in
  _collect_existing_bookings sched "2024-01-15" ∅ = (Raise ValueError, ∅)
  ∧ get_availability (Some sched) "2024-01-15" "followup" ∅ = (Raise ValueError, ∅).
Proof.
  apply (malformed_entry_breaks_date _ "2024-01-15" "followup" ∅
           {| eb_date := Some "2024-01-15"; eb_start_time := "9am";
              eb_end_time := "10:00" |}
           "monday" {| wh_start := "09:00"; wh_end := "10:00" |} 15
           1064016540 1064016600).
  - apply list_elem_of_In. simpl. left. reflexivity.
  - reflexivity.
  - left. vm_compute. reflexivity.
  - vm_compute; reflexivity.
  - vm_compute; reflexivity.
  - vm_compute; reflexivity.
  - vm_compute; reflexivity.
  - vm_compute; reflexivity.
Defined.

(** Property X8.  The [while] loop of [_generate_slots] ends: with a positive
    duration it makes at most [day_end - day_start] rounds, so every larger
    bound on the rounds gives the same outcome, and that outcome is never the
    one of a bound that ran out. *)
Theorem slots_loop_bound_irrelevant (fuel : nat) (existing : list (datetime * datetime))
    (duration_min : Z) (day_start day_end : datetime) :
  0 < duration_min →
  (slots_fuel day_start day_end <= fuel)%nat →
  slots_loop fuel existing duration_min day_end day_start
  = slots_loop (slots_fuel day_start day_end) existing duration_min day_end day_start
  ∧ slots_loop fuel existing duration_min day_end day_start ≠ Raise FuelExhausted.
Proof.
  intros Hdur Hf.
  rewrite (slots_loop_more_fuel (slots_fuel day_start day_end) fuel)
    by (done || unfold slots_fuel; lia).
  split; [done|]. apply slots_loop_fuel; [done|unfold slots_fuel; lia].
Qed.

Lemma slots_loop_bound_irrelevant_witness :
  slots_loop 1000 [] 45 1064016600 1064016540
  = slots_loop (slots_fuel 1064016540 1064016600) [] 45 1064016600 1064016540
  ∧ slots_loop 1000 [] 45 1064016600 1064016540 ≠ Raise FuelExhausted.
Proof.
  apply slots_loop_bound_irrelevant; [lia|vm_compute; lia].
Defined.

(** Property X9.  For a schedule file that is missing or has the expected
    shape (it loads as JSON, has working hours whose non-empty entries have a
    start and an end, and bookings that have a start time and an end time),
    every error of [_generate_slots] has one of these causes: the schedule
    file is missing (HTTP 500); the date does not parse ([ValueError]); on a
    day with working hours, the appointment type is not in the table
    ([KeyError]), or a text of the working hours or of a booking of the date
    does not parse ([ValueError]), or the date is the last day of the year
    9999, where the cursor leaves the range of [datetime] ([OverflowError]).
    Files of another shape raise further errors, which this list does not
    cover. *)
Theorem generate_slots_error_causes (data_file : option Schedule) (d ty : string)
    (st : Store) (e : exn) :
  fst (_generate_slots data_file d ty st) = Raise e →
  (data_file = None ∧ e = HTTPException 500 "Schedule data not found")
  ∨ ∃ sched, data_file = Some sched ∧
      ((e = ValueError ∧ strptime_Ymd d = Raise ValueError)
       ∨ ∃ wd hours,
           _get_weekday d = Return wd ∧ working_hours sched !! wd = Some hours ∧
           ((e = KeyError ∧ APPOINTMENT_DURATIONS_MIN !! ty = None)
            ∨ (e = ValueError
               ∧ is_Some (APPOINTMENT_DURATIONS_MIN !! ty)
               ∧ (_parse_time d (wh_start hours) = Raise ValueError
                  ∨ _parse_time d (wh_end hours) = Raise ValueError
                  ∨ fst (_collect_existing_bookings sched d st) = Raise ValueError))
            ∨ (e = OverflowError
               ∧ is_Some (APPOINTMENT_DURATIONS_MIN !! ty)
               ∧ strptime_Ymd d = Return 3652059))).
Proof. apply generate_slots_Raise. Qed.

Lemma generate_slots_error_causes_witness :
  (Some monday_schedule = None ∧ KeyError = HTTPException 500 "Schedule data not found")
  ∨ ∃ sched, Some monday_schedule = Some sched ∧
      ((KeyError = ValueError ∧ strptime_Ymd "2024-01-15" = Raise ValueError)
       ∨ ∃ wd hours,
           _get_weekday "2024-01-15" = Return wd
           ∧ working_hours sched !! wd = Some hours ∧
           ((KeyError = KeyError ∧ APPOINTMENT_DURATIONS_MIN !! "massage" = None)
            ∨ (KeyError = ValueError
               ∧ is_Some (APPOINTMENT_DURATIONS_MIN !! "massage")
               ∧ (_parse_time "2024-01-15" (wh_start hours) = Raise ValueError
                  ∨ _parse_time "2024-01-15" (wh_end hours) = Raise ValueError
                  ∨ fst (_collect_existing_bookings sched "2024-01-15" ∅)
                    = Raise ValueError))
            ∨ (KeyError = OverflowError
               ∧ is_Some (APPOINTMENT_DURATIONS_MIN !! "massage")
               ∧ strptime_Ymd "2024-01-15" = Return 3652059))).
Proof.
  apply (generate_slots_error_causes (Some monday_schedule) "2024-01-15" "massage" ∅).
  vm_compute. reflexivity.
Defined.

(** Property X10.  For a schedule file that is missing or has the expected
    shape (it loads as JSON, has working hours whose non-empty entries have a
    start and an end, and bookings that have a start time and an end time),
    every error of [get_availability] is one of these: HTTP 400 for an
    appointment type outside the table; HTTP 400 for a date that does not
    parse, the type being known; and, type and date being good, HTTP 500 when
    the schedule file is missing, or, on a day with working hours, a
    [ValueError] from a text of the file that does not parse or an
    [OverflowError] on the last day of the year 9999. The last two are not
    HTTP errors. Files of another shape raise further errors, which this list
    does not cover. *)
Theorem get_availability_error_causes (data_file : option Schedule) (d ty : string)
    (st : Store) (e : exn) :
  fst (get_availability data_file d ty st) = Raise e →
  (e = HTTPException 400 "Invalid appointment_type"
   ∧ APPOINTMENT_DURATIONS_MIN !! ty = None)
  ∨ (e = HTTPException 400 "Invalid date format; expected YYYY-MM-DD"
     ∧ is_Some (APPOINTMENT_DURATIONS_MIN !! ty)
     ∧ strptime_Ymd d = Raise ValueError)
  ∨ ∃ ord,
      is_Some (APPOINTMENT_DURATIONS_MIN !! ty)
      ∧ strptime_Ymd d = Return ord
      ∧ ((e = HTTPException 500 "Schedule data not found" ∧ data_file = None)
         ∨ ∃ sched wd hours,
             data_file = Some sched ∧ _get_weekday d = Return wd
             ∧ working_hours sched !! wd = Some hours
             ∧ ((e = ValueError
                 ∧ (_parse_time d (wh_start hours) = Raise ValueError
                    ∨ _parse_time d (wh_end hours) = Raise ValueError
                    ∨ fst (_collect_existing_bookings sched d st) = Raise ValueError))
                ∨ (e = OverflowError ∧ ord = 3652059))).
Proof.
  unfold get_availability. case_decide as Hty.
  { intros [= <-]. by left. }
  intros H. right. apply not_eq_None_Some in Hty.
  unfold bind, try_except_ValueError, lift, raise in H.
  destruct (strptime_Ymd d) as [ord|e1] eqn:Hd; cbn [obind] in H.
  - right. exists ord. split; [done|]. split; [done|].
    by apply (generate_slots_Raise_valid data_file d ty st e ord).
  - left. apply strptime_Ymd_Raise in Hd as Hd'. subst e1.
    cbn in H. by injection H as <-.
Qed.

Lemma get_availability_error_causes_witness :
  let sched := {| working_hours :=
                    {[ "friday" := {| wh_start := "23:00"; wh_end := "23:59" |} ]};
                  existing_bookings := [] |} in
  let d := "9999-12-31" in
  let ty := "followup" in
  let e := OverflowError in
  (e = HTTPException 400 "Invalid appointment_type"
   ∧ APPOINTMENT_DURATIONS_MIN !! ty = None)
  ∨ (e = HTTPException 400 "Invalid date format; expected YYYY-MM-DD"
     ∧ is_Some (APPOINTMENT_DURATIONS_MIN !! ty)
     ∧ strptime_Ymd d = Raise ValueError)
  ∨ ∃ ord,
      is_Some (APPOINTMENT_DURATIONS_MIN !! ty)
      ∧ strptime_Ymd d = Return ord
      ∧ ((e = HTTPException 500 "Schedule data not found" ∧ Some sched = None)
         ∨ ∃ sched' wd hours,
             Some sched = Some sched' ∧ _get_weekday d = Return wd
             ∧ working_hours sched' !! wd = Some hours
             ∧ ((e = ValueError
                 ∧ (_parse_time d (wh_start hours) = Raise ValueError
                    ∨ _parse_time d (wh_end hours) = Raise ValueError
                    ∨ fst (_collect_existing_bookings sched' d ∅) = Raise ValueError))
                ∨ (e = OverflowError ∧ ord = 3652059))).
Proof.
  apply (get_availability_error_causes _ "9999-12-31" "followup" ∅).
  vm_compute. reflexivity.
Defined.

(** Property X11.  For a schedule file that is missing or has the expected
    shape (it loads as JSON, has working hours whose non-empty entries have a
    start and an end, and bookings that have a start time and an end time),
    every error of [book_appointment] is one of these: HTTP 400 for an
    appointment type outside the table; HTTP 400 when date and time do not
    parse together; and, these being good, HTTP 500 when the schedule file is
    missing, HTTP 400 when no generated slot has the requested start text,
    HTTP 409 when a generated slot has it and is not available, a [ValueError]
    when the date does not parse alone or a text of the file for that day does
    not parse, or an [OverflowError] for an instant of the last day of the
    year 9999. Files of another shape raise further errors, which this list
    does not cover. *)
Theorem book_appointment_error_causes (data_file : option Schedule)
    (req : BookingRequest) (rnd : Entropy) (st : Store) (e : exn) :
  fst (book_appointment data_file req rnd st) = Raise e →
  (e = HTTPException 400 "Invalid appointment_type"
   ∧ APPOINTMENT_DURATIONS_MIN !! req_appointment_type req = None)
  ∨ (e = HTTPException 400 "Invalid date/time format"
     ∧ _parse_time (req_date req) (req_start_time req) = Raise ValueError)
  ∨ ∃ start_dt,
      is_Some (APPOINTMENT_DURATIONS_MIN !! req_appointment_type req)
      ∧ _parse_time (req_date req) (req_start_time req) = Return start_dt
      ∧ ((e = HTTPException 500 "Schedule data not found" ∧ data_file = None)
         ∨ (e = HTTPException 400 "Requested time is outside working hours"
            ∧ ∃ slots,
                fst (_generate_slots data_file (req_date req)
                       (req_appointment_type req) st) = Return slots
                ∧ ∀ slot, slot ∈ slots → start_time slot ≠ req_start_time req)
         ∨ (e = HTTPException 409 "Requested time is no longer available"
            ∧ ∃ slots slot,
                fst (_generate_slots data_file (req_date req)
                       (req_appointment_type req) st) = Return slots
                ∧ slot ∈ slots ∧ start_time slot = req_start_time req
                ∧ available slot = false)
         ∨ (e = ValueError
            ∧ (strptime_Ymd (req_date req) = Raise ValueError
               ∨ ∃ sched wd hours,
                   data_file = Some sched
                   ∧ _get_weekday (req_date req) = Return wd
                   ∧ working_hours sched !! wd = Some hours
                   ∧ (_parse_time (req_date req) (wh_start hours) = Raise ValueError
                      ∨ _parse_time (req_date req) (wh_end hours) = Raise ValueError
                      ∨ fst (_collect_existing_bookings sched (req_date req) st)
                        = Raise ValueError)))
         ∨ (e = OverflowError ∧ 3652059 * 1440 <= start_dt)).
Proof.
  intros H.
  destruct (APPOINTMENT_DURATIONS_MIN !! req_appointment_type req) as [dur|] eqn:Hdur.
  2: { left. unfold book_appointment in H. rewrite Hdur in H.
       rewrite decide_True in H by done. cbn in H. by injection H as <-. }
  right.
  destruct (_parse_time (req_date req) (req_start_time req)) as [start_dt|e1] eqn:Hp.
  2: { left. apply parse_time_Raise in Hp as Hp'. subst e1.
       unfold book_appointment, bind, try_except_ValueError, lift, raise in H.
       rewrite Hdur, Hp in H. rewrite decide_False in H by done.
       cbn in H. by injection H as <-. }
  right. exists start_dt. split; [done|]. split; [done|].
  destruct (durations_range _ _ Hdur) as [Hpos Hle].
  destruct (dt_add start_dt dur) as [end_dt|e1] eqn:Ha.
  2: { do 4 right. apply dt_add_Raise in Ha as Ha'. subst e1.
       unfold book_appointment, bind, try_except_ValueError, lift, getitem in H.
       rewrite Hdur, Hp, Ha in H. rewrite decide_False in H by done.
       cbn in H. injection H as <-. split; [done|].
       unfold dt_add in Ha. case_match eqn:Hr; [done|].
       apply andb_false_iff in Hr as [Hr%Z.leb_gt|Hr%Z.leb_gt];
         unfold dt_min, dt_max in *; [|lia].
       destruct (strptime_Ymd (req_date req)) as [ord|] eqn:Hd.
       - pose proof (parse_time_on_day _ _ _ _ Hd Hp).
         pose proof (strptime_Ymd_range _ _ Hd). lia.
       - pose proof (parse_time_range _ _ _ Hp). unfold dt_min in *. lia. }
  destruct (fst (_generate_slots data_file (req_date req)
                   (req_appointment_type req) st)) as [slots|e1] eqn:Hg.
  - rewrite (book_appointment_open _ _ _ _ _ _ _ _ Hdur Hp Ha Hg) in H.
    destruct (slot_map_of slots !! _) as [slot|] eqn:Hm.
    + destruct (available slot) eqn:Hav; [done|].
      cbn [fst] in H. injection H as <-. do 2 right. left. split; [done|].
      apply slot_map_of_Some in Hm as [Hin Hkey].
      exists slots, slot. split; [done|]. split; [done|]. split; [|done].
      by apply (f_equal fst) in Hkey.
    + cbn [fst] in H. injection H as <-. right. left. split; [done|].
      exists slots. split; [done|]. intros slot Hin Hst.
      pose proof (book_appointment_open _ req rnd _ _ _ _ _ Hdur Hp Ha Hg) as Ho.
      rewrite Hm in Ho.
      rewrite (book_on_grid _ _ _ _ _ _ Hg Hin (eq_sym Hst)) in Ho.
      by destruct (available slot).
  - assert (e = e1) as ->.
    { unfold book_appointment, bind, try_except_ValueError, lift, getitem in H.
      rewrite Hdur, Hp, Ha in H. rewrite decide_False in H by done.
      destruct (_generate_slots _ _ _ st) as [[?|?] ?]; cbn [fst] in Hg, H; congruence. }
    destruct (strptime_Ymd (req_date req)) as [ord|e2] eqn:Hd.
    + destruct (generate_slots_Raise_valid data_file _ _ _ _ ord Hd (mk_is_Some _ _ Hdur) Hg)
        as [[-> ->]|(sched & wd & hours & -> & Hwd & Hh & [[-> Hc]|[-> ->]])].
      * by left.
      * do 3 right. left. split; [done|]. right. by exists sched, wd, hours.
      * do 4 right. split; [done|]. pose proof (parse_time_on_day _ _ _ _ Hd Hp). lia.
    + apply strptime_Ymd_Raise in Hd as Hd'. subst e2.
      destruct (generate_slots_Raise data_file _ _ _ _ Hg)
        as [[-> ->]|(sched & -> & [[-> _]|(wd & hours & Hwd & _)])].
      * by left.
      * do 3 right. left. split; [done|]. by left.
      * unfold _get_weekday in Hwd. by rewrite Hd in Hwd.
Qed.

Lemma book_appointment_error_causes_witness :
  let req := {| req_appointment_type := "special"; req_date := "9999-12-31";
                req_start_time := "23:30"; req_patient := john;
                req_reason := None |} in
  let e := OverflowError in
  (e = HTTPException 400 "Invalid appointment_type"
   ∧ APPOINTMENT_DURATIONS_MIN !! req_appointment_type req = None)
  ∨ (e = HTTPException 400 "Invalid date/time format"
     ∧ _parse_time (req_date req) (req_start_time req) = Raise ValueError)
  ∨ ∃ start_dt,
      is_Some (APPOINTMENT_DURATIONS_MIN !! req_appointment_type req)
      ∧ _parse_time (req_date req) (req_start_time req) = Return start_dt
      ∧ ((e = HTTPException 500 "Schedule data not found"
          ∧ Some monday_schedule = None)
         ∨ (e = HTTPException 400 "Requested time is outside working hours"
            ∧ ∃ slots,
                fst (_generate_slots (Some monday_schedule) (req_date req)
                       (req_appointment_type req) ∅) = Return slots
                ∧ ∀ slot, slot ∈ slots → start_time slot ≠ req_start_time req)
         ∨ (e = HTTPException 409 "Requested time is no longer available"
            ∧ ∃ slots slot,
                fst (_generate_slots (Some monday_schedule) (req_date req)
                       (req_appointment_type req) ∅) = Return slots
                ∧ slot ∈ slots ∧ start_time slot = req_start_time req
                ∧ available slot = false)
         ∨ (e = ValueError
            ∧ (strptime_Ymd (req_date req) = Raise ValueError
               ∨ ∃ sched wd hours,
                   Some monday_schedule = Some sched
                   ∧ _get_weekday (req_date req) = Return wd
                   ∧ working_hours sched !! wd = Some hours
                   ∧ (_parse_time (req_date req) (wh_start hours) = Raise ValueError
                      ∨ _parse_time (req_date req) (wh_end hours) = Raise ValueError
                      ∨ fst (_collect_existing_bookings sched (req_date req) ∅)
                        = Raise ValueError)))
         ∨ (e = OverflowError ∧ 3652059 * 1440 <= start_dt)).
Proof.
  apply (book_appointment_error_causes (Some monday_schedule) _ rnd1 ∅).
  vm_compute. reflexivity.
Defined.

(** Property X12.  Both endpoints check the appointment type before they look
    up its duration, so with a schedule file of the shape read here neither of
    them raises [KeyError], whatever the input; [_generate_slots] called on
    its own raises it only for an appointment type outside the table. *)
Theorem endpoints_never_KeyError (data_file : option Schedule) :
  (∀ req rnd st, fst (book_appointment data_file req rnd st) ≠ Raise KeyError)
  ∧ (∀ d ty st, fst (get_availability data_file d ty st) ≠ Raise KeyError)
  ∧ (∀ d ty st,
       fst (_generate_slots data_file d ty st) = Raise KeyError →
       APPOINTMENT_DURATIONS_MIN !! ty = None).
Proof.
  split; [apply book_appointment_not_KeyError|].
  split; [apply get_availability_not_KeyError|].
  intros d ty st Hk.
  destruct (generate_slots_Raise data_file d ty st KeyError Hk)
    as [[_ ?]|(sched & _ & [[? _]|(wd & hours & _ & _ & H)])]; try done.
  destruct H as [[_ H]|[[? _]|[? _]]]; congruence.
Qed.

(** Property X13.  [book_appointment] checks the date only together with the
    time. With the schedule file present, a date text that parses with the
    blank and the time after it but not alone (one that ends in a blank, say)
    passes that check and then makes [_get_weekday] raise [ValueError] outside
    the [try]: the call ends in that [ValueError], not in the HTTP 400 of a
    bad date, and the store is as before. *)
Theorem book_date_uncaught_ValueError (sched : Schedule) (req : BookingRequest)
    (rnd : Entropy) (st : Store) (dur : Z) (start_dt end_dt : datetime) :
  APPOINTMENT_DURATIONS_MIN !! req_appointment_type req = Some dur →
  _parse_time (req_date req) (req_start_time req) = Return start_dt →
  dt_add start_dt dur = Return end_dt →
  strptime_Ymd (req_date req) = Raise ValueError →
  book_appointment (Some sched) req rnd st = (Raise ValueError, st).
Proof.
  intros Hdur Hp Ha Hd.
  unfold book_appointment, bind, try_except_ValueError, lift, getitem.
  rewrite Hdur, Hp, Ha. rewrite decide_False by done.
  unfold _generate_slots, bind, lift, _load_schedule, _get_weekday.
  by rewrite Hd.
Qed.

Lemma book_date_uncaught_ValueError_witness :
  book_appointment (Some monday_schedule)
    {| req_appointment_type := "consultation"; req_date := "2024-01-15 ";
       req_start_time := "09:00"; req_patient := john; req_reason := None |} rnd1 ∅
  = (Raise ValueError, ∅).
Proof.
  apply (book_date_uncaught_ValueError monday_schedule _ rnd1 ∅ 30
           1064016540 1064016570); vm_compute; reflexivity.
Defined.

(** Property X14.  A confirmed booking names an interval on the grid of its
    day: the start and end texts of the response parse on the date to [cs] and
    [cs + duration], within the working hours of the weekday, [cs] a whole
    number of durations after the start of the day, and the requested start
    text is the canonical one. *)
Theorem booked_interval_within_hours (data_file : option Schedule)
    (req : BookingRequest) (rnd : Entropy) (st st' : Store)
    (resp : BookingResponse) :
  book_appointment data_file req rnd st = (Return resp, st') →
  ∃ sched wd hours dur day_start day_end cs,
    data_file = Some sched
    ∧ _get_weekday (req_date req) = Return wd
    ∧ working_hours sched !! wd = Some hours
    ∧ APPOINTMENT_DURATIONS_MIN !! req_appointment_type req = Some dur
    ∧ _parse_time (req_date req) (wh_start hours) = Return day_start
    ∧ _parse_time (req_date req) (wh_end hours) = Return day_end
    ∧ _parse_time (req_date req) (det_start_time (details resp)) = Return cs
    ∧ _parse_time (req_date req) (det_end_time (details resp)) = Return (cs + dur)
    ∧ day_start <= cs ∧ cs + dur <= day_end
    ∧ (cs - day_start) mod dur = 0
    ∧ det_start_time (details resp) = _format_time cs
    ∧ status resp = "confirmed".
Proof.
  intros (sched & ord & wd & hours & dur & ds & de & ex & n & i & Hf & Hd & Hwd
          & Hh & Hdur & Hs & He & Hex & Hi & Hle & Hst & Hfree & -> & ->)%book_Return_window.
  destruct (durations_range _ _ Hdur) as [Hpos _].
  pose proof (parse_time_on_day _ _ _ _ Hd Hs) as Hds.
  pose proof (parse_time_on_day _ _ _ _ Hd He) as Hde.
  exists sched, wd, hours, dur, ds, de, (ds + Z.of_nat i * dur).
  cbn [details confirmation det_start_time det_end_time status].
  split; [done|]. split; [done|]. split; [done|]. split; [done|].
  split; [done|]. split; [done|].
  split. { rewrite Hst. by apply (grid_parse_start (req_date req) ord dur ds de n Hd Hpos Hds Hde Hle ex). }
  split. { by apply (grid_parse_end (req_date req) ord dur ds de n Hd Hpos Hds Hde Hle ex). }
  split; [lia|]. split; [specialize (Hle i Hi); lia|].
  split; [|done].
  replace (ds + Z.of_nat i * dur - ds) with (Z.of_nat i * dur) by lia.
  apply Z.mod_mul. lia.
Qed.

Lemma booked_interval_within_hours_witness :
  ∃ sched wd hours dur day_start day_end cs,
    Some monday_schedule = Some sched
    ∧ _get_weekday (req_date (consultation_at "09:30")) = Return wd
    ∧ working_hours sched !! wd = Some hours
    ∧ APPOINTMENT_DURATIONS_MIN !! req_appointment_type (consultation_at "09:30")
      = Some dur
    ∧ _parse_time (req_date (consultation_at "09:30")) (wh_start hours)
      = Return day_start
    ∧ _parse_time (req_date (consultation_at "09:30")) (wh_end hours)
      = Return day_end
    ∧ _parse_time (req_date (consultation_at "09:30"))
        (det_start_time (details (confirmation (consultation_at "09:30") rnd1 "10:00")))
      = Return cs
    ∧ _parse_time (req_date (consultation_at "09:30"))
        (det_end_time (details (confirmation (consultation_at "09:30") rnd1 "10:00")))
      = Return (cs + dur)
    ∧ day_start <= cs ∧ cs + dur <= day_end
    ∧ (cs - day_start) mod dur = 0
    ∧ det_start_time (details (confirmation (consultation_at "09:30") rnd1 "10:00"))
      = _format_time cs
    ∧ status (confirmation (consultation_at "09:30") rnd1 "10:00") = "confirmed".
Proof.
  apply (booked_interval_within_hours (Some monday_schedule)
           (consultation_at "09:30") rnd1 ∅
           (commit ∅ "2024-01-15" ("09:30", "10:00"))).
  vm_compute. reflexivity.
Defined.

(** Property X15.  With the two UUIDs in the text form of [str(uuid.uuid4())],
    a confirmed booking has the id [APPT-], the day, a hyphen and eight
    upper-case hexadecimal digits, and a confirmation code of six upper-case
    hexadecimal digits: the cuts at 8 and 6 fall inside the first group of the
    UUID, before its first hyphen. *)
Theorem booking_codes_shape (data_file : option Schedule) (req : BookingRequest)
    (rnd : Entropy) (st st' : Store) (resp : BookingResponse) :
  uuid_text (uuid_booking rnd) = true →
  uuid_text (uuid_confirmation rnd) = true →
  book_appointment data_file req rnd st = (Return resp, st') →
  ∃ tail,
    booking_id resp = "APPT-" +:+ now_Ymd rnd +:+ "-" +:+ tail
    ∧ String.length tail = 8%nat ∧ all_hex_upper tail = true
    ∧ String.length (confirmation_code resp) = 6%nat
    ∧ all_hex_upper (confirmation_code resp) = true.
Proof.
  intros Hb Hc E.
  apply book_appointment_Return in E
    as (? & ? & ? & ? & ? & _ & _ & _ & _ & _ & _ & -> & _).
  cbn [booking_id confirmation_code confirmation].
  destruct (upper_prefix_hex 8 _ _ Hb) as [Hb1 Hb2].
  destruct (upper_prefix_hex 6 (replicate 2 false ++ _) _ Hc) as [Hc1 Hc2].
  by eexists.
Qed.

Lemma booking_codes_shape_witness :
  ∃ tail,
    booking_id (confirmation (consultation_at "09:00") rnd1 "09:30")
    = "APPT-" +:+ now_Ymd rnd1 +:+ "-" +:+ tail
    ∧ String.length tail = 8%nat ∧ all_hex_upper tail = true
    ∧ String.length (confirmation_code (confirmation (consultation_at "09:00") rnd1 "09:30"))
      = 6%nat
    ∧ all_hex_upper (confirmation_code (confirmation (consultation_at "09:00") rnd1 "09:30"))
      = true.
Proof.
  apply (booking_codes_shape (Some monday_schedule) (consultation_at "09:00") rnd1 ∅
           (commit ∅ "2024-01-15" ("09:00", "09:30")));
    vm_compute; reflexivity.
Defined.

(** Property X16.  Booking the start time of a slot that slot generation lists
    as not available, for the same date and appointment type, ends in HTTP 409
    and leaves the store as it was, whatever made the slot unavailable. *)
Theorem book_taken_slot_conflict (data_file : option Schedule)
    (req : BookingRequest) (rnd : Entropy) (st : Store)
    (slots : list Slot) (slot : Slot) :
  fst (_generate_slots data_file (req_date req) (req_appointment_type req) st)
    = Return slots →
  slot ∈ slots →
  available slot = false →
  req_start_time req = start_time slot →
  book_appointment data_file req rnd st
  = (Raise (HTTPException 409 "Requested time is no longer available"), st).
Proof.
  intros Hg Hin Hav Hst.
  rewrite (book_on_grid _ _ _ _ _ _ Hg Hin Hst). by rewrite Hav.
Qed.

Lemma book_taken_slot_conflict_witness :
  book_appointment (Some busy_schedule)
    {| req_appointment_type := "followup"; req_date := "2024-01-15";
       req_start_time := "10:15"; req_patient := john; req_reason := None |} rnd1 ∅
  = (Raise (HTTPException 409 "Requested time is no longer available"), ∅).
Proof.
  apply (book_taken_slot_conflict (Some busy_schedule) _ rnd1 ∅
           (grid [(1064016600, 1064016630)] 15 1064016540 32)
           {| start_time := "10:15"; end_time := "10:30"; available := false |}).
  - vm_compute; reflexivity.
  - apply list_elem_of_In. vm_compute. do 5 right. left. reflexivity.
  - reflexivity.
  - reflexivity.
Defined.

(** Property X17.  After a confirmed booking the slots of that date, for any
    appointment type and not only the booked one, are the slots from before
    with the flag cleared on those that overlap the booked interval: the same
    slots in the same order, and no other flag changes. *)
Theorem availability_after_booking (data_file : option Schedule)
    (req : BookingRequest) (rnd : Entropy) (st st' : Store)
    (resp : BookingResponse) (ty : string) (slots : list Slot) :
  book_appointment data_file req rnd st = (Return resp, st') →
  fst (_generate_slots data_file (req_date req) ty st) = Return slots →
  ∃ cs ce,
    _parse_time (req_date req) (det_start_time (details resp)) = Return cs
    ∧ _parse_time (req_date req) (det_end_time (details resp)) = Return ce
    ∧ fst (_generate_slots data_file (req_date req) ty st')
      = Return (block (req_date req) cs ce <$> slots).
Proof.
  intros E Hg.
  apply book_Return_window in E
    as (sched & ord & wd & hours & dur & ds & de & ex & n & i & Hf & Hd & Hwd
        & Hh & Hdur & Hs & He & Hex & Hi & Hle & Hst & Hfree & -> & ->).
  destruct (durations_range _ _ Hdur) as [Hpos _].
  pose proof (parse_time_on_day _ _ _ _ Hd Hs) as Hds.
  pose proof (parse_time_on_day _ _ _ _ Hd He) as Hde.
  pose proof (grid_parse_start (req_date req) ord dur ds de n Hd Hpos Hds Hde Hle ex i Hi)
    as Hps.
  pose proof (grid_parse_end (req_date req) ord dur ds de n Hd Hpos Hds Hde Hle ex i Hi)
    as Hpe.
  cbn [start_time end_time grid_slot] in Hps, Hpe.
  exists (ds + Z.of_nat i * dur), (ds + Z.of_nat i * dur + dur).
  cbn [details confirmation det_start_time det_end_time].
  split; [by rewrite Hst|]. split; [done|].
  by apply generate_after_commit_parsed.
Qed.

Lemma availability_after_booking_witness :
  ∃ cs ce,
    _parse_time (req_date (consultation_at "09:00"))
      (det_start_time (details (confirmation (consultation_at "09:00") rnd1 "09:30")))
    = Return cs
    ∧ _parse_time (req_date (consultation_at "09:00"))
        (det_end_time (details (confirmation (consultation_at "09:00") rnd1 "09:30")))
      = Return ce
    ∧ fst (_generate_slots (Some monday_schedule) (req_date (consultation_at "09:00"))
             "physical" (commit ∅ "2024-01-15" ("09:00", "09:30")))
      = Return (block (req_date (consultation_at "09:00")) cs ce
                  <$> grid [] 45 1064016540 1).
Proof.
  apply (availability_after_booking (Some monday_schedule) (consultation_at "09:00")
           rnd1 ∅); vm_compute; reflexivity.
Defined.

(** Property X18.  A call of [book_appointment], confirmed or not, changes
    nothing for another date text: the runtime list of that date and the
    result of the availability query for it are as before. *)
Theorem book_leaves_other_dates (data_file : option Schedule) (req : BookingRequest)
    (rnd : Entropy) (st : Store) (d ty : string) :
  req_date req ≠ d →
  snd (book_appointment data_file req rnd st) !! d = st !! d
  ∧ fst (get_availability data_file d ty (snd (book_appointment data_file req rnd st)))
    = fst (get_availability data_file d ty st).
Proof.
  intros Hne. pose proof (book_other_date data_file req rnd st d Hne) as H.
  split; [done|]. by apply get_availability_same_list.
Qed.

Lemma book_leaves_other_dates_witness :
  snd (book_appointment (Some busy_schedule) (consultation_at "09:00") rnd1 ∅)
    !! "2024-01-22" = (∅ : Store) !! "2024-01-22"
  ∧ fst (get_availability (Some busy_schedule) "2024-01-22" "special"
           (snd (book_appointment (Some busy_schedule) (consultation_at "09:00") rnd1 ∅)))
    = fst (get_availability (Some busy_schedule) "2024-01-22" "special" ∅).
Proof. apply book_leaves_other_dates. vm_compute. discriminate. Defined.

(** Property X19.  The store is keyed by the text of the date. Two different
    texts of the same day, such as [2024-01-15] and [2024-1-15], with the same
    start text name the same instant, yet a call for the one leaves the
    outcome of a call for the other as it was: a time booked under one text is
    not taken under the other. *)
Theorem same_day_other_text_not_blocked (data_file : option Schedule)
    (req req' : BookingRequest) (rnd rnd' : Entropy) (st : Store) (ord : Z) :
  req_date req ≠ req_date req' →
  strptime_Ymd (req_date req) = Return ord →
  strptime_Ymd (req_date req') = Return ord →
  req_start_time req' = req_start_time req →
  _parse_time (req_date req') (req_start_time req')
  = _parse_time (req_date req) (req_start_time req)
  ∧ fst (book_appointment data_file req' rnd'
           (snd (book_appointment data_file req rnd st)))
    = fst (book_appointment data_file req' rnd' st).
Proof.
  intros Hne Hd Hd' Hst. split.
  - rewrite (parse_time_after_date _ _ _ Hd), (parse_time_after_date _ _ _ Hd').
    by rewrite Hst.
  - apply book_appointment_same_list. by apply book_other_date.
Qed.

Lemma same_day_other_text_not_blocked_witness :
  let req := consultation_at "09:00" in
  let req' := {| req_appointment_type := "consultation"; req_date := "2024-1-15";
                 req_start_time := "09:00"; req_patient := john;
                 req_reason := None |} in
  _parse_time (req_date req') (req_start_time req')
  = _parse_time (req_date req) (req_start_time req)
  ∧ fst (book_appointment (Some monday_schedule) req' rnd2
           (snd (book_appointment (Some monday_schedule) req rnd1 ∅)))
    = fst (book_appointment (Some monday_schedule) req' rnd2 ∅).
Proof.
  apply (same_day_other_text_not_blocked (Some monday_schedule) _ _ rnd1 rnd2 ∅ 738900).
  - vm_compute. discriminate.
  - vm_compute. reflexivity.
  - vm_compute. reflexivity.
  - reflexivity.
Defined.

(** Property X20.  Every entry that calls of [book_appointment] put into the
    store, starting from the empty store, is well formed: its date text is a
    valid date, and its two texts are the canonical texts of two instants of
    that day, the first before the second, and parse back to them; reading the
    store back can not fail. *)
Theorem runtime_entries_well_formed (data_file : option Schedule)
    (calls : list (BookingRequest * Entropy)) (d start_str end_str : string) :
  (start_str, end_str) ∈ default [] (snd (book_all data_file calls ∅) !! d) →
  ∃ ord cs ce,
    strptime_Ymd d = Return ord
    ∧ ord * 1440 <= cs ∧ cs < ce ∧ ce < ord * 1440 + 1440
    ∧ start_str = _format_time cs ∧ end_str = _format_time ce
    ∧ _parse_time d start_str = Return cs ∧ _parse_time d end_str = Return ce.
Proof.
  intros Hin. apply (book_all_entry_ok data_file calls ∅) in Hin; [exact Hin|].
  intros d' p. rewrite lookup_empty. cbn. by intros ?%elem_of_nil.
Qed.

Lemma runtime_entries_well_formed_witness :
  ∃ ord cs ce,
    strptime_Ymd "2024-01-15" = Return ord
    ∧ ord * 1440 <= cs ∧ cs < ce ∧ ce < ord * 1440 + 1440
    ∧ "09:30" = _format_time cs ∧ "10:00" = _format_time ce
    ∧ _parse_time "2024-01-15" "09:30" = Return cs
    ∧ _parse_time "2024-01-15" "10:00" = Return ce.
Proof.
  apply (runtime_entries_well_formed (Some monday_schedule)
           [(consultation_at "09:00", rnd1); (consultation_at "9:30", rnd2);
            (consultation_at "09:30", rnd2)]).
  apply list_elem_of_In. vm_compute. right. left. reflexivity.
Defined.

(** Property X21.  The runtime list of a date only grows, and at its end:
    after any sequence of calls the old list is a prefix of the new one, which
    is longer by the number of calls that were confirmed for that date.
    Nothing is ever removed or rewritten. *)
Theorem store_grows_by_confirmations (data_file : option Schedule)
    (calls : list (BookingRequest * Entropy)) (st : Store) (d : string) :
  default [] (st !! d) `prefix_of` default [] (snd (book_all data_file calls st) !! d)
  ∧ length (default [] (snd (book_all data_file calls st) !! d))
    = (length (default [] (st !! d))
       + confirmed_on d calls (fst (book_all data_file calls st)))%nat.
Proof.
  revert st. induction calls as [|[req rnd] calls IH]; intros st.
  { cbn. split; [done|lia]. }
  cbn [book_all fst snd confirmed_on].
  destruct (IH (snd (book_appointment data_file req rnd st))) as [IH1 IH2].
  destruct (book_appointment data_file req rnd st) as [[resp|e] st'] eqn:E;
    cbn [fst snd] in *.
  - apply book_appointment_Return in E
      as (? & ? & ? & ? & ? & _ & _ & _ & _ & _ & _ & _ & ->).
    case_decide as Hd.
    + subst d. rewrite commit_lookup_same in IH1, IH2. split.
      * etrans; [|exact IH1]. by apply prefix_app_r.
      * rewrite IH2, length_app. cbn. lia.
    + rewrite commit_lookup_other in IH1, IH2 by done. split; [done|].
      rewrite IH2. lia.
  - apply book_appointment_Raise in E as ->. split; [done|].
    rewrite IH2. case_decide; lia.
Qed.

(** Property X22.  No sequence of calls makes a taken slot available again:
    after the calls, slot generation for the same date and type gives the same
    slots in the same order, and every slot that was not available before is
    not available after. *)
Theorem slots_never_released (data_file : option Schedule)
    (calls : list (BookingRequest * Entropy)) (st : Store) (d ty : string)
    (slots : list Slot) :
  fst (_generate_slots data_file d ty st) = Return slots →
  ∃ slots',
    fst (_generate_slots data_file d ty (snd (book_all data_file calls st)))
    = Return slots'
    ∧ Forall2 (λ s s', start_time s' = start_time s ∧ end_time s' = end_time s
                       ∧ (available s = false → available s' = false)) slots slots'.
Proof.
  intros Hg.
  destruct (book_all_never_released data_file calls st d ty slots Hg) as (s' & Hg' & H).
  exists s'. split; [done|]. eapply Forall2_impl; [exact H|].
  intros x y [Hk Ha]. unfold slot_key in Hk.
  pose proof (f_equal fst Hk) as Hk1. pose proof (f_equal snd Hk) as Hk2.
  cbn [fst snd] in Hk1, Hk2.
  split; [done|]. split; [done|]. intros Hx. destruct (available y); [|done].
  rewrite Ha in Hx; done.
Qed.

Lemma slots_never_released_witness :
  ∃ slots',
    fst (_generate_slots (Some monday_schedule) "2024-01-15" "followup"
           (snd (book_all (Some monday_schedule)
                   [(consultation_at "09:00", rnd1); (consultation_at "09:00", rnd2)]
                   (commit ∅ "2024-01-15" ("09:45", "10:00")))))
    = Return slots'
    ∧ Forall2 (λ s s', start_time s' = start_time s ∧ end_time s' = end_time s
                       ∧ (available s = false → available s' = false))
        (grid [(1064016585, 1064016600)] 15 1064016540 4) slots'.
Proof.
  apply slots_never_released. vm_compute. reflexivity.
Defined.

(** Property X23.  The flow of [test_booking_flow], for any schedule file,
    date, appointment type and store: when the availability query succeeds and
    lists an available slot, booking the start time of the first such slot is
    confirmed and echoes that start time, and booking the same again ends in
    HTTP 409. *)
Theorem booking_flow (data_file : option Schedule) (d ty : string)
    (patient : Patient) (reason : option string) (rnd rnd' : Entropy) (st : Store)
    (slots : list Slot) (slot : Slot) :
  fst (get_availability data_file d ty st) = Return slots →
  find available slots = Some slot →
  let payload := {| req_appointment_type := ty; req_date := d;
                    req_start_time := start_time slot;
                    req_patient := patient; req_reason := reason |} in
  ∃ resp st',
    book_appointment data_file payload rnd st = (Return resp, st')
    ∧ status resp = "confirmed"
    ∧ det_start_time (details resp) = req_start_time payload
    ∧ fst (book_appointment data_file payload rnd' st')
      = Raise (HTTPException 409 "Requested time is no longer available").
Proof.
  intros Hg%get_availability_Return Hfind payload.
  apply find_some in Hfind as [Hin%list_elem_of_In Hav].
  exists (confirmation payload rnd (end_time slot)),
         (commit st d (slot_key slot)).
  split; [|split; [done|split; [done|]]].
  - rewrite (book_on_grid data_file payload rnd st slots slot Hg Hin eq_refl).
    by rewrite Hav.
  - pose proof (generate_after_commit _ _ _ _ _ _ Hg Hin Hav) as Hg'.
    rewrite (book_on_grid data_file payload rnd' _ _ (taken slot) Hg'); [done| |done].
    apply list_elem_of_fmap. exists slot. by rewrite decide_True.
Qed.

Lemma booking_flow_witness :
  let payload := {| req_appointment_type := "consultation"; req_date := "2024-01-15";
                    req_start_time := "09:00";
                    req_patient := john; req_reason := Some "Annual checkup" |} in
  ∃ resp st',
    book_appointment (Some busy_schedule) payload rnd1 ∅ = (Return resp, st')
    ∧ status resp = "confirmed"
    ∧ det_start_time (details resp) = req_start_time payload
    ∧ fst (book_appointment (Some busy_schedule) payload rnd2 st')
      = Raise (HTTPException 409 "Requested time is no longer available").
Proof.
  apply (booking_flow (Some busy_schedule) "2024-01-15" "consultation" john
           (Some "Annual checkup") rnd1 rnd2 ∅
           (grid [(1064016600, 1064016630)] 30 1064016540 16)
           {| start_time := "09:00"; end_time := "09:30"; available := true |}).
  - vm_compute; reflexivity.
  - vm_compute; reflexivity.
Defined.
